(** * LangGraph chatbot: workflow engine and session cache

    A shallow embedding of the query-routing engine
    ([chatbot/workflows/nodes.py], [chatbot/workflows/chatbot_graph.py]),
    its validators ([chatbot/utils/validators.py]), the session cache
    ([chatbot/services/cache_service.py]), the orchestrating service
    ([chatbot/services/chatbot_service.py]) and the queries of the message
    store ([chatbot/services/message_service.py]).

    Conventions.
    - A Python [str] is a [string]; a character is a code point below 256
      (the Latin-1 block), so [len] is [String.length] and the character
      classes below are Python's own restricted to that block.
    - Python integers are [Z].
    - [datetime] values are [Z] microseconds (the resolution of [datetime]).
    - [print] calls are not modelled. *)

From Stdlib Require Import ZArith NArith Ascii String List Bool Lia.
From stdpp Require Import base option list strings pretty gmap fin_maps.

Local Open Scope string_scope.
Local Open Scope Z_scope.

(** ** Characters *)

Module Chars.

Definition code (c : ascii) : N := N_of_ascii c.

Definition between (lo hi : N) (c : ascii) : bool :=
  ((lo <=? code c) && (code c <=? hi))%N.

Definition one_of (l : list N) (c : ascii) : bool :=
  existsb (N.eqb (code c)) l.

(** [str.isspace] on one character, which is also what [\s] and
    [str.strip] use: TAB..CR, FS..US, space, NEL and NBSP. *)
Definition is_space (c : ascii) : bool :=
  between 9 13 c || between 28 32 c || one_of [133; 160]%N c.

(** [\d]: the decimal digits (category Nd); below 256 these are 0-9. *)
Definition is_decimal (c : ascii) : bool := between 48 57 c.

(** [str.isalpha] below 256. *)
Definition is_alpha (c : ascii) : bool :=
  between 65 90 c || between 97 122 c || one_of [170; 181; 186]%N c
  || between 192 214 c || between 216 246 c || between 248 255 c.

(** [\w]: alphanumeric ([isalpha], [isdecimal], [isdigit] or [isnumeric])
    or the underscore. The superscripts and vulgar fractions of Latin-1 are
    [isdigit] / [isnumeric]. *)
Definition is_word (c : ascii) : bool :=
  is_alpha c || is_decimal c || one_of [178; 179; 185; 188; 189; 190]%N c
  || one_of [95]%N c.

(** [str.lower] on one character. *)
Definition lower (c : ascii) : ascii :=
  if between 65 90 c || between 192 214 c || between 216 222 c
  then ascii_of_N (code c + 32)
  else c.

End Chars.

(** ** Strings *)

Module Str.

Fixpoint map (f : ascii -> ascii) (s : string) : string :=
  match s with
  | EmptyString => EmptyString
  | String c s' => String (f c) (map f s')
  end.

(** [s.lower()] *)
Definition lower (s : string) : string := map Chars.lower s.

(** [len(s)] *)
Definition len (s : string) : Z := Z.of_nat (String.length s).

Fixpoint lstrip (s : string) : string :=
  match s with
  | EmptyString => EmptyString
  | String c s' => if Chars.is_space c then lstrip s' else s
  end.

Fixpoint rstrip (s : string) : string :=
  match s with
  | EmptyString => EmptyString
  | String c s' =>
      match rstrip s' with
      | EmptyString => if Chars.is_space c then EmptyString else String c EmptyString
      | r => String c r
      end
  end.

(** [s.strip()] *)
Definition strip (s : string) : string := rstrip (lstrip s).

(** Truthiness of a string: [bool(s)]. *)
Definition truthy (s : string) : bool :=
  match s with EmptyString => false | _ => true end.

(** [needle in s] *)
Fixpoint contains (needle s : string) : bool :=
  String.prefix needle s
  || match s with
     | EmptyString => false
     | String _ s' => contains needle s'
     end.

(** [c * n] for a one-character string [c] *)
Fixpoint replicate (n : nat) (c : ascii) : string :=
  match n with
  | O => EmptyString
  | S n' => String c (replicate n' c)
  end.

(** [sep.join(l)] *)
Fixpoint join (sep : string) (l : list string) : string :=
  match l with
  | [] => ""
  | [x] => x
  | x :: l' => x ++ sep ++ join sep l'
  end.

End Str.

(** ** The fragment of Python's [re] the program uses

    Every repetition in the program's patterns is over a single-character
    atom, so repetition is kept at that level; the matcher is a backtracking
    matcher with Python's priorities (leftmost alternative first, greedy
    repetitions longest first, lazy ones shortest first). *)

Module Re.

Inductive charset : Type :=
| CLit (c : ascii)             (* a literal character *)
| CDigit                       (* \d *)
| CWord                        (* \w *)
| CSpace                       (* \s *)
| CDot                         (* .  (no DOTALL: anything but a newline) *)
| CAnyOf (l : list ascii)      (* [...] *)
| CNoneOf (l : list ascii).    (* [^...] *)

Inductive regex : Type :=
| Eps
| Atom (cs : charset)
| Rep (cs : charset) (min : nat) (greedy : bool)  (* x*, x+, x*? *)
| Cat (r1 r2 : regex)
| Or (r1 r2 : regex)
| WordBoundary.                                   (* \b *)

Definition ascii_in (c : ascii) (l : list ascii) : bool :=
  existsb (Ascii.eqb c) l.

(** Membership of a character in an atom; [ic] is [re.IGNORECASE]. *)
Definition charset_mem (ic : bool) (cs : charset) (c : ascii) : bool :=
  let fold (x : ascii) := if ic then Chars.lower x else x in
  match cs with
  | CLit x => Ascii.eqb (fold c) (fold x)
  | CDigit => Chars.is_decimal c
  | CWord => Chars.is_word c
  | CSpace => Chars.is_space c
  | CDot => negb (Ascii.eqb c "010"%char)
  | CAnyOf l => ascii_in (fold c) (List.map fold l)
  | CNoneOf l => negb (ascii_in (fold c) (List.map fold l))
  end.

(** A matcher takes the character before the current position (for [\b])
    and the rest of the subject, and returns the rest after the match. *)
Definition cont : Type := option ascii -> string -> option string.

Definition orelse (a : option string) (b : unit -> option string) : option string :=
  match a with
  | Some x => Some x
  | None => b tt
  end.

Fixpoint rep_match (ic : bool) (cs : charset) (greedy : bool) (k : cont)
    (min : nat) (prev : option ascii) (s : string) {struct s} : option string :=
  let stop (_ : unit) :=
    match min with O => k prev s | S _ => None end in
  let more (_ : unit) :=
    match s with
    | String c s' =>
        if charset_mem ic cs c
        then rep_match ic cs greedy k (Nat.pred min) (Some c) s'
        else None
    | EmptyString => None
    end in
  if greedy then orelse (more tt) stop else orelse (stop tt) more.

Definition is_word_opt (c : option ascii) : bool :=
  match c with
  | Some x => Chars.is_word x
  | None => false
  end.

Definition next_char (s : string) : option ascii :=
  match s with
  | String c _ => Some c
  | EmptyString => None
  end.

Fixpoint rmatch (ic : bool) (r : regex) (k : cont) (prev : option ascii)
    (s : string) {struct r} : option string :=
  match r with
  | Eps => k prev s
  | Atom cs =>
      match s with
      | String c s' => if charset_mem ic cs c then k (Some c) s' else None
      | EmptyString => None
      end
  | Rep cs min greedy => rep_match ic cs greedy k min prev s
  | Cat r1 r2 => rmatch ic r1 (rmatch ic r2 k) prev s
  | Or r1 r2 => orelse (rmatch ic r1 k prev s) (fun _ => rmatch ic r2 k prev s)
  | WordBoundary =>
      if xorb (is_word_opt prev) (is_word_opt (next_char s))
      then k prev s
      else None
  end.

(** A match of [r] starting exactly at the current position. *)
Definition match_at (ic : bool) (r : regex) (prev : option ascii) (s : string)
    : option string :=
  rmatch ic r (fun _ rest => Some rest) prev s.

Fixpoint search_from (ic : bool) (r : regex) (prev : option ascii) (s : string)
    : bool :=
  match match_at ic r prev s with
  | Some _ => true
  | None =>
      match s with
      | String c s' => search_from ic r (Some c) s'
      | EmptyString => false
      end
  end.

(** [bool(re.search(r, s))] *)
Definition search (ic : bool) (r : regex) (s : string) : bool :=
  search_from ic r None s.

(** [re.sub(r, repl, s)]: the leftmost non-overlapping matches are replaced.
    [skip] counts the characters of the current match still to be dropped.
    The three patterns the program substitutes never match the empty string;
    an empty match is treated as no match. *)
Fixpoint sub_from (ic : bool) (r : regex) (repl : string) (skip : nat)
    (prev : option ascii) (s : string) : string :=
  match s with
  | EmptyString => EmptyString
  | String c s' =>
      match skip with
      | S n => sub_from ic r repl n (Some c) s'
      | O =>
          match match_at ic r prev s with
          | Some rest =>
              match (String.length s - String.length rest)%nat with
              | O => String c (sub_from ic r repl 0 (Some c) s')
              | S n => repl ++ sub_from ic r repl n (Some c) s'
              end
          | None => String c (sub_from ic r repl 0 (Some c) s')
          end
      end
  end.

Definition sub (ic : bool) (r : regex) (repl : string) (s : string) : string :=
  sub_from ic r repl 0 None s.

(** Pattern builders. *)
Fixpoint lit (s : string) : regex :=
  match s with
  | EmptyString => Eps
  | String c s' => Cat (Atom (CLit c)) (lit s')
  end.

Definition seq (l : list regex) : regex := fold_right Cat Eps l.

Fixpoint alt (l : list regex) : regex :=
  match l with
  | [] => Eps
  | [r] => r
  | r :: l' => Or r (alt l')
  end.

Definition star (cs : charset) : regex := Rep cs 0 true.
Definition plus (cs : charset) : regex := Rep cs 1 true.
Definition star_lazy (cs : charset) : regex := Rep cs 0 false.

End Re.

(** ** [chatbot/utils/validators.py] *)

Module QueryValidator.

Import Re.

Definition MAX_QUERY_LENGTH : Z := 5000.
Definition MIN_QUERY_LENGTH : Z := 1.

Definition harmful_patterns : list regex :=
  [ (* <script[^>]*>.*?</script> *)
    seq [lit "<script"; star (CNoneOf [">"%char]); lit ">"; star_lazy CDot;
         lit "</script>"];
    (* javascript: *)
    lit "javascript:";
    (* on\w+\s*= *)
    seq [lit "on"; plus CWord; star CSpace; lit "="] ].

Definition _contains_harmful_content (query : string) : bool :=
  let query_lower := Str.lower query in
  existsb (fun pattern => search true pattern query_lower) harmful_patterns.

(** [validate_query] on a [str] argument (the [None] and non-string
    branches are excluded by the argument's type). *)
Definition validate_query (query : string) : bool * option string :=
  let query := Str.strip query in
  if Str.len query <? MIN_QUERY_LENGTH then (false, Some "Query is too short")
  else if Str.len query >? MAX_QUERY_LENGTH
       then (false, Some ("Query is too long (max " ++ pretty MAX_QUERY_LENGTH ++ " characters)"))
  else if _contains_harmful_content query
       then (false, Some "Query contains potentially harmful content")
  else (true, None).

Definition calculation_indicators : list regex :=
  [ (* \d+\s*[\+\-\*\/\^\%\(\)]\s*\d+ *)
    seq [plus CDigit; star CSpace;
         Atom (CAnyOf ["+"; "-"; "*"; "/"; "^"; "%"; "("; ")"]%char);
         star CSpace; plus CDigit];
    seq [WordBoundary; lit "calculate"; WordBoundary];
    seq [WordBoundary; lit "compute"; WordBoundary];
    seq [WordBoundary; lit "solve"; WordBoundary];
    seq [WordBoundary; lit "what is "; plus CDigit];
    seq [WordBoundary; lit "math"; WordBoundary];
    seq [WordBoundary; lit "sum of"; WordBoundary];
    seq [WordBoundary; lit "product of"; WordBoundary];
    seq [WordBoundary; lit "difference"; WordBoundary];
    seq [WordBoundary; lit "quotient"; WordBoundary] ].

Definition is_calculation_query (query : string) : bool :=
  let query_lower := Str.lower query in
  existsb (fun pattern => search false pattern query_lower) calculation_indicators.

Definition sanitize_query (query : string) : string :=
  (* <[^>]+> *)
  let query := sub false (seq [lit "<"; plus (CNoneOf [">"%char]); lit ">"]) "" query in
  (* \s+ *)
  let query := sub false (plus CSpace) " " query in
  Str.strip query.

End QueryValidator.

(** [validate_and_sanitize_query]: [inl] is the raised [ValidationError]. *)
Definition validate_and_sanitize_query (query : string) : string + string :=
  match QueryValidator.validate_query query with
  | (false, error) => inl (default "None" error)
  | (true, _) => inr (QueryValidator.sanitize_query query)
  end.

Module SessionValidator.

(** The characters of [[a-zA-Z0-9\-_]]. *)
Definition session_id_chars : Re.charset :=
  Re.CAnyOf (list_ascii_of_string
    "abcdefghijklmnopqrstuvwxyzABCDEFGHIJKLMNOPQRSTUVWXYZ0123456789-_").

(** [$] without [re.MULTILINE]: the end of the string, or just before a
    newline that ends the string. *)
Definition at_end (rest : string) : bool :=
  match rest with
  | EmptyString => true
  | String c EmptyString => Ascii.eqb c "010"%char
  | _ => false
  end.

(** [bool(re.match(r'^[a-zA-Z0-9\-_]+$', s))]: the repetition is matched
    from the start of the string and [$] is tried where it stops. *)
Definition matches_id_pattern (s : string) : bool :=
  match Re.rmatch false (Re.plus session_id_chars)
          (fun _ rest => if at_end rest then Some rest else None) None s with
  | Some _ => true
  | None => false
  end.

(** [validate_session_id] on an [Optional[str]] argument. *)
Definition validate_session_id (session_id : option string) : bool * option string :=
  match session_id with
  | None => (false, Some "Session ID is required")
  | Some s =>
      if negb (Str.truthy s) then (false, Some "Session ID is required")
      else if Str.len s >? 255 then (false, Some "Session ID is too long")
      else if negb (matches_id_pattern s)
           then (false, Some "Session ID contains invalid characters")
      else (true, None)
  end.

End SessionValidator.

(** ** [chatbot/services/cache_service.py] *)

(** One entry of a chat history: a dict with keys ['type'], ['content'] and,
    on user entries, ['query_type'] (absent on assistant entries). *)
Record message : Type := Message {
  m_type : string;
  m_content : string;
  m_query_type : option string
}.

Module CacheService.

(** A cache entry: [{'history': ..., 'timestamp': ...}]. *)
Record session_data : Type := SessionData {
  history : list message;
  timestamp : Z
}.

(** [_session_cache : Dict[str, Dict]] *)
Abbreviation cache := (gmap string session_data).

Definition CACHE_EXPIRATION_MINUTES : Z := 60.

(** [timedelta(minutes=m)], in microseconds. *)
Definition timedelta_minutes (m : Z) : Z := m * 60 * 1000000.

(** [_is_expired]; [now] is the value [datetime.now()] returns. *)
Definition _is_expired (now : Z) (timestamp : Z) : bool :=
  let expiration_time := timedelta_minutes CACHE_EXPIRATION_MINUTES in
  now - timestamp >? expiration_time.

Definition clear_session (session_id : string) (c : cache) : bool * cache :=
  match c !! session_id with
  | Some _ => (true, delete session_id c)
  | None => (false, c)
  end.

Definition get_session_history (now : Z) (session_id : string) (c : cache)
    : list message * cache :=
  match c !! session_id with
  | None => ([], c)
  | Some data =>
      if _is_expired now (timestamp data)
      then ([], snd (clear_session session_id c))
      else (history data, c)
  end.

Definition save_session_history (now : Z) (session_id : string)
    (history : list message) (c : cache) : cache :=
  <[session_id := SessionData history now]> c.

Definition clear_all_sessions (c : cache) : Z * cache :=
  let count := Z.of_nat (size c) in
  (count, ∅).

(** The sweep; the clock is read once for the whole scan. *)
Definition cleanup_expired_sessions (now : Z) (c : cache) : Z * cache :=
  let expired_sessions :=
    fst <$> filter (fun kv => _is_expired now (timestamp (snd kv)) = true)
                   (map_to_list c) in
  let c' := foldl (fun acc session_id => snd (clear_session session_id acc))
                  c expired_sessions in
  (Z.of_nat (length expired_sessions), c').

Definition get_session_count (c : cache) : Z := Z.of_nat (size c).

Definition session_exists (now : Z) (session_id : string) (c : cache) : bool :=
  match c !! session_id with
  | None => false
  | Some data => negb (_is_expired now (timestamp data))
  end.

End CacheService.

(** ** [chatbot/workflows/nodes.py] *)

(** [GraphState]: the record threaded through the workflow. *)
Record GraphState : Type := mkGraphState {
  user_query : string;
  query_type : string;
  response : string;
  calculation_result : string;
  error : string;
  chat_history : list message;
  session_id : string
}.

Definition set_user_query (v : string) (st : GraphState) : GraphState :=
  mkGraphState v (query_type st) (response st) (calculation_result st)
    (error st) (chat_history st) (session_id st).
Definition set_query_type (v : string) (st : GraphState) : GraphState :=
  mkGraphState (user_query st) v (response st) (calculation_result st)
    (error st) (chat_history st) (session_id st).
Definition set_response (v : string) (st : GraphState) : GraphState :=
  mkGraphState (user_query st) (query_type st) v (calculation_result st)
    (error st) (chat_history st) (session_id st).
Definition set_calculation_result (v : string) (st : GraphState) : GraphState :=
  mkGraphState (user_query st) (query_type st) (response st) v
    (error st) (chat_history st) (session_id st).
Definition set_error (v : string) (st : GraphState) : GraphState :=
  mkGraphState (user_query st) (query_type st) (response st)
    (calculation_result st) v (chat_history st) (session_id st).
Definition set_chat_history (v : list message) (st : GraphState) : GraphState :=
  mkGraphState (user_query st) (query_type st) (response st)
    (calculation_result st) (error st) v (session_id st).

(** What [self.llm.invoke(prompt)] does: it returns a message with some
    [content], or raises; [e] is [str(e)] of the exception. *)
Inductive llm_outcome : Type :=
| LLMContent (content : string)
| LLMRaise (e : string).

(** A Python scalar as [.item()] returns it: an [int], or any other scalar
    (float, bool, complex) carried by its [str] rendering. *)
Inductive scalar : Type :=
| PyInt (z : Z)
| PyOther (text : string).

(** [str(result)], which is also how an f-string renders it. *)
Definition py_str (x : scalar) : string :=
  match x with
  | PyInt z => pretty z
  | PyOther text => text
  end.

(** What [numexpr.evaluate(expression).item()] does. *)
Inductive eval_outcome : Type :=
| EvalOk (result : scalar)
| EvalRaise (e : string).

(** [l[-n:]] for a positive [n]. *)
Definition last_n {A : Type} (n : nat) (l : list A) : list A :=
  skipn (length l - n) l.

(** [l[:n]] for any integer [n]: the first [n] entries, or all but the last
    [-n] when [n] is negative. *)
Definition slice_to {A : Type} (n : Z) (l : list A) : list A :=
  if n <? 0
  then firstn (length l - Z.to_nat (- n)) l
  else firstn (Z.to_nat n) l.

Module LangChainFactory.

(** [create_text_prompt().format(user_query=..., chat_history=...)] *)
Definition text_prompt_format (user_query chat_history : string) : string :=
  "You are a helpful and friendly AI assistant. Based on the conversation history and the user's current query, provide a clear, informative, and helpful response.

Chat History:
" ++ chat_history ++ "

User Query: " ++ user_query ++ "

Assistant Response:".

End LangChainFactory.

Module WorkflowNodes.

Section Nodes.

(** The outside world: the generation provider (and, for the service, the
    message store, the clock and the identifier source). *)
Variable World : Type.

(** [self.llm.invoke]. *)
Variable llm_invoke : string -> World -> llm_outcome * World.

(** [numexpr.evaluate(...).item()]. numexpr looks the names of an expression
    up in the caller's frame and raises on one it does not find; the outcome
    is taken as a function of the expression. *)
Variable numexpr_evaluate : string -> eval_outcome.

(** A node of the graph. *)
Definition node : Type := GraphState -> World -> GraphState * World.

Definition pure_node (f : GraphState -> GraphState) : node :=
  fun st w => (f st, w).

Definition input_node (state : GraphState) : GraphState :=
  if negb (Str.truthy (user_query state))
  then set_error "No user query provided" state
  else
    let '(is_valid, error) := QueryValidator.validate_query (user_query state) in
    if negb is_valid
    then set_error (default "" error) state
    else set_user_query (QueryValidator.sanitize_query (user_query state)) state.

Definition decision_node (state : GraphState) : GraphState :=
  let is_calculation := QueryValidator.is_calculation_query (user_query state) in
  if is_calculation
  then set_query_type "calculation" state
  else set_query_type "text" state.

Definition _format_chat_history (history : list message) : string :=
  match history with
  | [] => "No previous conversation."
  | _ =>
      let formatted :=
        List.map (fun msg =>
                    let role := if String.eqb (m_type msg) "user"
                                then "User" else "Assistant" in
                    role ++ ": " ++ m_content msg)
                 (last_n 10 history) in
      Str.join "
" formatted
  end.

Definition llm_node : node := fun state w =>
  let history_str := _format_chat_history (chat_history state) in
  let prompt := LangChainFactory.text_prompt_format (user_query state) history_str in
  match llm_invoke prompt w with
  | (LLMContent content, w') => (set_response content state, w')
  | (LLMRaise e, w') =>
      (set_response
         "I apologize, but I encountered an error processing your request. Please try again."
         (set_error ("LLM error: " ++ e) state), w')
  end.

(** [(calculate|compute|what is|solve|the|result|of|=|\?)] *)
Definition filler_words : Re.regex :=
  Re.alt [Re.lit "calculate"; Re.lit "compute"; Re.lit "what is";
          Re.lit "solve"; Re.lit "the"; Re.lit "result"; Re.lit "of";
          Re.lit "="; Re.lit "?"].

Definition _extract_math_expression (query : string) : string :=
  let expression := Re.sub true filler_words "" query in
  let expression := Str.strip expression in
  if negb (Str.truthy expression) then query else expression.

Definition tool_node (state : GraphState) : GraphState :=
  let user_query := user_query state in
  let expression := _extract_math_expression user_query in
  match numexpr_evaluate expression with
  | EvalOk result =>
      set_response ("The result of " ++ expression ++ " is " ++ py_str result)
        (set_calculation_result (py_str result) state)
  | EvalRaise e =>
      set_response
        "I couldn't perform that calculation. Please provide a valid mathematical expression."
        (set_error ("Calculation error: " ++ e) state)
  end.

Definition memory_node (state : GraphState) : GraphState :=
  let h := (chat_history state
            ++ [Message "user" (user_query state) (Some (query_type state))]
            ++ [Message "assistant" (response state) None])%list in
  if (20 <? length h)%nat
  then set_chat_history (last_n 20 h) state
  else set_chat_history h state.

Definition output_node (state : GraphState) : GraphState :=
  if negb (Str.truthy (response state))
  then set_response "I'm sorry, I couldn't generate a response." state
  else state.

End Nodes.

End WorkflowNodes.

(** ** The part of LangGraph's [StateGraph] the program uses

    Every key of the state is a last-value channel and every node returns the
    whole state, so a node's result replaces the state. [invoke] walks the
    graph from the entry point, one node per step, until [END]; it raises on
    a router result missing from the path map and past the recursion limit. *)

Module LangGraph.

Definition END : string := "__end__".

Fixpoint assoc {A : Type} (k : string) (l : list (string * A)) : option A :=
  match l with
  | [] => None
  | (k', v) :: l' => if String.eqb k k' then Some v else assoc k l'
  end.

Section Graph.

Variable World : Type.

Record StateGraph : Type := mkStateGraph {
  nodes : list (string * WorkflowNodes.node World);
  entry_point : string;
  edges : list (string * string);
  branches : list (string * ((GraphState -> string) * list (string * string)))
}.

Definition new_graph : StateGraph := mkStateGraph [] END [] [].

Definition add_node (name : string) (action : WorkflowNodes.node World)
    (g : StateGraph) : StateGraph :=
  mkStateGraph (nodes g ++ [(name, action)])%list (entry_point g) (edges g) (branches g).

Definition set_entry_point (name : string) (g : StateGraph) : StateGraph :=
  mkStateGraph (nodes g) name (edges g) (branches g).

Definition add_edge (start_key end_key : string) (g : StateGraph) : StateGraph :=
  mkStateGraph (nodes g) (entry_point g) (edges g ++ [(start_key, end_key)])%list
    (branches g).

Definition add_conditional_edges (source : string) (path : GraphState -> string)
    (path_map : list (string * string)) (g : StateGraph) : StateGraph :=
  mkStateGraph (nodes g) (entry_point g) (edges g)
    (branches g ++ [(source, (path, path_map))])%list.

(** The node that runs after [current] has produced [st]; [inl] raises. *)
Definition successor (g : StateGraph) (current : string) (st : GraphState)
    : string + string :=
  match assoc current (edges g) with
  | Some target => inr target
  | None =>
      match assoc current (branches g) with
      | Some (path, path_map) =>
          match assoc (path st) path_map with
          | Some target => inr target
          | None => inl ("KeyError: " ++ path st)
          end
      | None => inl ("Node has no outgoing edge: " ++ current)
      end
  end.

(** One execution: the outcome ([inl] is a raised exception), the nodes that
    ran, in order, each with the state it returned, and the world after. *)
Record execution : Type := mkExecution {
  outcome : string + GraphState;
  visited : list (string * GraphState);
  world_after : World
}.

Fixpoint run (g : StateGraph) (steps : nat) (current : string)
    (st : GraphState) (w : World) (seen : list (string * GraphState))
    : execution :=
  if String.eqb current END then mkExecution (inr st) seen w
  else
    match steps with
    | O => mkExecution (inl "GraphRecursionError") seen w
    | S steps' =>
        match assoc current (nodes g) with
        | None => mkExecution (inl ("Unknown node: " ++ current)) seen w
        | Some action =>
            let '(st', w') := action st w in
            let seen' := (seen ++ [(current, st')])%list in
            match successor g current st' with
            | inl e => mkExecution (inl e) seen' w'
            | inr next => run g steps' next st' w' seen'
            end
        end
    end.

(** LangGraph's default [recursion_limit]. *)
Definition recursion_limit : nat := 25.

Definition invoke (g : StateGraph) (input : GraphState) (w : World) : execution :=
  run g recursion_limit (entry_point g) input w [].

End Graph.

Arguments new_graph {World}.
Arguments add_node {World}.
Arguments set_entry_point {World}.
Arguments add_edge {World}.
Arguments add_conditional_edges {World}.
Arguments successor {World}.
Arguments run {World}.
Arguments invoke {World}.
Arguments outcome {World}.
Arguments visited {World}.
Arguments world_after {World}.

End LangGraph.

(** ** [chatbot/workflows/chatbot_graph.py] *)

(** The dict [process_query] returns. *)
Record QueryResult : Type := mkQueryResult {
  r_success : bool;
  r_response : string;
  r_query_type : string;
  r_chat_history : list message;
  r_calculation_result : string;
  r_error : string
}.

(** [x or []] for an optional list. *)
Definition or_empty {A : Type} (x : option (list A)) : list A :=
  match x with
  | Some l => l
  | None => []
  end.

Module ChatbotDAG.

Section DAG.

Variable World : Type.
Variable llm_invoke : string -> World -> llm_outcome * World.
Variable numexpr_evaluate : string -> eval_outcome.

Import LangGraph WorkflowNodes.

Definition _route_query (state : GraphState) : string := query_type state.

Definition _build_dag : StateGraph World :=
  let workflow := new_graph in
  let workflow := add_node "input_node" (pure_node World input_node) workflow in
  let workflow := add_node "decision_node" (pure_node World decision_node) workflow in
  let workflow := add_node "llm_node" (llm_node World llm_invoke) workflow in
  let workflow := add_node "tool_node" (pure_node World (tool_node numexpr_evaluate)) workflow in
  let workflow := add_node "memory_node" (pure_node World memory_node) workflow in
  let workflow := add_node "output_node" (pure_node World output_node) workflow in
  let workflow := set_entry_point "input_node" workflow in
  let workflow := add_edge "input_node" "decision_node" workflow in
  let workflow :=
    add_conditional_edges "decision_node" _route_query
      [("text", "llm_node"); ("calculation", "tool_node")] workflow in
  let workflow := add_edge "llm_node" "memory_node" workflow in
  let workflow := add_edge "tool_node" "memory_node" workflow in
  let workflow := add_edge "memory_node" "output_node" workflow in
  let workflow := add_edge "output_node" END workflow in
  workflow.

Definition initial_state (user_query session_id : string)
    (session_history : option (list message)) : GraphState :=
  {| user_query := user_query;
     session_id := session_id;
     query_type := "";
     response := "";
     calculation_result := "";
     error := "";
     chat_history := or_empty session_history |}.

(** [self.graph.invoke(initial_state)] *)
Definition execute (user_query session_id : string)
    (session_history : option (list message)) (w : World) : execution World :=
  invoke _build_dag (initial_state user_query session_id session_history) w.

Definition process_query (user_query session_id : string)
    (session_history : option (list message)) (w : World)
    : QueryResult * World :=
  let run := execute user_query session_id session_history w in
  match outcome run with
  | inr final_state =>
      ({| r_success := true;
          r_response := response final_state;
          r_query_type := query_type final_state;
          r_chat_history := chat_history final_state;
          r_calculation_result := calculation_result final_state;
          r_error := error final_state |}, world_after run)
  | inl e =>
      ({| r_success := false;
          r_response := "An error occurred while processing your request.";
          r_query_type := "";
          r_chat_history := or_empty session_history;
          r_calculation_result := "";
          r_error := e |}, world_after run)
  end.

End DAG.

End ChatbotDAG.

(** ** [chatbot/services/message_service.py]

    The [ChatMessage] table is the list of its rows, in the order they were
    created. A formatted row is a [message]: its ['timestamp'] key, which no
    function of the engine or of the service reads, is left out. *)

Module MessageService.

(** A row of [ChatMessage] ([chatbot/models.py]); [cm_metadata] is the
    ['calculation_result'] the service stores as metadata. *)
Record ChatMessage : Type := mkChatMessage {
  cm_session_id : string;
  cm_message : string;
  cm_message_type : string;
  cm_query_type : option string;
  cm_timestamp : Z;
  cm_metadata : string
}.

Definition USER : string := "user".
Definition BOT : string := "bot".

(** [ChatMessage.objects.create(...)]; [timestamp] is the field's default,
    [timezone.now()] at the creation of the row. *)
Definition save_message (timestamp : Z) (session_id message message_type : string)
    (query_type : option string) (metadata : string)
    (table : list ChatMessage) : list ChatMessage :=
  (table ++ [mkChatMessage session_id message message_type query_type
               timestamp metadata])%list.

(** [save_conversation]; the two rows are created at [t_user] and [t_bot]. *)
Definition save_conversation (t_user t_bot : Z)
    (session_id user_message bot_response query_type metadata : string)
    (table : list ChatMessage) : list ChatMessage :=
  let table := save_message t_user session_id user_message USER
                 (Some query_type) metadata table in
  save_message t_bot session_id bot_response BOT None metadata table.

(** [order_by('timestamp')]: ascending, rows of equal timestamp in the order
    of their creation. *)
Fixpoint insert_by_timestamp (row : ChatMessage) (sorted : list ChatMessage)
    : list ChatMessage :=
  match sorted with
  | [] => [row]
  | r :: rest =>
      if cm_timestamp row <? cm_timestamp r
      then row :: sorted
      else r :: insert_by_timestamp row rest
  end.

Definition order_by_timestamp (rows : list ChatMessage) : list ChatMessage :=
  fold_left (fun sorted row => insert_by_timestamp row sorted) rows [].

(** [get_session_history]: the rows of the session, oldest first, cut to the
    first [limit] when [limit] is given and not 0; a negative [limit] makes
    the slice raise. *)
Definition get_session_history (session_id : string) (limit : option Z)
    (table : list ChatMessage) : string + list ChatMessage :=
  let queryset :=
    order_by_timestamp
      (List.filter (fun r => String.eqb (cm_session_id r) session_id) table) in
  match limit with
  | None => inr queryset
  | Some n =>
      if n =? 0 then inr queryset
      else if n <? 0 then inl "Negative indexing is not supported."
      else inr (firstn (Z.to_nat n) queryset)
  end.

Definition format_history_for_api (messages : list ChatMessage) : list message :=
  List.map (fun msg => Message (cm_message_type msg) (cm_message msg) (cm_query_type msg))
           messages.

End MessageService.

(** ** [chatbot/services/chatbot_service.py] *)

(** The dict [process_chat_message] returns; ['calculation_result'] is
    present on the success path only. *)
Record ChatResult : Type := mkChatResult {
  c_success : bool;
  c_session_id : string;
  c_response : string;
  c_query_type : string;
  c_calculation_result : option string;
  c_error : string
}.

Module ChatbotService.

Section Service.

Variable World : Type.
Variable llm_invoke : string -> World -> llm_outcome * World.
Variable numexpr_evaluate : string -> eval_outcome.

(** [datetime.now()], read off the world. *)
Variable now : World -> Z.

(** [str(uuid.uuid4())]. *)
Variable uuid4 : World -> string * World.

(** [MessageService.get_session_history(session_id, limit)] formatted by
    [format_history_for_api]; [inl] is a raised exception. *)
Variable db_history : string -> Z -> World -> (string + list message) * World.

(** [MessageService.save_conversation], inside its own [try]: a failure is
    printed and dropped. *)
Variable db_save_conversation :
  string -> string -> string -> string -> string -> World -> World.

Abbreviation cache := (gmap string CacheService.session_data).

Definition _generate_session_id (w : World) : string * World :=
  let '(u, w') := uuid4 w in ("session-" ++ u, w').

Definition _get_conversation_history (session_id : string) (c : cache) (w : World)
    : (string + list message) * cache * World :=
  let '(cached_history, c) := CacheService.get_session_history (now w) session_id c in
  match cached_history with
  | _ :: _ => (inr cached_history, c, w)
  | [] =>
      match db_history session_id 20 w with
      | (inl e, w) => (inl e, c, w)
      | (inr history, w) =>
          let c := match history with
                   | _ :: _ => CacheService.save_session_history (now w) session_id history c
                   | [] => c
                   end in
          (inr history, c, w)
      end
  end.

(** [x or ''] for an optional string. *)
Definition or_blank (x : option string) : string := default "" x.

Definition process_chat_message (user_query : string) (session_id : option string)
    (c : cache) (w : World) : ChatResult * cache * World :=
  match validate_and_sanitize_query user_query with
  | inl e =>
      (mkChatResult false (or_blank session_id) ("Invalid query: " ++ e) "" None e, c, w)
  | inr clean_query =>
      let '(session_id, w) :=
        if negb (Str.truthy (or_blank session_id))
        then _generate_session_id w
        else (or_blank session_id, w) in
      match _get_conversation_history session_id c w with
      | (inl e, c, w) =>
          (mkChatResult false session_id
             "An unexpected error occurred. Please try again." "" None e, c, w)
      | (inr history, c, w) =>
          let '(result, w) :=
            ChatbotDAG.process_query World llm_invoke numexpr_evaluate
              clean_query session_id (Some history) w in
          if negb (r_success result)
          then (mkChatResult false session_id (r_response result)
                  (r_query_type result) None (r_error result), c, w)
          else
            let w := db_save_conversation session_id clean_query
                       (r_response result) (r_query_type result)
                       (r_calculation_result result) w in
            let c := CacheService.save_session_history (now w) session_id
                       (r_chat_history result) c in
            (mkChatResult true session_id (r_response result)
               (r_query_type result) (Some (r_calculation_result result)) "", c, w)
      end
  end.

(** [MessageService.delete_session_history]: the number of rows deleted, or
    a raised exception. *)
Variable db_delete : string -> World -> (string + Z) * World.

(** [MessageService.get_message_count()] and [get_recent_sessions(limit)]. *)
Variable db_message_count : World -> (string + Z) * World.
Variable db_recent_sessions : Z -> World -> (string + list string) * World.

(** The dict [get_session_history] returns. *)
Record HistoryResult : Type := mkHistoryResult {
  h_success : bool;
  h_session_id : string;
  h_history : list message;
  h_source : string
}.

(** [ChatbotService.get_session_history]; [inl] is an exception raised by the
    message store, which this function does not catch. *)
Definition get_session_history (session_id : string) (limit : Z) (c : cache) (w : World)
    : (string + HistoryResult) * cache * World :=
  let '(cached_history, c) := CacheService.get_session_history (now w) session_id c in
  match cached_history with
  | _ :: _ =>
      (inr (mkHistoryResult true session_id (slice_to limit cached_history) "cache"), c, w)
  | [] =>
      match db_history session_id limit w with
      | (inl e, w) => (inl e, c, w)
      | (inr history, w) =>
          let c := match history with
                   | _ :: _ => CacheService.save_session_history (now w) session_id history c
                   | [] => c
                   end in
          (inr (mkHistoryResult true session_id history "database"), c, w)
      end
  end.

(** The dict [clear_session] returns. *)
Record ClearResult : Type := mkClearResult {
  k_success : bool;
  k_session_id : string;
  k_cache_cleared : bool;
  k_messages_deleted : Z
}.

(** [ChatbotService.clear_session]; the cache is cleared before the message
    store is asked, and an exception of the store is not caught. *)
Definition clear_session (session_id : string) (c : cache) (w : World)
    : (string + ClearResult) * cache * World :=
  let '(cache_cleared, c) := CacheService.clear_session session_id c in
  match db_delete session_id w with
  | (inl e, w) => (inl e, c, w)
  | (inr db_count, w) =>
      (inr (mkClearResult true session_id cache_cleared db_count), c, w)
  end.

(** The dict [get_statistics] returns. *)
Record Statistics : Type := mkStatistics {
  total_messages : Z;
  active_sessions : Z;
  recent_sessions : list string
}.

(** [ChatbotService.get_statistics]: the dict's values are computed in the
    order they are written. *)
Definition get_statistics (c : cache) (w : World) : (string + Statistics) * World :=
  match db_message_count w with
  | (inl e, w) => (inl e, w)
  | (inr total, w) =>
      let active := CacheService.get_session_count c in
      match db_recent_sessions 5 w with
      | (inl e, w) => (inl e, w)
      | (inr recent, w) => (inr (mkStatistics total active recent), w)
      end
  end.

(** [ChatbotService.cleanup_expired_sessions]: [(success, sessions_cleaned)]. *)
Definition cleanup_expired_sessions (c : cache) (w : World) : (bool * Z) * cache :=
  let '(cleaned, c) := CacheService.cleanup_expired_sessions (now w) c in
  ((true, cleaned), c).

End Service.

End ChatbotService.

(** ** A closed instance, for running the model

    A world that is a clock; a provider with one fixed answer that raises
    when the prompt asks for a failure; an evaluator for [a + b] over decimal
    literals that raises on anything else. *)

Module Demo.

Definition World : Type := Z.

Definition llm_invoke (prompt : string) (w : World) : llm_outcome * World :=
  if Str.contains "fail" prompt
  then (LLMRaise "Connection error.", w + 1)
  else (LLMContent "Hello!", w + 1).

Fixpoint digits (acc : Z) (s : string) : option Z :=
  match s with
  | EmptyString => Some acc
  | String c s' =>
      if Chars.is_decimal c
      then digits (10 * acc + Z.of_N (Chars.code c) - 48) s'
      else None
  end.

Definition literal (s : string) : option Z :=
  match Str.strip s with
  | EmptyString => None
  | t => digits 0 t
  end.

Fixpoint split_plus (acc s : string) : option (string * string) :=
  match s with
  | EmptyString => None
  | String c s' =>
      if Ascii.eqb c "+"%char then Some (acc, s')
      else split_plus (acc ++ String c EmptyString) s'
  end.

Definition numexpr_evaluate (expression : string) : eval_outcome :=
  match literal expression with
  | Some z => EvalOk (PyInt z)
  | None =>
      match split_plus "" expression with
      | Some (a, b) =>
          match literal a, literal b with
          | Some x, Some y => EvalOk (PyInt (x + y))
          | _, _ => EvalRaise ("'" ++ expression ++ "'")
          end
      | None => EvalRaise ("'" ++ expression ++ "'")
      end
  end.

Definition process_query := ChatbotDAG.process_query World llm_invoke numexpr_evaluate.
Definition execute := ChatbotDAG.execute World llm_invoke numexpr_evaluate.

Definition now (w : World) : Z := w.

Definition uuid4 (w : World) : string * World := (pretty w, w + 1).

Definition db_history (session_id : string) (limit : Z) (w : World)
    : (string + list message) * World :=
  (inr [], w + 1).

Definition db_save_conversation
    (session_id user_message bot_response query_type calculation_result : string)
    (w : World) : World :=
  w + 1.

Definition process_chat_message :=
  ChatbotService.process_chat_message World llm_invoke numexpr_evaluate
    now uuid4 db_history db_save_conversation.

End Demo.

(** ** A closed instance with the message table

    A world that is a clock and the message table. The provider always
    answers the same; creating a row takes one microsecond. *)

Module Stored.

Record World : Type := mkWorld {
  clock : Z;
  table : list MessageService.ChatMessage
}.

Definition now (w : World) : Z := clock w.

(** Time passes. *)
Definition wait (d : Z) (w : World) : World := mkWorld (clock w + d) (table w).

Definition llm_invoke (prompt : string) (w : World) : llm_outcome * World :=
  (LLMContent "Hello!", w).

Definition uuid4 (w : World) : string * World := (pretty (clock w), w).

(** [MessageService.format_history_for_api(MessageService.get_session_history(
    session_id, limit=limit))] *)
Definition db_history (session_id : string) (limit : Z) (w : World)
    : (string + list message) * World :=
  match MessageService.get_session_history session_id (Some limit) (table w) with
  | inl e => (inl e, w)
  | inr messages => (inr (MessageService.format_history_for_api messages), w)
  end.

Definition db_save_conversation
    (session_id user_message bot_response query_type calculation_result : string)
    (w : World) : World :=
  mkWorld (clock w + 2)
    (MessageService.save_conversation (clock w) (clock w + 1)
       session_id user_message bot_response query_type calculation_result (table w)).

Definition start : World := mkWorld 0 [].

End Stored.

(** Unfolds one run of the compiled graph, leaving the node functions folded. *)
Ltac run_graph :=
  cbv [LangGraph.invoke LangGraph.run LangGraph.recursion_limit
       ChatbotDAG._build_dag LangGraph.new_graph LangGraph.add_node
       LangGraph.add_edge LangGraph.add_conditional_edges
       LangGraph.set_entry_point LangGraph.assoc LangGraph.successor
       LangGraph.END LangGraph.nodes LangGraph.edges LangGraph.branches
       LangGraph.entry_point String.eqb Ascii.eqb Bool.eqb app WorkflowNodes.pure_node
       ChatbotDAG._route_query].

(** ** Derived notions used in the statements *)

Module Pipeline.

Section Stages.

Variable World : Type.
Variable llm_invoke : string -> World -> llm_outcome * World.
Variable numexpr_evaluate : string -> eval_outcome.

Import WorkflowNodes.

(** The branch the router selects after the decision node, and what the
    selected node returns. *)
Definition branch (s2 : GraphState) (w : World) : string * (GraphState * World) :=
  if String.eqb (query_type s2) "calculation"
  then ("tool_node", (tool_node numexpr_evaluate s2, w))
  else ("llm_node", llm_node World llm_invoke s2 w).

(** [dag.process_query] called once per query of a session, each call
    receiving the history the call before returned. *)
Fixpoint session (queries : list string) (session_id : string)
    (history : list message) (w : World) : list QueryResult :=
  match queries with
  | [] => []
  | q :: queries' =>
      let '(r, w') :=
        ChatbotDAG.process_query World llm_invoke numexpr_evaluate
          q session_id (Some history) w in
      r :: session queries' session_id (r_chat_history r) w'
  end.

(** The claim that a query failing validation stops the pipeline before the
    recording stage. *)
Definition stops_before_recording : Prop :=
  forall q sid h w,
    fst (QueryValidator.validate_query q) = false ->
    let run := ChatbotDAG.execute World llm_invoke numexpr_evaluate q sid h w in
    let r := fst (ChatbotDAG.process_query World llm_invoke numexpr_evaluate q sid h w) in
    r_chat_history r = or_empty h
    /\ forall name s, In (name, s) (LangGraph.visited run) ->
         name <> "llm_node" /\ name <> "tool_node" /\ name <> "memory_node".

End Stages.

(** The query the entry stage hands on: sanitized when it is valid, as
    given otherwise. *)
Definition entry_query (q : string) : string :=
  if negb (Str.truthy q) then q
  else if fst (QueryValidator.validate_query q)
       then QueryValidator.sanitize_query q
       else q.

(** The classification of a query. *)
Definition classify (q : string) : string :=
  if QueryValidator.is_calculation_query q then "calculation" else "text".

(** Along a run, a state with an error is followed by a state with an error. *)
Fixpoint error_kept (seen : list (string * GraphState)) : Prop :=
  match seen with
  | (_, a) :: rest =>
      match rest with
      | (_, b) :: _ => (error a <> "" -> error b <> "") /\ error_kept rest
      | [] => True
      end
  | [] => True
  end.

(** The exchange a call recorded: the last two entries of its history. *)
Definition exchange (r : QueryResult) : list message :=
  last_n 2 (r_chat_history r).

(** The history a session ends with. *)
Definition final_history (initial : list message) (results : list QueryResult)
    : list message :=
  match last results with
  | Some r => r_chat_history r
  | None => initial
  end.

End Pipeline.

Module CacheFacts.

Import CacheService.

(** The sessions [session_exists] answers yes for. *)
Definition live_sessions (now : Z) (c : gmap string session_data) : gset string :=
  dom (filter (fun kv => _is_expired now (timestamp (snd kv)) = false) c).

(** The claim that [clear_session] returns true exactly for a live entry. *)
Definition true_iff_live : Prop :=
  forall (now : Z) (session_id : string) (c : gmap string session_data),
    fst (clear_session session_id c) = session_exists now session_id c.

(** The cache after sweeps at the given times, oldest first. *)
Definition sweeps (times : list Z) (c : gmap string session_data)
    : gmap string session_data :=
  foldl (fun acc t => snd (cleanup_expired_sessions t acc)) c times.

End CacheFacts.

(** Requests of one session through the service. *)
Module ServiceSession.

Section Session.

Variable World : Type.
Variable llm_invoke : string -> World -> llm_outcome * World.
Variable numexpr_evaluate : string -> eval_outcome.
Variable now : World -> Z.
Variable uuid4 : World -> string * World.
Variable db_history : string -> Z -> World -> (string + list message) * World.
Variable db_save_conversation :
  string -> string -> string -> string -> string -> World -> World.

(** A request: what happens to the world before it arrives (time passes),
    and its query. *)
Definition request : Type := (World -> World) * string.

(** [process_chat_message] called once per request with the same session
    identifier, on the cache and the world the call before left. *)
Fixpoint chat_session (requests : list request) (session_id : string)
    (c : gmap string CacheService.session_data) (w : World)
    : list ChatResult * gmap string CacheService.session_data * World :=
  match requests with
  | [] => ([], c, w)
  | (pass, q) :: requests' =>
      let '(r, c1, w1) :=
        ChatbotService.process_chat_message World llm_invoke numexpr_evaluate
          now uuid4 db_history db_save_conversation q (Some session_id) c (pass w) in
      let '(rs, c2, w2) := chat_session requests' session_id c1 w1 in
      (r :: rs, c2, w2)
  end.

(** Every request after the first arrives no more than 60 minutes after the
    request before it completed ([previous] is that time, if any). *)
Fixpoint timely (requests : list request) (session_id : string)
    (c : gmap string CacheService.session_data) (w : World) (previous : option Z)
    : Prop :=
  match requests with
  | [] => True
  | (pass, q) :: requests' =>
      match previous with
      | Some T => now (pass w) - T <= CacheService.timedelta_minutes 60
      | None => True
      end
      /\ let '(_, c1, w1) :=
           ChatbotService.process_chat_message World llm_invoke numexpr_evaluate
             now uuid4 db_history db_save_conversation q (Some session_id) c (pass w) in
         timely requests' session_id c1 w1 (Some (now w1))
  end.

(** The exchange of a request: the user entry for its sanitized query, then
    an assistant entry. *)
Definition exchange_of (rq : request) (ex : list message) : Prop :=
  exists a,
    ex = [Message "user" (QueryValidator.sanitize_query (snd rq))
            (Some (Pipeline.classify (QueryValidator.sanitize_query (snd rq))));
          Message "assistant" a None].

(** After the requests, the session's history is the exchanges of the ten
    most recent requests, oldest first. *)
Definition keeps_recent (requests : list request) (session_id : string)
    (c : gmap string CacheService.session_data) (w : World) : Prop :=
  exists exs T,
    Forall2 exchange_of requests exs
    /\ snd (fst (chat_session requests session_id c w)) !! session_id
       = Some (CacheService.SessionData (concat (last_n 10 exs)) T).

(** The claim that 11 or more successful exchanges of one session always
    leave the ten most recent as the history. *)
Definition ten_most_recent : Prop :=
  forall requests session_id c w,
    session_id <> "" ->
    (11 <= length requests)%nat ->
    Forall (fun r => c_success r = true)
           (fst (fst (chat_session requests session_id c w))) ->
    keeps_recent requests session_id c w.

End Session.

End ServiceSession.

(** Notions for the statements about [sanitize_query]. *)
Module Sanitize.

(** The two patterns [sanitize_query] substitutes. *)
Definition tag_pattern : Re.regex :=
  Re.seq [Re.lit "<"; Re.plus (Re.CNoneOf [">"%char]); Re.lit ">"].

Definition spaces_pattern : Re.regex := Re.plus Re.CSpace.

Definition strip_tags (s : string) : string := Re.sub false tag_pattern "" s.

Definition collapse_spaces (s : string) : string := Re.sub false spaces_pattern " " s.

Definition is_gt (c : ascii) : bool := Ascii.eqb c ">"%char.
Definition is_lt (c : ascii) : bool := Ascii.eqb c "<"%char.

(** The rest of [s] after its first [>], if it has one. *)
Fixpoint after_gt (s : string) : option string :=
  match s with
  | EmptyString => None
  | String c s' => if is_gt c then Some s' else after_gt s'
  end.

(** What follows a tag whose [<] has just been read: at least one character
    other than [>], then the first [>]. *)
Definition body_rest (s : string) : option string :=
  match s with
  | EmptyString => None
  | String d s' => if is_gt d then None else after_gt s'
  end.

(** What follows a tag that starts at the head of [s]. *)
Definition tag_rest (s : string) : option string :=
  match s with
  | EmptyString => None
  | String c s' => if is_lt c then body_rest s' else None
  end.

(** What is left of the tag pattern after its repetition: [>]. *)
Definition gt_cont : Re.cont :=
  Re.rmatch false (Re.Cat (Re.lit ">") Re.Eps) (fun _ rest => Some rest).

(** [s[n:]] *)
Fixpoint drop (n : nat) (s : string) : string :=
  match n, s with
  | O, _ => s
  | S n', String _ s' => drop n' s'
  | S _, EmptyString => EmptyString
  end.

(** No tag starts anywhere in [s]. *)
Fixpoint tag_free (s : string) : Prop :=
  match s with
  | EmptyString => True
  | String c s' => tag_rest (String c s') = None /\ tag_free s'
  end.

(** Every whitespace character of [s] is a single space followed by a
    character that is not whitespace, or by the end. *)
Fixpoint single_spaced (s : string) : Prop :=
  match s with
  | EmptyString => True
  | String c s' =>
      (Chars.is_space c = true ->
       c = " "%char /\ Str.lstrip s' = s')
      /\ single_spaced s'
  end.

End Sanitize.

(** Notions for the statements about [validate_session_id]. *)
Module SessionIds.

(** A character of [[a-zA-Z0-9\-_]]. *)
Definition id_char (c : ascii) : bool :=
  Re.charset_mem false SessionValidator.session_id_chars c.

(** [all(p(c) for c in s)] *)
Fixpoint every (p : ascii -> bool) (s : string) : bool :=
  match s with
  | EmptyString => true
  | String c s' => p c && every p s'
  end.

(** The number of identifier characters [s] starts with, and what follows
    them. *)
Fixpoint ids_count (s : string) : nat :=
  match s with
  | EmptyString => O
  | String c s' => if id_char c then S (ids_count s') else O
  end.

Fixpoint ids_rest (s : string) : string :=
  match s with
  | EmptyString => EmptyString
  | String c s' => if id_char c then ids_rest s' else s
  end.

(** [$] as a continuation of the matcher. *)
Definition end_cont : Re.cont :=
  fun _ rest => if SessionValidator.at_end rest then Some rest else None.

(** A line feed. *)
Definition nl : string := String "010"%char "".

End SessionIds.

(** Decides a statement about one character by trying all 256. *)
Ltac all_chars c := destruct c as [[] [] [] [] [] [] [] []]; vm_compute; reflexivity.

(** * Properties *)

(** ** Strings and validation *)

Lemma truthy_false_iff s : Str.truthy s = false <-> s = "".
Proof. destruct s; simpl; split; intros H; try reflexivity; discriminate H. Qed.

Lemma truthy_true_iff s : Str.truthy s = true <-> s <> "".
Proof.
  destruct s; simpl; split; intros H; try reflexivity; try discriminate.
  exfalso. apply H. reflexivity.
Qed.

Lemma append_nonempty_l (a b : string) : a <> "" -> a ++ b <> "".
Proof. destruct a as [|c a]; [congruence | intros _ H; discriminate H]. Qed.

(** A failed validation always carries a non-empty message. *)
Lemma validate_query_invalid q e :
  QueryValidator.validate_query q = (false, e) ->
  exists msg, e = Some msg /\ msg <> "".
Proof.
  unfold QueryValidator.validate_query.
  destruct (_ <? _).
  { intros [= <-]. eexists; split; [reflexivity | discriminate]. }
  destruct (_ >? _).
  { intros [= <-]. eexists; split; [reflexivity | ].
    apply append_nonempty_l. discriminate. }
  destruct (QueryValidator._contains_harmful_content _).
  { intros [= <-]. eexists; split; [reflexivity | discriminate]. }
  discriminate.
Qed.

Lemma validate_query_valid q e :
  QueryValidator.validate_query q = (true, e) -> e = None.
Proof.
  unfold QueryValidator.validate_query.
  destruct (_ <? _); [intros [=] | ].
  destruct (_ >? _); [intros [=] | ].
  destruct (QueryValidator._contains_harmful_content _); intros [=].
  congruence.
Qed.

(** The empty string fails [validate_query] too. *)
Lemma validate_query_empty :
  QueryValidator.validate_query "" = (false, Some "Query is too short").
Proof. reflexivity. Qed.

(** The validators on a few inputs. *)
Example validate_query_blank :
  QueryValidator.validate_query "   " = (false, Some "Query is too short").
Proof. vm_compute. reflexivity. Qed.

Example validate_query_5000 :
  QueryValidator.validate_query (Str.replicate (Z.to_nat 5000) "a") = (true, None).
Proof. vm_compute. reflexivity. Qed.

Example validate_query_5001 :
  QueryValidator.validate_query (Str.replicate (Z.to_nat 5001) "a")
  = (false, Some "Query is too long (max 5000 characters)").
Proof. vm_compute. reflexivity. Qed.

Example validate_query_script :
  QueryValidator.validate_query "<SCRIPT src=x>alert(1)</script>"
  = (false, Some "Query contains potentially harmful content").
Proof. vm_compute. reflexivity. Qed.

Example validate_query_handler :
  QueryValidator.validate_query "my bonus = 3"
  = (false, Some "Query contains potentially harmful content").
Proof. vm_compute. reflexivity. Qed.

Example sanitize_query_markup :
  QueryValidator.sanitize_query "  hello <b>  big</b>
   world " = "hello big world".
Proof. vm_compute. reflexivity. Qed.

Example sanitize_query_unclosed :
  QueryValidator.sanitize_query "1 <> 2 < 3" = "1 <> 2 < 3".
Proof. vm_compute. reflexivity. Qed.

Example extract_upper_case :
  WorkflowNodes._extract_math_expression "What is THE Result of 2 * 3 = ?" = "2 * 3".
Proof. vm_compute. reflexivity. Qed.

Example extract_falls_back :
  WorkflowNodes._extract_math_expression "solve" = "solve".
Proof. vm_compute. reflexivity. Qed.

(** What "fails validation" means, case by case. *)
Lemma validate_query_fails_iff q :
  fst (QueryValidator.validate_query q) = false <->
  Str.strip q = ""
  \/ Str.len (Str.strip q) > QueryValidator.MAX_QUERY_LENGTH
  \/ QueryValidator._contains_harmful_content (Str.strip q) = true.
Proof.
  unfold QueryValidator.validate_query, QueryValidator.MIN_QUERY_LENGTH,
    QueryValidator.MAX_QUERY_LENGTH, Str.len.
  destruct (Str.strip q) as [|c t] eqn:E.
  { simpl. tauto. }
  assert (Hlen : (Z.of_nat (String.length (String c t)) <? 1) = false).
  { apply Z.ltb_ge. simpl String.length. lia. }
  rewrite Hlen.
  destruct (Z.of_nat (String.length (String c t)) >? 5000) eqn:Hmax.
  { cbn [fst]. split; [intros _; right; left | reflexivity].
    apply Z.gtb_lt in Hmax. lia. }
  destruct (QueryValidator._contains_harmful_content (String c t)) eqn:Hh; cbn [fst].
  { tauto. }
  split; [discriminate | ].
  intros [H | [H | H]]; [discriminate | | discriminate].
  rewrite Z.gtb_ltb in Hmax. apply Z.ltb_ge in Hmax. lia.
Qed.

(** ** The graph runs the six stages in order *)

Section EngineFacts.

Variable World : Type.
Variable llm_invoke : string -> World -> llm_outcome * World.
Variable numexpr_evaluate : string -> eval_outcome.

Import WorkflowNodes.

Lemma decision_node_query_type s :
  query_type (decision_node s)
  = if QueryValidator.is_calculation_query (user_query s)
    then "calculation" else "text".
Proof.
  unfold decision_node.
  destruct (QueryValidator.is_calculation_query (user_query s)); reflexivity.
Qed.

(** [invoke] on the compiled graph visits input, decision, the selected
    branch, memory and output, in that order, and returns the state the output
    node produced; it never raises. *)
Lemma invoke_shape s0 w :
  exists name s3 w',
    Pipeline.branch World llm_invoke numexpr_evaluate
      (decision_node (input_node s0)) w = (name, (s3, w'))
    /\ (name = "llm_node" \/ name = "tool_node")
    /\ LangGraph.invoke (ChatbotDAG._build_dag World llm_invoke numexpr_evaluate) s0 w
       = LangGraph.mkExecution World
           (inr (output_node (memory_node s3)))
           [("input_node", input_node s0);
            ("decision_node", decision_node (input_node s0));
            (name, s3);
            ("memory_node", memory_node s3);
            ("output_node", output_node (memory_node s3))]
           w'.
Proof.
  unfold Pipeline.branch.
  rewrite decision_node_query_type.
  destruct (QueryValidator.is_calculation_query (user_query (input_node s0))) eqn:Hc.
  - cbn [String.eqb Ascii.eqb Bool.eqb].
    do 3 eexists; split; [reflexivity | split; [right; reflexivity | ]].
    run_graph.
    rewrite decision_node_query_type, Hc.
    reflexivity.
  - cbn [String.eqb Ascii.eqb Bool.eqb].
    destruct (llm_node World llm_invoke (decision_node (input_node s0)) w) as [s3 w'] eqn:Hl.
    do 3 eexists; split; [reflexivity | split; [left; reflexivity | ]].
    run_graph.
    rewrite decision_node_query_type, Hc.
    cbv beta iota.
    rewrite Hl.
    reflexivity.
Qed.

(** *** No stage clears an error *)

Lemma input_node_error s : error s <> "" -> error (input_node s) <> "".
Proof.
  unfold input_node.
  destruct (negb (Str.truthy (user_query s))); [intros _; discriminate | ].
  destruct (QueryValidator.validate_query (user_query s)) as [[|] e] eqn:Hv;
    cbn [negb]; [intros H; exact H | intros _].
  apply validate_query_invalid in Hv as (msg & -> & Hmsg). exact Hmsg.
Qed.

Lemma decision_node_error s : error (decision_node s) = error s.
Proof.
  unfold decision_node.
  destruct (QueryValidator.is_calculation_query _); reflexivity.
Qed.

Lemma llm_node_error s w :
  error s <> "" -> error (fst (llm_node World llm_invoke s w)) <> "".
Proof.
  unfold llm_node.
  destruct (llm_invoke _ w) as [[content | e] w']; cbn [fst]; [intros H; exact H | intros _].
  cbn [error set_response set_error]. discriminate.
Qed.

Lemma tool_node_error s :
  error s <> "" -> error (tool_node numexpr_evaluate s) <> "".
Proof.
  unfold tool_node.
  destruct (numexpr_evaluate _) as [result | e]; [intros H; exact H | intros _].
  cbn [error set_response set_error]. discriminate.
Qed.

Lemma branch_error s name s3 w w' :
  Pipeline.branch World llm_invoke numexpr_evaluate s w = (name, (s3, w')) ->
  error s <> "" -> error s3 <> "".
Proof.
  unfold Pipeline.branch.
  destruct (String.eqb (query_type s) "calculation").
  - intros [= _ <- _]. apply tool_node_error.
  - intros [= _ Hl]. intros He.
    pose proof (llm_node_error s w He) as H. rewrite Hl in H. exact H.
Qed.

Lemma memory_node_fields s :
  user_query (memory_node s) = user_query s
  /\ query_type (memory_node s) = query_type s
  /\ response (memory_node s) = response s
  /\ calculation_result (memory_node s) = calculation_result s
  /\ error (memory_node s) = error s.
Proof. unfold memory_node. destruct (_ <? _)%nat; repeat split. Qed.

Lemma output_node_fields s :
  user_query (output_node s) = user_query s
  /\ query_type (output_node s) = query_type s
  /\ calculation_result (output_node s) = calculation_result s
  /\ error (output_node s) = error s
  /\ chat_history (output_node s) = chat_history s.
Proof. unfold output_node. destruct (negb _); repeat split. Qed.

(** *** The recording stage *)

Lemma last_n_length {A} n (l : list A) : length (last_n n l) = Nat.min n (length l).
Proof. unfold last_n. rewrite length_skipn. lia. Qed.

Lemma last_n_all {A} n (l : list A) : (length l <= n)%nat -> last_n n l = l.
Proof.
  intros H. unfold last_n.
  replace (length l - n)%nat with 0%nat by lia. reflexivity.
Qed.

Lemma last_n_app {A} n (l1 l2 : list A) :
  (n <= length l2)%nat -> last_n n (l1 ++ l2)%list = last_n n l2.
Proof.
  intros H. unfold last_n.
  rewrite length_app, skipn_app.
  rewrite (skipn_all2 l1) by lia.
  cbn [app]. f_equal. lia.
Qed.

Lemma last_n_app_long {A} n (l1 l2 : list A) :
  (length l2 <= n)%nat ->
  last_n n (l1 ++ l2)%list = (last_n (n - length l2) l1 ++ l2)%list.
Proof.
  intros H. unfold last_n.
  rewrite length_app, skipn_app.
  replace (length l1 + length l2 - n - length l1)%nat with 0%nat by lia.
  cbn [skipn]. f_equal. f_equal. lia.
Qed.

(** What [memory_node] leaves in the history, in one formula. *)
Lemma memory_node_history s :
  chat_history (memory_node s)
  = last_n 20 (chat_history s
               ++ [Message "user" (user_query s) (Some (query_type s));
                   Message "assistant" (response s) None])%list.
Proof.
  unfold memory_node.
  destruct (20 <? _)%nat eqn:H; cbn [chat_history set_chat_history].
  - reflexivity.
  - apply Nat.ltb_ge in H. symmetry. apply last_n_all. exact H.
Qed.

Lemma memory_node_bound s : (length (chat_history (memory_node s)) <= 20)%nat.
Proof. rewrite memory_node_history, last_n_length. lia. Qed.

Lemma memory_node_appends s :
  chat_history (memory_node s)
  = (last_n 18 (chat_history s)
     ++ [Message "user" (user_query s) (Some (query_type s));
         Message "assistant" (response s) None])%list.
Proof.
  rewrite memory_node_history.
  rewrite last_n_app_long by (cbn; lia).
  reflexivity.
Qed.

(** *** What [process_query] returns *)

Lemma input_node_user_query s :
  user_query (input_node s) = Pipeline.entry_query (user_query s).
Proof.
  unfold input_node, Pipeline.entry_query.
  destruct (negb (Str.truthy (user_query s))); [reflexivity | ].
  destruct (QueryValidator.validate_query (user_query s)) as [[|] e]; reflexivity.
Qed.

Lemma input_node_others s :
  query_type (input_node s) = query_type s
  /\ response (input_node s) = response s
  /\ calculation_result (input_node s) = calculation_result s
  /\ chat_history (input_node s) = chat_history s
  /\ session_id (input_node s) = session_id s.
Proof.
  unfold input_node.
  destruct (negb (Str.truthy (user_query s))); [repeat split | ].
  destruct (QueryValidator.validate_query (user_query s)) as [[|] e]; repeat split.
Qed.

Lemma decision_node_others s :
  user_query (decision_node s) = user_query s
  /\ response (decision_node s) = response s
  /\ calculation_result (decision_node s) = calculation_result s
  /\ chat_history (decision_node s) = chat_history s
  /\ session_id (decision_node s) = session_id s.
Proof.
  unfold decision_node.
  destruct (QueryValidator.is_calculation_query _); repeat split.
Qed.

Lemma branch_others s name s3 w w' :
  Pipeline.branch World llm_invoke numexpr_evaluate s w = (name, (s3, w')) ->
  user_query s3 = user_query s
  /\ query_type s3 = query_type s
  /\ chat_history s3 = chat_history s.
Proof.
  unfold Pipeline.branch, tool_node, llm_node.
  destruct (String.eqb (query_type s) "calculation").
  - intros [= _ <- _]. destruct (numexpr_evaluate _); repeat split.
  - destruct (llm_invoke _ w) as [[content | e] w1]; intros [= _ <- _]; repeat split.
Qed.

(** [process_query] never takes its [except] branch: the result is read off
    the state the output node returns. *)
Lemma process_query_eq q sid h w :
  exists name s3 w',
    Pipeline.branch World llm_invoke numexpr_evaluate
      (decision_node (input_node (ChatbotDAG.initial_state q sid h))) w
    = (name, (s3, w'))
    /\ ChatbotDAG.process_query World llm_invoke numexpr_evaluate q sid h w
       = ({| r_success := true;
             r_response := response (output_node (memory_node s3));
             r_query_type := query_type s3;
             r_chat_history := chat_history (memory_node s3);
             r_calculation_result := calculation_result s3;
             r_error := error s3 |}, w').
Proof.
  destruct (invoke_shape (ChatbotDAG.initial_state q sid h) w)
    as (name & s3 & w' & Hb & _ & Hrun).
  exists name, s3, w'. split; [exact Hb | ].
  unfold ChatbotDAG.process_query, ChatbotDAG.execute.
  rewrite Hrun. cbn [LangGraph.outcome LangGraph.world_after].
  destruct (output_node_fields (memory_node s3)) as (_ & Hq & Hc & He & Hh).
  destruct (memory_node_fields s3) as (_ & Hq' & _ & Hc' & He').
  rewrite Hq, Hc, He, Hh, Hq', Hc', He'. reflexivity.
Qed.

Lemma output_node_response s : response (output_node s) <> "".
Proof.
  unfold output_node.
  destruct (Str.truthy (response s)) eqn:H; cbn [negb].
  - apply truthy_true_iff. exact H.
  - discriminate.
Qed.

Lemma output_node_keeps s : response s <> "" -> output_node s = s.
Proof.
  intros H. unfold output_node.
  apply truthy_true_iff in H. rewrite H. reflexivity.
Qed.

Lemma process_query_query_type q sid h w :
  r_query_type (fst (ChatbotDAG.process_query World llm_invoke numexpr_evaluate q sid h w))
  = Pipeline.classify (Pipeline.entry_query q).
Proof.
  destruct (process_query_eq q sid h w) as (name & s3 & w' & Hb & ->).
  cbn [fst r_query_type].
  apply branch_others in Hb as (_ & -> & _).
  rewrite decision_node_query_type, input_node_user_query.
  reflexivity.
Qed.

(** ** C1 *)

Lemma error_kept_run s0 name s3 w w' :
  Pipeline.branch World llm_invoke numexpr_evaluate
    (decision_node (input_node s0)) w = (name, (s3, w')) ->
  Pipeline.error_kept
    [("input_node", input_node s0);
     ("decision_node", decision_node (input_node s0));
     (name, s3);
     ("memory_node", memory_node s3);
     ("output_node", output_node (memory_node s3))].
Proof.
  intros Hb. cbn [Pipeline.error_kept].
  destruct (memory_node_fields s3) as (_ & _ & _ & _ & Hm).
  destruct (output_node_fields (memory_node s3)) as (_ & _ & _ & Ho & _).
  repeat split.
  - rewrite decision_node_error. tauto.
  - apply (branch_error _ _ _ _ _ Hb).
  - rewrite Hm. tauto.
  - rewrite Ho. tauto.
Qed.

(** C1. In every execution in which some stage leaves a non-empty error, the
    graph still runs all of input, decision, the routed branch, memory and
    output, in that order; the memory node appends the user entry and the
    assistant entry to the history; the output node runs on what the memory
    node returned; every state after one with an error has an error; and
    the result [process_query] returns is a success whose error is non-empty. *)
Theorem C1_error_does_not_stop_the_pipeline q sid h w :
  let run := ChatbotDAG.execute World llm_invoke numexpr_evaluate q sid h w in
  let r := fst (ChatbotDAG.process_query World llm_invoke numexpr_evaluate q sid h w) in
  (exists name s, In (name, s) (LangGraph.visited run) /\ error s <> "") ->
  exists branch s1 s2 s3,
    LangGraph.visited run
    = [("input_node", s1); ("decision_node", s2); (branch, s3);
       ("memory_node", memory_node s3);
       ("output_node", output_node (memory_node s3))]
    /\ (branch = "llm_node" \/ branch = "tool_node")
    /\ chat_history (memory_node s3)
       = (last_n 18 (chat_history s3)
          ++ [Message "user" (user_query s3) (Some (query_type s3));
              Message "assistant" (response s3) None])%list
    /\ LangGraph.outcome run = inr (output_node (memory_node s3))
    /\ Pipeline.error_kept (LangGraph.visited run)
    /\ error (output_node (memory_node s3)) <> ""
    /\ r_success r = true
    /\ r_error r <> ""
    /\ r_chat_history r = chat_history (memory_node s3).
Proof.
  intros run r (n & s & Hin & Hs).
  subst run r.
  destruct (process_query_eq q sid h w) as (name' & s3' & w'' & Hb' & ->).
  unfold ChatbotDAG.execute in *.
  destruct (invoke_shape (ChatbotDAG.initial_state q sid h) w)
    as (name & s3 & w' & Hb & Hname & Hrun).
  rewrite Hb in Hb'. injection Hb' as <- <- <-.
  rewrite Hrun in *. cbn [LangGraph.visited LangGraph.outcome fst
    r_success r_error r_chat_history] in *.
  pose proof (error_kept_run _ _ _ _ _ Hb) as Hk.
  assert (Hfinal : error (output_node (memory_node s3)) <> "").
  { cbn [Pipeline.error_kept] in Hk.
    destruct Hk as (H1 & H2 & H3 & H4 & _).
    cbn [In] in Hin.
    destruct Hin as [[= <- <-] | [[= <- <-] | [[= <- <-] | [[= <- <-] | [[= <- <-] | []]]]]];
      tauto. }
  exists name, (input_node (ChatbotDAG.initial_state q sid h)),
    (decision_node (input_node (ChatbotDAG.initial_state q sid h))), s3.
  split; [reflexivity | ].
  split; [exact Hname | ].
  split; [apply memory_node_appends | ].
  split; [reflexivity | ].
  split; [exact Hk | ].
  split; [exact Hfinal | ].
  split; [reflexivity | ].
  split; [ | reflexivity].
  destruct (memory_node_fields s3) as (_ & _ & _ & _ & Hm).
  destruct (output_node_fields (memory_node s3)) as (_ & _ & _ & Ho & _).
  rewrite <- Hm, <- Ho. exact Hfinal.
Qed.

(** ** C3 *)

(** C3. On every execution path [process_query] returns [success = true]
    and a non-empty response (so in particular for every valid, non-empty
    query of at most 5000 characters); the exit stage puts the fixed fallback
    string in place of an empty response and leaves a non-empty one alone. *)
Theorem C3_response_never_empty :
  (forall q sid h w,
     let r := fst (ChatbotDAG.process_query World llm_invoke numexpr_evaluate q sid h w) in
     r_success r = true /\ r_response r <> "")
  /\ (forall s, response s = "" ->
        output_node s = set_response "I'm sorry, I couldn't generate a response." s)
  /\ (forall s, response s <> "" -> output_node s = s).
Proof.
  split; [ | split].
  - intros q sid h w r. subst r.
    destruct (process_query_eq q sid h w) as (name & s3 & w' & _ & ->).
    cbn [fst r_success r_response].
    split; [reflexivity | apply output_node_response].
  - intros s H. unfold output_node. rewrite H. reflexivity.
  - apply output_node_keeps.
Qed.

(** ** C4 *)

(** C4. Classification is a function of the query string alone: the
    decision node sets [query_type] to [classify] of the query and changes no
    other field; [classify] answers "text" or "calculation" on every string;
    "2+2", "calculate 10 * 4" and "what is 9 / 3" are calculations and
    "hello there" and "tell me a joke" are text, both for the classifier and
    in what [process_query] returns for them. *)
Theorem C4_classification_total_deterministic :
  (forall s, decision_node s = set_query_type (Pipeline.classify (user_query s)) s)
  /\ (forall s s', user_query s = user_query s' ->
        query_type (decision_node s) = query_type (decision_node s'))
  /\ (forall q, Pipeline.classify q = "text" \/ Pipeline.classify q = "calculation")
  /\ Forall (fun q => QueryValidator.is_calculation_query q = true)
       ["2+2"; "calculate 10 * 4"; "what is 9 / 3"]
  /\ Forall (fun q => QueryValidator.is_calculation_query q = false)
       ["hello there"; "tell me a joke"]
  /\ Forall (fun q => forall sid h w,
               r_query_type (fst (ChatbotDAG.process_query World llm_invoke
                                    numexpr_evaluate q sid h w)) = "calculation")
       ["2+2"; "calculate 10 * 4"; "what is 9 / 3"]
  /\ Forall (fun q => forall sid h w,
               r_query_type (fst (ChatbotDAG.process_query World llm_invoke
                                    numexpr_evaluate q sid h w)) = "text")
       ["hello there"; "tell me a joke"].
Proof.
  split; [ | split; [ | split; [ | split; [ | split; [ | split]]]]].
  - intros s. unfold decision_node, Pipeline.classify.
    destruct (QueryValidator.is_calculation_query (user_query s)); reflexivity.
  - intros s s' H. rewrite !decision_node_query_type, H. reflexivity.
  - intros q. unfold Pipeline.classify.
    destruct (QueryValidator.is_calculation_query q); [right | left]; reflexivity.
  - repeat constructor; vm_compute; reflexivity.
  - repeat constructor; vm_compute; reflexivity.
  - repeat constructor; intros sid h w; rewrite process_query_query_type;
      vm_compute; reflexivity.
  - repeat constructor; intros sid h w; rewrite process_query_query_type;
      vm_compute; reflexivity.
Qed.

(** ** C5 and C6: the calculation stage *)

Lemma input_node_valid_error s :
  user_query s <> "" ->
  fst (QueryValidator.validate_query (user_query s)) = true ->
  error (input_node s) = error s.
Proof.
  intros Hq Hv. unfold input_node.
  apply truthy_true_iff in Hq. rewrite Hq. cbn [negb].
  destruct (QueryValidator.validate_query (user_query s)) as [[|] e];
    [reflexivity | discriminate Hv].
Qed.

(** What [process_query] returns for a query routed to the tool node. *)
Lemma process_query_calculation q sid h w :
  QueryValidator.is_calculation_query (Pipeline.entry_query q) = true ->
  let s0 := ChatbotDAG.initial_state q sid h in
  let expression := _extract_math_expression (Pipeline.entry_query q) in
  let r := fst (ChatbotDAG.process_query World llm_invoke numexpr_evaluate q sid h w) in
  r_success r = true
  /\ r_query_type r = "calculation"
  /\ match numexpr_evaluate expression with
     | EvalOk result =>
         r_calculation_result r = py_str result
         /\ r_response r = "The result of " ++ expression ++ " is " ++ py_str result
         /\ r_error r = error (input_node s0)
     | EvalRaise e =>
         r_calculation_result r = ""
         /\ r_response r
            = "I couldn't perform that calculation. Please provide a valid mathematical expression."
         /\ r_error r = "Calculation error: " ++ e
     end.
Proof.
  intros Hc s0 expression r. subst r expression.
  destruct (process_query_eq q sid h w) as (name & s3 & w' & Hb & ->).
  fold s0 in Hb. cbn [fst r_success r_query_type r_calculation_result r_response r_error].
  unfold Pipeline.branch in Hb.
  rewrite decision_node_query_type, input_node_user_query in Hb.
  cbn [user_query ChatbotDAG.initial_state s0] in Hb. rewrite Hc in Hb.
  cbn [String.eqb Ascii.eqb Bool.eqb] in Hb.
  injection Hb as _ <- _.
  destruct (decision_node_others (input_node s0)) as (Hu & _ & Hcr & _ & _).
  destruct (input_node_others s0) as (_ & _ & Hcr0 & _ & _).
  split; [reflexivity | split].
  - unfold tool_node. destruct (numexpr_evaluate _); cbn [query_type set_response
      set_calculation_result set_error].
    all: rewrite decision_node_query_type, input_node_user_query;
      cbn [user_query ChatbotDAG.initial_state s0]; rewrite Hc; reflexivity.
  - destruct (memory_node_fields (tool_node numexpr_evaluate (decision_node (input_node s0))))
      as (_ & _ & Hr & _ & _).
    unfold tool_node in *. rewrite Hu, input_node_user_query in *.
    cbn [user_query ChatbotDAG.initial_state s0] in *.
    destruct (numexpr_evaluate (_extract_math_expression (Pipeline.entry_query q)))
      as [result | e].
    + cbn [calculation_result response error set_response set_calculation_result] in *.
      split; [reflexivity | split].
      * rewrite output_node_keeps; rewrite Hr; [reflexivity | discriminate].
      * apply decision_node_error.
    + cbn [calculation_result response error set_response set_error] in *.
      split; [rewrite Hcr, Hcr0; reflexivity | split; [ | reflexivity]].
      rewrite output_node_keeps; rewrite Hr; [reflexivity | discriminate].
Qed.

(** C5. For "what is 5 + 3?" the filler-word stripping leaves "5 + 3";
    given that the evaluator computes 8 for that expression, [process_query]
    returns the calculation result "8" and the response "The result of
    5 + 3 is 8", which contains "8". In general, when the stripping leaves
    nothing, the expression is the whole query, and that is what the tool node
    evaluates. *)
Theorem C5_calculation_of_5_plus_3 sid h w :
  numexpr_evaluate "5 + 3" = EvalOk (PyInt 8) ->
  let r := fst (ChatbotDAG.process_query World llm_invoke numexpr_evaluate
                  "what is 5 + 3?" sid h w) in
  _extract_math_expression "what is 5 + 3?" = "5 + 3"
  /\ r_query_type r = "calculation"
  /\ r_calculation_result r = "8"
  /\ r_response r = "The result of 5 + 3 is 8"
  /\ Str.contains "8" (r_response r) = true
  /\ r_error r = ""
  /\ (forall q, Str.strip (Re.sub true filler_words "" q) = "" ->
        _extract_math_expression q = q)
  /\ (forall s, Str.strip (Re.sub true filler_words "" (user_query s)) = "" ->
        tool_node numexpr_evaluate s
        = match numexpr_evaluate (user_query s) with
          | EvalOk result =>
              set_response
                ("The result of " ++ user_query s ++ " is " ++ py_str result)
                (set_calculation_result (py_str result) s)
          | EvalRaise e =>
              set_response
                "I couldn't perform that calculation. Please provide a valid mathematical expression."
                (set_error ("Calculation error: " ++ e) s)
          end).
Proof.
  intros Heval r.
  assert (Hx : _extract_math_expression "what is 5 + 3?" = "5 + 3")
    by (vm_compute; reflexivity).
  assert (Hq : Pipeline.entry_query "what is 5 + 3?" = "what is 5 + 3?")
    by (vm_compute; reflexivity).
  assert (Hc : QueryValidator.is_calculation_query
                 (Pipeline.entry_query "what is 5 + 3?") = true)
    by (vm_compute; reflexivity).
  pose proof (process_query_calculation "what is 5 + 3?" sid h w Hc) as H.
  cbv zeta in H. fold r in H. rewrite Hq, Hx, Heval in H.
  destruct H as (_ & Hty & Hcr & Hresp & Herr).
  assert (Hfill : forall q, Str.strip (Re.sub true filler_words "" q) = "" ->
                    _extract_math_expression q = q).
  { intros q Hs. unfold _extract_math_expression. rewrite Hs. reflexivity. }
  split; [exact Hx | ].
  split; [exact Hty | ].
  split; [exact Hcr | ].
  split; [exact Hresp | ].
  split; [rewrite Hresp; vm_compute; reflexivity | ].
  split.
  { rewrite Herr. rewrite input_node_valid_error.
    - reflexivity.
    - discriminate.
    - vm_compute; reflexivity. }
  split; [exact Hfill | ].
  intros s Hs. unfold tool_node. rewrite (Hfill _ Hs). reflexivity.
Qed.

(** C6. For "calculate banana", given that the evaluator raises on
    "banana", [process_query] returns [success = true], the query type
    "calculation", a non-empty error (the exception's text after
    "Calculation error: "), the fixed apology as the response and an empty
    calculation result. *)
Theorem C6_calculate_banana e sid h w :
  numexpr_evaluate "banana" = EvalRaise e ->
  let r := fst (ChatbotDAG.process_query World llm_invoke numexpr_evaluate
                  "calculate banana" sid h w) in
  _extract_math_expression "calculate banana" = "banana"
  /\ r_success r = true
  /\ r_query_type r = "calculation"
  /\ r_error r = "Calculation error: " ++ e
  /\ r_error r <> ""
  /\ r_response r
     = "I couldn't perform that calculation. Please provide a valid mathematical expression."
  /\ r_calculation_result r = "".
Proof.
  intros Heval r.
  assert (Hx : _extract_math_expression "calculate banana" = "banana")
    by (vm_compute; reflexivity).
  assert (Hq : Pipeline.entry_query "calculate banana" = "calculate banana")
    by (vm_compute; reflexivity).
  assert (Hc : QueryValidator.is_calculation_query
                 (Pipeline.entry_query "calculate banana") = true)
    by (vm_compute; reflexivity).
  pose proof (process_query_calculation "calculate banana" sid h w Hc) as H.
  cbv zeta in H. fold r in H. rewrite Hq, Hx, Heval in H.
  destruct H as (Hok & Hty & Hcr & Hresp & Herr).
  split; [exact Hx | ].
  split; [exact Hok | ].
  split; [exact Hty | ].
  split; [exact Herr | ].
  split; [rewrite Herr; discriminate | ].
  split; [exact Hresp | exact Hcr].
Qed.

(** ** The history bound of the engine *)

Lemma last_n_last_n {A} m n (l : list A) :
  (m <= n)%nat -> last_n m (last_n n l) = last_n m l.
Proof.
  intros H. unfold last_n.
  rewrite length_skipn, skipn_skipn. f_equal. lia.
Qed.

Lemma last_n_absorb {A} n (l1 l2 : list A) :
  last_n n (last_n n l1 ++ l2)%list = last_n n (l1 ++ l2)%list.
Proof.
  destruct (Nat.le_gt_cases n (length l2)) as [H | H].
  - rewrite !last_n_app by exact H. reflexivity.
  - rewrite !last_n_app_long by lia.
    rewrite last_n_last_n by lia. reflexivity.
Qed.

(** One call: the history returned is the last 20 entries of the history
    received followed by the exchange, and the exchange is the user entry
    for the query as the entry stage handed it on, then the assistant entry. *)
Lemma process_query_history q sid h w :
  let r := fst (ChatbotDAG.process_query World llm_invoke numexpr_evaluate q sid h w) in
  r_chat_history r = last_n 20 (or_empty h ++ Pipeline.exchange r)%list
  /\ exists a,
       Pipeline.exchange r
       = [Message "user" (Pipeline.entry_query q)
            (Some (Pipeline.classify (Pipeline.entry_query q)));
          Message "assistant" a None].
Proof.
  intros r. subst r.
  destruct (process_query_eq q sid h w) as (name & s3 & w' & Hb & ->).
  cbn [fst]. unfold Pipeline.exchange. cbn [r_chat_history].
  pose proof (branch_others _ _ _ _ _ Hb) as (Hu & Hq & Hh).
  destruct (decision_node_others (input_node (ChatbotDAG.initial_state q sid h)))
    as (Hu' & _ & _ & Hh' & _).
  destruct (input_node_others (ChatbotDAG.initial_state q sid h))
    as (_ & _ & _ & Hh'' & _).
  rewrite decision_node_query_type in Hq.
  rewrite Hu', input_node_user_query in Hu.
  rewrite input_node_user_query in Hq.
  rewrite Hh', Hh'' in Hh.
  cbn [user_query chat_history ChatbotDAG.initial_state] in Hu, Hq, Hh.
  assert (Hex : last_n 2 (chat_history (memory_node s3))
                = [Message "user" (user_query s3) (Some (query_type s3));
                   Message "assistant" (response s3) None]).
  { rewrite memory_node_appends. rewrite last_n_app by (cbn; lia). reflexivity. }
  rewrite Hex. split.
  - rewrite memory_node_history, Hh. reflexivity.
  - exists (response s3). rewrite Hu, Hq. reflexivity.
Qed.

Lemma session_length qs sid h w :
  length (Pipeline.session World llm_invoke numexpr_evaluate qs sid h w) = length qs.
Proof.
  revert h w. induction qs as [|q qs IH]; intros h w; cbn [Pipeline.session].
  - reflexivity.
  - destruct (ChatbotDAG.process_query _ _ _ q sid (Some h) w) as [r w'].
    cbn [length]. rewrite IH. reflexivity.
Qed.

Lemma final_history_cons h r rs :
  Pipeline.final_history h (r :: rs) = Pipeline.final_history (r_chat_history r) rs.
Proof.
  unfold Pipeline.final_history. destruct rs as [|r' rs]; [reflexivity | ].
  rewrite last_cons. destruct (last (r' :: rs)) eqn:E; [reflexivity | ].
  apply last_None in E. discriminate E.
Qed.

(** A session of at least one query: the final history is the last 20
    entries of the initial history followed by all the exchanges, in order. *)
Lemma session_history q qs sid h w :
  let rs := Pipeline.session World llm_invoke numexpr_evaluate (q :: qs) sid h w in
  Pipeline.final_history h rs
  = last_n 20 (h ++ concat (List.map Pipeline.exchange rs))%list.
Proof.
  revert q h w. induction qs as [|q' qs IH]; intros q h w.
  - cbn [Pipeline.session].
    pose proof (process_query_history q sid (Some h) w) as [Hh _].
    destruct (ChatbotDAG.process_query _ _ _ q sid (Some h) w) as [r w'].
    cbn [fst or_empty] in Hh. cbv zeta.
    cbn [List.map concat]. rewrite app_nil_r. exact Hh.
  - specialize (IH q'). cbv zeta in IH |- *.
    remember (q' :: qs) as rest.
    cbn [Pipeline.session].
    pose proof (process_query_history q sid (Some h) w) as [Hh _].
    destruct (ChatbotDAG.process_query _ _ _ q sid (Some h) w) as [r w'].
    cbn [fst or_empty] in Hh.
    rewrite final_history_cons, IH.
    cbn [List.map concat].
    rewrite Hh, last_n_absorb, app_assoc. reflexivity.
Qed.

Lemma session_exchanges qs sid h w :
  Forall2 (fun q r =>
             exists a,
               Pipeline.exchange r
               = [Message "user" (Pipeline.entry_query q)
                    (Some (Pipeline.classify (Pipeline.entry_query q)));
                  Message "assistant" a None])
          qs (Pipeline.session World llm_invoke numexpr_evaluate qs sid h w).
Proof.
  revert h w. induction qs as [|q qs IH]; intros h w; cbn [Pipeline.session].
  - constructor.
  - pose proof (process_query_history q sid (Some h) w) as [_ Hx].
    destruct (ChatbotDAG.process_query _ _ _ q sid (Some h) w) as [r w'].
    constructor; [exact Hx | apply IH].
Qed.

Lemma concat_exchanges_length (rs : list QueryResult) :
  Forall (fun r => length (Pipeline.exchange r) = 2%nat) rs ->
  length (concat (List.map Pipeline.exchange rs)) = (2 * length rs)%nat.
Proof.
  induction 1 as [|r rs Hr _ IH]; [reflexivity | ].
  cbn [List.map concat length]. rewrite length_app, IH, Hr. lia.
Qed.

Lemma session_exchanges_length qs sid h w :
  Forall (fun r => length (Pipeline.exchange r) = 2%nat)
    (Pipeline.session World llm_invoke numexpr_evaluate qs sid h w).
Proof.
  pose proof (session_exchanges qs sid h w) as H.
  induction H as [|q r qs' rs (a & Hx) _ IH]; constructor; [ | exact IH].
  rewrite Hx. reflexivity.
Qed.

(** From the tenth exchange on, the history is exactly the last ten
    exchanges. *)
Lemma session_last_ten qs sid h w :
  (10 <= length qs)%nat ->
  let rs := Pipeline.session World llm_invoke numexpr_evaluate qs sid h w in
  Pipeline.final_history h rs = concat (List.map Pipeline.exchange (last_n 10 rs))
  /\ length (Pipeline.final_history h rs) = 20%nat.
Proof.
  intros Hn rs.
  assert (Hlen : length rs = length qs) by apply session_length.
  assert (Hall : Forall (fun r => length (Pipeline.exchange r) = 2%nat) rs)
    by apply session_exchanges_length.
  assert (Hten : length (concat (List.map Pipeline.exchange (last_n 10 rs))) = 20%nat).
  { rewrite concat_exchanges_length.
    - rewrite last_n_length. lia.
    - unfold last_n. apply Forall_drop. exact Hall. }
  assert (Hfinal : Pipeline.final_history h rs
                   = concat (List.map Pipeline.exchange (last_n 10 rs))).
  { subst rs. destruct qs as [|q qs]; [cbn in Hn; lia | ].
    rewrite session_history.
    set (rs := Pipeline.session World llm_invoke numexpr_evaluate (q :: qs) sid h w) in *.
    rewrite <- (firstn_skipn (length rs - 10) rs) at 1.
    rewrite List.map_app, concat_app, app_assoc.
    fold (last_n 10 rs).
    rewrite last_n_app by lia.
    apply last_n_all. lia. }
  split; [exact Hfinal | ].
  rewrite Hfinal. exact Hten.
Qed.

End EngineFacts.

(** ** C2: what happens to a query that fails validation *)

Section ServiceFacts.

Variable World : Type.
Variable llm_invoke : string -> World -> llm_outcome * World.
Variable numexpr_evaluate : string -> eval_outcome.
Variable now : World -> Z.
Variable uuid4 : World -> string * World.
Variable db_history : string -> Z -> World -> (string + list message) * World.
Variable db_save_conversation :
  string -> string -> string -> string -> string -> World -> World.

Import WorkflowNodes.

Lemma input_node_invalid q sid h :
  fst (QueryValidator.validate_query q) = false ->
  exists e, e <> ""
    /\ input_node (ChatbotDAG.initial_state q sid h)
       = set_error e (ChatbotDAG.initial_state q sid h).
Proof.
  intros Hv. unfold input_node. cbn [user_query ChatbotDAG.initial_state].
  destruct (Str.truthy q); cbn [negb].
  - destruct (QueryValidator.validate_query q) as [[|] err] eqn:E;
      [discriminate Hv | cbn [negb]].
    apply validate_query_invalid in E as (msg & -> & Hmsg).
    exists msg. split; [exact Hmsg | reflexivity].
  - exists "No user query provided". split; [discriminate | reflexivity].
Qed.

Lemma entry_query_invalid q :
  fst (QueryValidator.validate_query q) = false -> Pipeline.entry_query q = q.
Proof.
  intros Hv. unfold Pipeline.entry_query. rewrite Hv.
  destruct (negb (Str.truthy q)); reflexivity.
Qed.

(** C2, as the code has it. A query that fails validation is reported
    directly by the orchestrating service: [process_chat_message] returns
    [success = false] with "Invalid query: " and the reason, and leaves the
    cache and the world as they were, so the engine is not run. The engine
    itself does not stop at its entry stage: given such a query, the input
    node only sets a non-empty error, and decision, the routed branch,
    memory and output all run; the user entry (the query as given) and the
    assistant entry are appended to the history, and the result is a success
    with a non-empty error. *)
Theorem C2_invalid_query_handling q :
  fst (QueryValidator.validate_query q) = false ->
  (exists e,
     e <> ""
     /\ QueryValidator.validate_query q = (false, Some e)
     /\ forall sid c w,
          ChatbotService.process_chat_message World llm_invoke numexpr_evaluate
            now uuid4 db_history db_save_conversation q sid c w
          = (mkChatResult false (ChatbotService.or_blank sid)
               ("Invalid query: " ++ e) "" None e, c, w))
  /\ (forall sid h w,
        let s0 := ChatbotDAG.initial_state q sid h in
        let run := ChatbotDAG.execute World llm_invoke numexpr_evaluate q sid h w in
        let r := fst (ChatbotDAG.process_query World llm_invoke numexpr_evaluate q sid h w) in
        (exists e, e <> "" /\ input_node s0 = set_error e s0)
        /\ exists branch s3,
             LangGraph.visited run
             = [("input_node", input_node s0);
                ("decision_node", decision_node (input_node s0));
                (branch, s3);
                ("memory_node", memory_node s3);
                ("output_node", output_node (memory_node s3))]
             /\ (branch = "llm_node" \/ branch = "tool_node")
             /\ r_chat_history r
                = (last_n 18 (or_empty h)
                   ++ [Message "user" q (Some (Pipeline.classify q));
                       Message "assistant" (response s3) None])%list
             /\ r_success r = true
             /\ r_error r <> "").
Proof.
  intros Hv. split.
  - destruct (QueryValidator.validate_query q) as [[|] err] eqn:E;
      [discriminate Hv | ].
    pose proof (validate_query_invalid _ _ E) as (msg & -> & Hmsg).
    exists msg. split; [exact Hmsg | split; [reflexivity | ]].
    intros sid c w.
    unfold ChatbotService.process_chat_message, validate_and_sanitize_query.
    rewrite E. reflexivity.
  - intros sid h w s0 run r. subst run r.
    split; [apply input_node_invalid; exact Hv | ].
    unfold s0. clear s0.
    set (s0 := ChatbotDAG.initial_state q sid h).
    destruct (process_query_eq World llm_invoke numexpr_evaluate q sid h w)
      as (name' & s3' & w'' & Hb' & ->).
    unfold ChatbotDAG.execute. fold s0.
    destruct (invoke_shape World llm_invoke numexpr_evaluate s0 w)
      as (name & s3 & w' & Hb & Hname & Hrun).
    fold s0 in Hb'. rewrite Hb in Hb'. injection Hb' as <- <- <-.
    rewrite Hrun. cbn [LangGraph.visited fst r_chat_history r_success r_error].
    exists name, s3.
    split; [reflexivity | split; [exact Hname | ]].
    pose proof (branch_others _ _ _ _ _ _ _ _ Hb) as (Hu & Hq & Hh).
    destruct (decision_node_others (input_node s0)) as (Hu' & _ & _ & Hh' & _).
    destruct (input_node_others s0) as (_ & _ & _ & Hh'' & _).
    rewrite decision_node_query_type in Hq.
    rewrite Hu', input_node_user_query in Hu.
    rewrite input_node_user_query in Hq.
    rewrite Hh', Hh'' in Hh.
    cbn [user_query chat_history ChatbotDAG.initial_state s0] in Hu, Hq, Hh.
    rewrite entry_query_invalid in Hu, Hq by exact Hv.
    split.
    { rewrite memory_node_appends, Hu, Hq, Hh. reflexivity. }
    split; [reflexivity | ].
    apply (branch_error _ _ _ _ _ _ _ _ Hb).
    rewrite decision_node_error.
    destruct (input_node_invalid q sid h Hv) as (e & He & Heq).
    fold s0 in Heq. rewrite Heq. exact He.
Qed.

End ServiceFacts.

(** ** The session cache *)

Section CacheProofs.

Import CacheService CacheFacts.

Implicit Types (c : gmap string session_data) (s : string) (now T : Z).

Lemma clear_session_snd s c : snd (clear_session s c) = delete s c.
Proof.
  unfold clear_session. destruct (c !! s) eqn:E; cbn [snd]; [reflexivity | ].
  symmetry. apply delete_id. exact E.
Qed.

Lemma clear_session_fst s c : fst (clear_session s c) = true <-> is_Some (c !! s).
Proof.
  unfold clear_session. destruct (c !! s) eqn:E; cbn [fst].
  - split; [eauto | reflexivity].
  - split; [discriminate | intros [x Hx]; discriminate Hx].
Qed.

Lemma is_expired_iff now T :
  _is_expired now T = true <-> now - T > timedelta_minutes 60.
Proof.
  unfold _is_expired, CACHE_EXPIRATION_MINUTES.
  rewrite Z.gtb_lt. lia.
Qed.

Lemma not_expired_iff now T :
  _is_expired now T = false <-> now - T <= timedelta_minutes 60.
Proof.
  rewrite <- Bool.not_true_iff_false, is_expired_iff. lia.
Qed.

(** At exactly 60 minutes an entry is still live; one microsecond later it
    is expired. *)
Lemma is_expired_boundary T :
  _is_expired (T + timedelta_minutes 60) T = false
  /\ _is_expired (T + timedelta_minutes 60 + 1) T = true.
Proof.
  split; [apply not_expired_iff | apply is_expired_iff];
    unfold timedelta_minutes; lia.
Qed.

(** [get] on a stored entry, by age. *)
Lemma get_live now s c d :
  c !! s = Some d -> _is_expired now (timestamp d) = false ->
  get_session_history now s c = (history d, c).
Proof. intros H E. unfold get_session_history. rewrite H, E. reflexivity. Qed.

Lemma get_expired now s c d :
  c !! s = Some d -> _is_expired now (timestamp d) = true ->
  get_session_history now s c = ([], delete s c).
Proof.
  intros H E. unfold get_session_history.
  rewrite H, E, clear_session_snd. reflexivity.
Qed.

Lemma get_absent now s c :
  c !! s = None -> get_session_history now s c = ([], c).
Proof. intros H. unfold get_session_history. rewrite H. reflexivity. Qed.

(** The sweep keeps exactly the entries that are not expired. *)
Lemma foldl_clear_lookup (ks : list string) c k :
  foldl (fun acc session_id => snd (clear_session session_id acc)) c ks !! k
  = if decide (k ∈ ks) then None else c !! k.
Proof.
  revert c. induction ks as [|a ks IH]; intros c; cbn [foldl].
  - rewrite decide_False by apply not_elem_of_nil. reflexivity.
  - rewrite IH, clear_session_snd.
    destruct (decide (k ∈ ks)) as [Hin | Hin].
    + rewrite decide_True by (right; exact Hin). reflexivity.
    + destruct (decide (k = a)) as [-> | Hne].
      * rewrite decide_True by left. apply lookup_delete_eq.
      * rewrite decide_False.
        -- apply lookup_delete_ne. congruence.
        -- intros H. apply elem_of_cons in H as [H | H]; tauto.
Qed.

Lemma cleanup_lookup now c k :
  snd (cleanup_expired_sessions now c) !! k
  = match c !! k with
    | Some d => if _is_expired now (timestamp d) then None else Some d
    | None => None
    end.
Proof.
  unfold cleanup_expired_sessions. cbn [snd].
  rewrite foldl_clear_lookup.
  destruct (decide _) as [Hin | Hin].
  - apply list_elem_of_fmap in Hin as ([k' d] & -> & Hin).
    apply list_elem_of_filter in Hin as [He Hin].
    apply elem_of_map_to_list in Hin. cbn [fst snd] in *.
    rewrite Hin, He. reflexivity.
  - destruct (c !! k) as [d|] eqn:E; [ | reflexivity].
    destruct (_is_expired now (timestamp d)) eqn:He; [ | reflexivity].
    exfalso. apply Hin. apply list_elem_of_fmap.
    exists (k, d). split; [reflexivity | ].
    apply list_elem_of_filter. split; [exact He | ].
    apply elem_of_map_to_list. exact E.
Qed.

Lemma cleanup_filter now c :
  snd (cleanup_expired_sessions now c)
  = filter (fun kv => _is_expired now (timestamp (snd kv)) = false) c.
Proof.
  apply map_eq. intros k. rewrite cleanup_lookup, map_lookup_filter.
  destruct (c !! k) as [d|]; cbn; [ | reflexivity].
  destruct (_is_expired now (timestamp d)) eqn:He.
  - rewrite option_guard_False by (cbn; congruence). reflexivity.
  - rewrite option_guard_True by (cbn; congruence). reflexivity.
Qed.

(** A live entry survives sweeps that ran while it was live. *)
Lemma sweeps_keep (ts : list Z) c s d :
  c !! s = Some d ->
  Forall (fun t => _is_expired t (timestamp d) = false) ts ->
  sweeps ts c !! s = Some d.
Proof.
  intros Hs Hts. revert c Hs.
  induction Hts as [|t ts Ht _ IH]; intros c Hs; cbn [sweeps foldl].
  - exact Hs.
  - apply IH. rewrite cleanup_lookup, Hs, Ht. reflexivity.
Qed.

(** Whatever sweeps ran, an entry is either the one stored or gone. *)
Lemma sweeps_keep_or_drop (ts : list Z) c s :
  sweeps ts c !! s = c !! s \/ sweeps ts c !! s = None.
Proof.
  revert c. induction ts as [|t ts IH]; intros c; cbn [sweeps foldl].
  - left. reflexivity.
  - destruct (IH (snd (cleanup_expired_sessions t c))) as [H | H];
      [ | right; exact H].
    unfold sweeps in H. rewrite H, cleanup_lookup.
    destruct (c !! s) as [d|]; [ | left; reflexivity].
    destruct (_is_expired t (timestamp d)); [right | left]; reflexivity.
Qed.

Lemma live_sessions_spec now c s :
  s ∈ live_sessions now c <-> session_exists now s c = true.
Proof.
  unfold live_sessions, session_exists.
  rewrite elem_of_dom. unfold is_Some.
  setoid_rewrite map_lookup_filter_Some. cbn [snd].
  destruct (c !! s) as [d|].
  - destruct (_is_expired now (timestamp d)) eqn:E; cbn [negb].
    + split; [intros (x & [= <-] & Hx); congruence | discriminate].
    + split; [reflexivity | intros _; exists d; split; [reflexivity | exact E]].
  - split; [intros (x & Hx & _); discriminate Hx | discriminate].
Qed.

Lemma live_sessions_size now c :
  size (live_sessions now c)
  = size (filter (fun kv => _is_expired now (timestamp (snd kv)) = false) c).
Proof. unfold live_sessions. apply size_dom. Qed.

(** ** C8 *)

(** C8. For an entry written by [save_session_history] at time [T]: a
    [get_session_history] 59 minutes later returns the stored history and
    leaves the cache as it is; one 61 minutes later returns the empty list and
    removes the entry; both hold as well after any sweeps in between (sweeps
    that ran no later than the first read, any sweeps at all for the second);
    and a read of an absent session returns the empty list and changes
    nothing. A read has no failure outcome. *)
Theorem C8_cache_ttl c s (h : list message) T :
  let c1 := save_session_history T s h c in
  get_session_history (T + timedelta_minutes 59) s c1 = (h, c1)
  /\ get_session_history (T + timedelta_minutes 61) s c1 = ([], delete s c1)
  /\ (forall ts,
        Forall (fun t => t <= T + timedelta_minutes 59) ts ->
        get_session_history (T + timedelta_minutes 59) s (sweeps ts c1)
        = (h, sweeps ts c1))
  /\ (forall ts,
        let after := get_session_history (T + timedelta_minutes 61) s (sweeps ts c1) in
        fst after = [] /\ snd after !! s = None)
  /\ (forall now s' c', c' !! s' = None -> get_session_history now s' c' = ([], c')).
Proof.
  intros c1.
  assert (Hs : c1 !! s = Some (SessionData h T)) by apply lookup_insert_eq.
  assert (H59 : _is_expired (T + timedelta_minutes 59) T = false).
  { apply not_expired_iff. unfold timedelta_minutes. lia. }
  assert (H61 : _is_expired (T + timedelta_minutes 61) T = true).
  { apply is_expired_iff. unfold timedelta_minutes. lia. }
  split; [apply (get_live _ _ _ _ Hs H59) | ].
  split; [apply (get_expired _ _ _ _ Hs H61) | ].
  split; [ | split].
  - intros ts Hts.
    apply (get_live _ _ _ (SessionData h T)); [ | exact H59].
    apply sweeps_keep; [exact Hs | ].
    eapply Forall_impl; [exact Hts | ].
    intros t Ht. cbn [timestamp]. apply not_expired_iff.
    cbv beta in Ht. unfold timedelta_minutes in *. lia.
  - intros ts after. subst after.
    destruct (sweeps_keep_or_drop ts c1 s) as [H | H].
    + rewrite Hs in H.
      rewrite (get_expired _ _ _ _ H H61). cbn [fst snd].
      split; [reflexivity | apply lookup_delete_eq].
    + rewrite (get_absent _ _ _ H). cbn [fst snd].
      split; [reflexivity | exact H].
  - intros now s' c' H. apply get_absent. exact H.
Qed.

(** ** C9 *)

(** C9, as the code has it. [clear_session] returns true exactly when an
    entry is stored for the session, whether live or expired and not yet
    evicted, and removes it, so that the next [get_session_history] is a miss;
    on an absent entry it returns false and changes nothing. So it returns
    true on a live entry, true on an expired entry still in the cache, and
    false on an expired entry that a read or a sweep has already evicted. *)
Theorem C9_invalidate s c :
  (fst (clear_session s c) = true <-> is_Some (c !! s))
  /\ snd (clear_session s c) = delete s c
  /\ (forall now,
        get_session_history now s (snd (clear_session s c))
        = ([], snd (clear_session s c)))
  /\ (c !! s = None -> clear_session s c = (false, c))
  /\ (forall now, session_exists now s c = true -> fst (clear_session s c) = true)
  /\ (forall now d,
        c !! s = Some d -> _is_expired now (timestamp d) = true ->
        session_exists now s c = false
        /\ fst (clear_session s c) = true
        /\ fst (clear_session s (snd (get_session_history now s c))) = false
        /\ fst (clear_session s (snd (cleanup_expired_sessions now c))) = false).
Proof.
  split; [apply clear_session_fst | ].
  split; [apply clear_session_snd | ].
  split; [ | split; [ | split]].
  - intros now. apply get_absent. rewrite clear_session_snd. apply lookup_delete_eq.
  - intros H. unfold clear_session. rewrite H. reflexivity.
  - intros now H. apply clear_session_fst.
    unfold session_exists in H. destruct (c !! s); [eauto | discriminate H].
  - intros now d Hs He.
    split; [unfold session_exists; rewrite Hs, He; reflexivity | ].
    split; [apply clear_session_fst; eauto | ].
    split.
    + rewrite (get_expired _ _ _ _ Hs He). cbn [snd].
      unfold clear_session. rewrite lookup_delete_eq. reflexivity.
    + unfold clear_session. rewrite cleanup_lookup, Hs, He. reflexivity.
Qed.

(** ** C10 *)

(** C10. [get_session_count] counts the stored entries, expired ones
    included. The sessions [session_exists] accepts are at most that many;
    an expired entry still stored is refused by [session_exists] and yet
    counted, which makes the inequality strict, until a read of that session
    or a sweep removes it; after a sweep the two numbers agree. From every
    cache state such an entry can arise: some session is absent from it, and
    an entry saved for an absent session is counted and, 61 minutes later,
    refused by [session_exists]. *)
Theorem C10_count_includes_expired now c :
  get_session_count c = Z.of_nat (size c)
  /\ (forall s, s ∈ live_sessions now c <-> session_exists now s c = true)
  /\ Z.of_nat (size (live_sessions now c)) <= get_session_count c
  /\ (forall s d,
        c !! s = Some d -> _is_expired now (timestamp d) = true ->
        session_exists now s c = false
        /\ get_session_count c = get_session_count (delete s c) + 1
        /\ Z.of_nat (size (live_sessions now c)) < get_session_count c
        /\ get_session_count (snd (get_session_history now s c))
           = get_session_count c - 1
        /\ snd (cleanup_expired_sessions now c) !! s = None)
  /\ get_session_count (snd (cleanup_expired_sessions now c))
     = Z.of_nat (size (live_sessions now c))
  /\ (exists s, c !! s = None)
  /\ (forall s (h : list message) T,
        c !! s = None ->
        let c1 := save_session_history T s h c in
        session_exists (T + timedelta_minutes 61) s c1 = false
        /\ get_session_count c1 = get_session_count c + 1).
Proof.
  split; [reflexivity | ].
  split; [intros s; apply live_sessions_spec | ].
  split.
  { unfold get_session_count. rewrite live_sessions_size.
    apply inj_le. apply map_size_filter. }
  split.
  { intros s d Hs He.
    assert (Hdel : size (delete s c) = Nat.pred (size c))
      by (apply map_size_delete_Some; eauto).
    assert (Hpos : size c <> 0%nat).
    { apply map_size_ne_0_lookup. exists s. eauto. }
    split; [unfold session_exists; rewrite Hs, He; reflexivity | ].
    split; [unfold get_session_count; rewrite Hdel; lia | ].
    split.
    { unfold get_session_count. rewrite live_sessions_size.
      assert (Hsub : filter (fun kv => _is_expired now (timestamp (snd kv)) = false) c
                     ⊆ delete s c).
      { apply map_subseteq_spec. intros k x Hk.
        apply map_lookup_filter_Some in Hk as [Hk Hx]. cbn [snd] in Hx.
        destruct (decide (k = s)) as [-> | Hne].
        - rewrite Hs in Hk. injection Hk as <-. congruence.
        - rewrite lookup_delete_ne by congruence. exact Hk. }
      apply map_subseteq_size in Hsub. lia. }
    split.
    { rewrite (get_expired _ _ _ _ Hs He). cbn [snd].
      unfold get_session_count. rewrite Hdel. lia. }
    rewrite cleanup_lookup, Hs, He. reflexivity. }
  split.
  { unfold get_session_count. rewrite cleanup_filter, live_sessions_size. reflexivity. }
  split.
  { exists (fresh (dom c)). apply not_elem_of_dom. apply is_fresh. }
  intros s h T Hs c1.
  split.
  - unfold session_exists, c1, save_session_history.
    rewrite lookup_insert_eq. cbn [timestamp].
    replace (_is_expired (T + timedelta_minutes 61) T) with true; [reflexivity | ].
    symmetry. apply is_expired_iff. unfold timedelta_minutes. lia.
  - unfold get_session_count, c1, save_session_history.
    rewrite map_size_insert_None by exact Hs. lia.
Qed.

End CacheProofs.

(** ** The statements at concrete inputs *)

(** An empty query: the entry stage sets an error, and the run completes. *)
Lemma C1_witness :
  (exists name s,
     In (name, s) (LangGraph.visited (Demo.execute "" "s1" None 0)) /\ error s <> "")
  /\ length (r_chat_history (fst (Demo.process_query "" "s1" None 0))) = 2%nat
  /\ r_error (fst (Demo.process_query "" "s1" None 0)) <> "".
Proof.
  assert (H : exists name s,
            In (name, s) (LangGraph.visited (Demo.execute "" "s1" None 0))
            /\ error s <> "").
  { exists "input_node",
      (WorkflowNodes.input_node (ChatbotDAG.initial_state "" "s1" None)).
    split; [vm_compute; left; reflexivity | vm_compute; discriminate]. }
  split; [exact H | ].
  destruct (C1_error_does_not_stop_the_pipeline Demo.World Demo.llm_invoke
              Demo.numexpr_evaluate "" "s1" None 0 H)
    as (b & s1 & s2 & s3 & _ & _ & _ & _ & _ & _ & _ & He & _).
  split; [vm_compute; reflexivity | exact He].
Defined.

(** A blank query fails validation, and the engine records the exchange all
    the same: the claim that it stops before the recording stage is false. *)
Lemma C2_counterexample :
  ~ Pipeline.stops_before_recording Demo.World Demo.llm_invoke Demo.numexpr_evaluate.
Proof.
  intros H.
  specialize (H "   " "s1" None 0).
  assert (Hv : fst (QueryValidator.validate_query "   ") = false)
    by (vm_compute; reflexivity).
  destruct (H Hv) as [Hh _].
  vm_compute in Hh. discriminate Hh.
Qed.

Lemma C2_witness :
  fst (QueryValidator.validate_query "   ") = false
  /\ Demo.process_chat_message "   " (Some "s1") ∅ 0
     = (mkChatResult false "s1" "Invalid query: Query is too short" "" None
          "Query is too short", ∅, 0)
  /\ r_error (fst (Demo.process_query "   " "s1" None 0)) <> "".
Proof.
  assert (Hv : fst (QueryValidator.validate_query "   ") = false)
    by (vm_compute; reflexivity).
  split; [exact Hv | ].
  destruct (C2_invalid_query_handling Demo.World Demo.llm_invoke
              Demo.numexpr_evaluate Demo.now Demo.uuid4 Demo.db_history
              Demo.db_save_conversation "   " Hv)
    as [(e & _ & He & Hsvc) Heng].
  split.
  - injection He as <-. apply (Hsvc (Some "s1") ∅ 0).
  - destruct (Heng "s1" None 0) as (_ & b & s3 & _ & _ & _ & _ & Herr).
    exact Herr.
Defined.

Lemma C3_witness :
  r_response (fst (Demo.process_query "please fail" "s1" None 0)) <> ""
  /\ WorkflowNodes.output_node (ChatbotDAG.initial_state "hi" "s1" None)
     = set_response "I'm sorry, I couldn't generate a response."
         (ChatbotDAG.initial_state "hi" "s1" None).
Proof.
  destruct (C3_response_never_empty Demo.World Demo.llm_invoke Demo.numexpr_evaluate)
    as (H1 & H2 & _).
  split.
  - apply (H1 "please fail" "s1" None 0).
  - apply H2. reflexivity.
Defined.

Lemma C4_witness :
  query_type (WorkflowNodes.decision_node (ChatbotDAG.initial_state "2+2" "s1" None))
  = query_type (WorkflowNodes.decision_node (ChatbotDAG.initial_state "2+2" "s2" (Some []))).
Proof.
  destruct (C4_classification_total_deterministic Demo.World Demo.llm_invoke
              Demo.numexpr_evaluate) as (_ & H & _).
  apply H. reflexivity.
Defined.

Lemma C5_witness :
  Demo.numexpr_evaluate "5 + 3" = EvalOk (PyInt 8)
  /\ r_calculation_result (fst (Demo.process_query "what is 5 + 3?" "s1" None 0)) = "8".
Proof.
  assert (H : Demo.numexpr_evaluate "5 + 3" = EvalOk (PyInt 8))
    by (vm_compute; reflexivity).
  split; [exact H | ].
  apply (C5_calculation_of_5_plus_3 Demo.World Demo.llm_invoke
           Demo.numexpr_evaluate "s1" None 0 H).
Defined.

Lemma C6_witness :
  Demo.numexpr_evaluate "banana" = EvalRaise "'banana'"
  /\ r_error (fst (Demo.process_query "calculate banana" "s1" None 0))
     = "Calculation error: 'banana'".
Proof.
  assert (H : Demo.numexpr_evaluate "banana" = EvalRaise "'banana'")
    by (vm_compute; reflexivity).
  split; [exact H | ].
  apply (C6_calculate_banana Demo.World Demo.llm_invoke
           Demo.numexpr_evaluate "'banana'" "s1" None 0 H).
Defined.

Lemma C8_witness :
  CacheService.get_session_history (0 + CacheService.timedelta_minutes 59) "s1"
    (CacheFacts.sweeps [CacheService.timedelta_minutes 30]
       (CacheService.save_session_history 0 "s1" [Message "user" "hi" (Some "text")] ∅))
  = ([Message "user" "hi" (Some "text")],
     CacheFacts.sweeps [CacheService.timedelta_minutes 30]
       (CacheService.save_session_history 0 "s1" [Message "user" "hi" (Some "text")] ∅)).
Proof.
  destruct (C8_cache_ttl ∅ "s1" [Message "user" "hi" (Some "text")] 0)
    as (_ & _ & H & _).
  apply H. repeat constructor. vm_compute. discriminate.
Defined.

(** An entry 61 minutes old and not yet evicted: [session_exists] refuses it
    and [clear_session] returns true. *)
Lemma C9_counterexample : ~ CacheFacts.true_iff_live.
Proof.
  intros H.
  specialize (H (CacheService.timedelta_minutes 61) "s1"
                (CacheService.save_session_history 0 "s1" [] ∅)).
  unfold CacheService.clear_session, CacheService.session_exists,
    CacheService.save_session_history in H.
  rewrite lookup_insert_eq in H.
  cbn [fst CacheService.timestamp] in H.
  vm_compute in H. discriminate H.
Qed.

Lemma C9_witness :
  CacheService.session_exists (CacheService.timedelta_minutes 61) "s1"
    (CacheService.save_session_history 0 "s1" [] ∅) = false
  /\ fst (CacheService.clear_session "s1"
            (CacheService.save_session_history 0 "s1" [] ∅)) = true.
Proof.
  destruct (C9_invalidate "s1" (CacheService.save_session_history 0 "s1" [] ∅))
    as (_ & _ & _ & _ & _ & H).
  destruct (H (CacheService.timedelta_minutes 61) (CacheService.SessionData [] 0))
    as (H1 & H2 & _).
  - apply lookup_insert_eq.
  - vm_compute. reflexivity.
  - split; [exact H1 | exact H2].
Defined.

Lemma C10_witness :
  CacheService.session_exists (CacheService.timedelta_minutes 61) "s1"
    (CacheService.save_session_history 0 "s1" [] ∅) = false
  /\ CacheService.get_session_count (CacheService.save_session_history 0 "s1" [] ∅)
     = CacheService.get_session_count ∅ + 1.
Proof.
  destruct (C10_count_includes_expired 0 ∅) as (_ & _ & _ & _ & _ & _ & H).
  apply (H "s1" [] 0). apply lookup_empty.
Defined.

(** * Further properties of the session cache *)

Section CacheMore.

Import CacheService CacheFacts.

Implicit Types (c : gmap string session_data) (s : string) (now T : Z).

(** What a read returns depends on the session's own entry only. *)
Lemma get_fst_lookup now s c c' :
  c !! s = c' !! s ->
  fst (get_session_history now s c) = fst (get_session_history now s c').
Proof.
  intros H. unfold get_session_history. rewrite <- H.
  destruct (c !! s) as [d|]; [ | reflexivity].
  destruct (_is_expired now (timestamp d)); reflexivity.
Qed.

Lemma get_snd_lookup now s c k :
  k <> s -> snd (get_session_history now s c) !! k = c !! k.
Proof.
  intros Hk. unfold get_session_history.
  destruct (c !! s) as [d|]; [ | reflexivity].
  destruct (_is_expired now (timestamp d)); [ | reflexivity].
  cbn [snd]. rewrite clear_session_snd. apply lookup_delete_ne. congruence.
Qed.

(** X1. Round trip. A history saved at [T] is what a read returns, unchanged,
    at any time up to and including 60 minutes after [T]; the read leaves
    the cache as it is, and [session_exists] agrees. *)
Theorem cache_round_trip c s (h : list message) T now :
  now - T <= timedelta_minutes 60 ->
  get_session_history now s (save_session_history T s h c)
  = (h, save_session_history T s h c)
  /\ session_exists now s (save_session_history T s h c) = true.
Proof.
  intros Hage.
  assert (Hs : save_session_history T s h c !! s = Some (SessionData h T))
    by apply lookup_insert_eq.
  assert (He : _is_expired now T = false) by (apply not_expired_iff; exact Hage).
  split.
  - apply (get_live _ _ _ _ Hs He).
  - unfold session_exists. rewrite Hs. cbn [timestamp]. rewrite He. reflexivity.
Qed.

(** X2. Last write wins, and the expiration window restarts at the last write. *)
Theorem cache_save_overwrites c s (h1 h2 : list message) T1 T2 now :
  now - T2 <= timedelta_minutes 60 ->
  save_session_history T2 s h2 (save_session_history T1 s h1 c)
  = save_session_history T2 s h2 c
  /\ get_session_count (save_session_history T2 s h2 (save_session_history T1 s h1 c))
     = get_session_count (save_session_history T1 s h1 c)
  /\ fst (get_session_history now s
            (save_session_history T2 s h2 (save_session_history T1 s h1 c))) = h2.
Proof.
  intros Hage.
  assert (Heq : save_session_history T2 s h2 (save_session_history T1 s h1 c)
                = save_session_history T2 s h2 c)
    by apply insert_insert_eq.
  split; [exact Heq | split].
  - unfold get_session_count, save_session_history. f_equal.
    apply map_size_insert_Some. rewrite lookup_insert_eq. eauto.
  - rewrite Heq.
    rewrite (get_live now s _ (SessionData h2 T2)).
    + reflexivity.
    + apply lookup_insert_eq.
    + apply not_expired_iff. exact Hage.
Qed.

(** X3. Sessions do not interfere: saving, reading or clearing one session leaves
    every other session's entry, and what a read of it returns, as it was. *)
Theorem cache_sessions_isolated c s s' (h : list message) T now now' :
  s <> s' ->
  (save_session_history T s h c !! s' = c !! s'
   /\ snd (get_session_history now s c) !! s' = c !! s'
   /\ snd (clear_session s c) !! s' = c !! s')
  /\ (fst (get_session_history now' s' (save_session_history T s h c))
      = fst (get_session_history now' s' c)
      /\ fst (get_session_history now' s' (snd (get_session_history now s c)))
         = fst (get_session_history now' s' c)
      /\ fst (get_session_history now' s' (snd (clear_session s c)))
         = fst (get_session_history now' s' c)).
Proof.
  intros Hne.
  assert (H1 : save_session_history T s h c !! s' = c !! s')
    by (apply lookup_insert_ne; exact Hne).
  assert (H2 : snd (get_session_history now s c) !! s' = c !! s')
    by (apply get_snd_lookup; congruence).
  assert (H3 : snd (clear_session s c) !! s' = c !! s')
    by (rewrite clear_session_snd; apply lookup_delete_ne; exact Hne).
  split; [split; [exact H1 | split; [exact H2 | exact H3]] | ].
  split; [ | split]; apply get_fst_lookup; assumption.
Qed.

(** Removing distinct stored keys one by one removes that many entries. *)
Lemma foldl_clear_size (ks : list string) c :
  NoDup ks -> (forall k, k ∈ ks -> is_Some (c !! k)) ->
  (size (foldl (fun acc session_id => snd (clear_session session_id acc)) c ks)
   + length ks = size c)%nat.
Proof.
  intros Hnd. revert c. induction Hnd as [|k ks Hk _ IH]; intros c Hin; cbn [foldl length].
  - lia.
  - rewrite clear_session_snd.
    assert (Hsome : is_Some (c !! k)) by (apply Hin; left).
    assert (Hrest : forall k', k' ∈ ks -> is_Some (delete k c !! k')).
    { intros k' Hk'. rewrite lookup_delete_ne.
      - apply Hin. right. exact Hk'.
      - intros ->. contradiction. }
    specialize (IH (delete k c) Hrest).
    rewrite map_size_delete_Some in IH by exact Hsome.
    assert (size c <> 0%nat) by (apply map_size_ne_0_lookup; exists k; exact Hsome).
    lia.
Qed.

Lemma cleanup_count now c :
  fst (cleanup_expired_sessions now c)
  = get_session_count c - get_session_count (snd (cleanup_expired_sessions now c)).
Proof.
  unfold cleanup_expired_sessions, get_session_count. cbn [fst snd].
  set (ks := fst <$> filter (fun kv => _is_expired now (timestamp (snd kv)) = true)
                            (map_to_list c)).
  pose proof (foldl_clear_size ks c) as H.
  assert (Hnd : NoDup ks).
  { unfold ks. apply (sublist_NoDup _ _ (NoDup_fst_map_to_list c)).
    apply fmap_sublist. apply sublist_filter. }
  assert (Hin : forall k, k ∈ ks -> is_Some (c !! k)).
  { intros k Hk. unfold ks in Hk.
    apply list_elem_of_fmap in Hk as ([k' d] & -> & Hk).
    apply list_elem_of_filter in Hk as [_ Hk].
    apply elem_of_map_to_list in Hk. eauto. }
  specialize (H Hnd Hin). lia.
Qed.

(** X4. Every removing operation reports exactly the number of entries it
    removed: the sweep and [clear_all_sessions] return the drop in
    [get_session_count], and [clear_session] returns true exactly when the
    count drops by one. A sweep removes nothing that [session_exists] accepts,
    and a second sweep at the same time finds nothing to remove. *)
Theorem cache_removals_accounted c s now :
  fst (cleanup_expired_sessions now c)
  = get_session_count c - get_session_count (snd (cleanup_expired_sessions now c))
  /\ fst (clear_all_sessions c)
     = get_session_count c - get_session_count (snd (clear_all_sessions c))
  /\ (if fst (clear_session s c) then 1 else 0)
     = get_session_count c - get_session_count (snd (clear_session s c))
  /\ (forall s', session_exists now s' c = true ->
        snd (cleanup_expired_sessions now c) !! s' = c !! s')
  /\ cleanup_expired_sessions now (snd (cleanup_expired_sessions now c))
     = (0, snd (cleanup_expired_sessions now c)).
Proof.
  split; [apply cleanup_count | ].
  split.
  { unfold clear_all_sessions, get_session_count. cbn [fst snd].
    rewrite map_size_empty. lia. }
  split.
  { unfold clear_session, get_session_count.
    destruct (c !! s) as [d|] eqn:E; cbn [fst snd].
    - rewrite map_size_delete_Some by eauto.
      assert (size c <> 0%nat) by (apply map_size_ne_0_lookup; exists s; eauto).
      lia.
    - lia. }
  split.
  { intros s' H. rewrite cleanup_lookup. unfold session_exists in H.
    destruct (c !! s') as [d|]; [ | reflexivity].
    destruct (_is_expired now (timestamp d)); [discriminate H | reflexivity]. }
  assert (Hsame : snd (cleanup_expired_sessions now (snd (cleanup_expired_sessions now c)))
                  = snd (cleanup_expired_sessions now c)).
  { apply map_eq. intros k. rewrite !cleanup_lookup.
    destruct (c !! k) as [d|]; [ | reflexivity].
    destruct (_is_expired now (timestamp d)) eqn:E; [reflexivity | ].
    rewrite E. reflexivity. }
  pose proof (cleanup_count now (snd (cleanup_expired_sessions now c))) as Hc.
  rewrite Hsame in Hc.
  destruct (cleanup_expired_sessions now (snd (cleanup_expired_sessions now c)))
    as [n c'] eqn:E.
  cbn [fst snd] in *. subst c'. f_equal. lia.
Qed.

(** X5. [session_exists] predicts what a read does and, unlike a read, changes
    nothing: where it answers true the read returns the stored history and
    keeps the entry; where it answers false the read returns the empty list
    and leaves no entry. An entry that has stopped existing does not come back
    as time passes. *)
Theorem cache_exists_predicts_get c s now :
  (session_exists now s c = true ->
     exists d, c !! s = Some d
               /\ get_session_history now s c = (history d, c))
  /\ (session_exists now s c = false ->
        fst (get_session_history now s c) = []
        /\ snd (get_session_history now s c) !! s = None)
  /\ (forall now', now <= now' ->
        session_exists now s c = false -> session_exists now' s c = false).
Proof.
  unfold session_exists.
  split; [ | split].
  - destruct (c !! s) as [d|] eqn:E; [ | discriminate].
    destruct (_is_expired now (timestamp d)) eqn:He; [discriminate | intros _].
    exists d. split; [reflexivity | apply (get_live _ _ _ _ E He)].
  - destruct (c !! s) as [d|] eqn:E.
    + destruct (_is_expired now (timestamp d)) eqn:He; [intros _ | discriminate].
      rewrite (get_expired _ _ _ _ E He). cbn [fst snd].
      split; [reflexivity | apply lookup_delete_eq].
    + intros _. rewrite (get_absent _ _ _ E). cbn [fst snd].
      split; [reflexivity | exact E].
  - intros now' Hle. destruct (c !! s) as [d|]; [ | reflexivity].
    destruct (_is_expired now (timestamp d)) eqn:He; [intros _ | discriminate].
    replace (_is_expired now' (timestamp d)) with true; [reflexivity | ].
    symmetry. apply is_expired_iff. apply is_expired_iff in He. lia.
Qed.

(** X6. Reading twice is the same as reading once. *)
Theorem cache_get_idempotent c s now :
  get_session_history now s (snd (get_session_history now s c))
  = get_session_history now s c.
Proof.
  unfold get_session_history at 2 3.
  destruct (c !! s) as [d|] eqn:E.
  - destruct (_is_expired now (timestamp d)) eqn:He; cbn [snd].
    + rewrite clear_session_snd. apply get_absent. apply lookup_delete_eq.
    + apply (get_live _ _ _ _ E He).
  - cbn [snd]. apply (get_absent _ _ _ E).
Qed.

End CacheMore.

(** * Further properties of the validators *)

Section ValidatorMore.

Lemma lower_lower c : Chars.lower (Chars.lower c) = Chars.lower c.
Proof. all_chars c. Qed.

Lemma str_lower_lower s : Str.lower (Str.lower s) = Str.lower s.
Proof.
  induction s as [|c s IH]; [reflexivity | ].
  cbn. rewrite lower_lower. f_equal. exact IH.
Qed.

(** [strip] twice is [strip] once. *)
Lemma rstrip_head c s :
  Chars.is_space c = false ->
  exists r, Str.rstrip (String c s) = String c r.
Proof.
  intros Hc. cbn. destruct (Str.rstrip s); [rewrite Hc | ]; eauto.
Qed.

Lemma rstrip_rstrip s : Str.rstrip (Str.rstrip s) = Str.rstrip s.
Proof.
  induction s as [|c s IH]; [reflexivity | ].
  cbn. destruct (Str.rstrip s) as [|d r] eqn:E.
  - destruct (Chars.is_space c) eqn:Hc; [reflexivity | ].
    cbn. rewrite Hc. reflexivity.
  - cbn. cbn in IH. rewrite IH. reflexivity.
Qed.

Lemma lstrip_head s :
  Str.lstrip s = "" \/ exists c r, Str.lstrip s = String c r /\ Chars.is_space c = false.
Proof.
  induction s as [|c s IH]; [left; reflexivity | ].
  cbn. destruct (Chars.is_space c) eqn:Hc; [exact IH | right; eauto].
Qed.

Lemma strip_strip s : Str.strip (Str.strip s) = Str.strip s.
Proof.
  unfold Str.strip.
  destruct (lstrip_head s) as [-> | (c & r & -> & Hc)]; [reflexivity | ].
  destruct (rstrip_head c r Hc) as (r' & Hr).
  rewrite Hr. cbn [Str.lstrip]. rewrite Hc, <- Hr. apply rstrip_rstrip.
Qed.

(** X7. [validate_query] ignores whitespace around the query, and the unsafe-markup
    check and [is_calculation_query] (and so the route a query takes) ignore
    letter case: trimming the query, respectively lowering its letters, before
    the call changes nothing. *)
Theorem validation_blind_to_margins_and_case q :
  QueryValidator.validate_query (Str.strip q) = QueryValidator.validate_query q
  /\ QueryValidator._contains_harmful_content (Str.lower q)
     = QueryValidator._contains_harmful_content q
  /\ QueryValidator.is_calculation_query (Str.lower q)
     = QueryValidator.is_calculation_query q
  /\ Pipeline.classify (Str.lower q) = Pipeline.classify q.
Proof.
  assert (Hc : QueryValidator.is_calculation_query (Str.lower q)
               = QueryValidator.is_calculation_query q).
  { unfold QueryValidator.is_calculation_query. rewrite str_lower_lower. reflexivity. }
  split; [ | split; [ | split; [exact Hc | ]]].
  - unfold QueryValidator.validate_query. rewrite strip_strip. reflexivity.
  - unfold QueryValidator._contains_harmful_content. rewrite str_lower_lower. reflexivity.
  - unfold Pipeline.classify. rewrite Hc. reflexivity.
Qed.

End ValidatorMore.

(** ** [sanitize_query] *)

Section SanitizeFacts.

Import Sanitize.

Lemma sanitize_query_steps q :
  QueryValidator.sanitize_query q = Str.strip (collapse_spaces (strip_tags q)).
Proof. reflexivity. Qed.

(** *** Substitution, for a pattern that does not look behind *)

Section Sub.

Variables (ic : bool) (r : Re.regex) (repl : string).

Hypothesis no_look_behind :
  forall p p' s, Re.match_at ic r p s = Re.match_at ic r p' s.

Lemma sub_from_prev n p p' s :
  Re.sub_from ic r repl n p s = Re.sub_from ic r repl n p' s.
Proof.
  revert n p p'. induction s as [|c s IH]; intros n p p'; [reflexivity | ].
  cbn [Re.sub_from]. destruct n as [|n].
  - rewrite (no_look_behind p p').
    destruct (Re.match_at ic r p' (String c s)) as [rest|]; [ | f_equal; apply IH].
    destruct (String.length (String c s) - String.length rest)%nat;
      f_equal; apply IH.
  - apply IH.
Qed.

Lemma sub_from_drop n p s :
  Re.sub_from ic r repl n p s = Re.sub_from ic r repl 0 None (drop n s).
Proof.
  revert n p. induction s as [|c s IH]; intros n p.
  - destruct n; reflexivity.
  - destruct n as [|n].
    + cbn [drop]. apply sub_from_prev.
    + cbn [Re.sub_from drop]. apply IH.
Qed.

Lemma sub_nil : Re.sub ic r repl "" = "".
Proof. reflexivity. Qed.

(** The unfolding of [sub] at a match and at a character no match starts at. *)
Lemma sub_cons_no_match c s :
  Re.match_at ic r None (String c s) = None ->
  Re.sub ic r repl (String c s) = String c (Re.sub ic r repl s).
Proof.
  intros H. unfold Re.sub. cbn [Re.sub_from]. rewrite H.
  f_equal. apply sub_from_prev.
Qed.

Lemma sub_cons_match c s rest n :
  Re.match_at ic r None (String c s) = Some rest ->
  (String.length (String c s) - String.length rest)%nat = S n ->
  drop n s = rest ->
  Re.sub ic r repl (String c s) = repl ++ Re.sub ic r repl rest.
Proof.
  intros H Hn Hd. unfold Re.sub. cbn [Re.sub_from]. rewrite H, Hn.
  f_equal. rewrite sub_from_drop, Hd. reflexivity.
Qed.

End Sub.

(** *** The two patterns *)

Lemma rep_space_zero p s :
  Re.rep_match false Re.CSpace true (fun _ rest => Some rest) 0 p s
  = Some (Str.lstrip s).
Proof.
  revert p. induction s as [|c s IH]; intros p; [reflexivity | ].
  cbn [Re.rep_match Str.lstrip Re.charset_mem].
  destruct (Chars.is_space c).
  - cbn [Nat.pred]. rewrite IH. reflexivity.
  - reflexivity.
Qed.

Lemma match_at_spaces p s :
  Re.match_at false spaces_pattern p s
  = match s with
    | EmptyString => None
    | String c s' => if Chars.is_space c then Some (Str.lstrip s') else None
    end.
Proof.
  unfold Re.match_at, spaces_pattern, Re.plus. cbn [Re.rmatch].
  destruct s as [|c s]; [reflexivity | ].
  cbn [Re.rep_match Re.charset_mem].
  destruct (Chars.is_space c); [ | reflexivity].
  cbn [Nat.pred]. rewrite rep_space_zero. reflexivity.
Qed.

Lemma lstrip_drop s :
  drop (String.length s - String.length (Str.lstrip s)) s = Str.lstrip s
  /\ (String.length (Str.lstrip s) <= String.length s)%nat.
Proof.
  induction s as [|c s [IH1 IH2]]; [split; reflexivity | ].
  cbn [Str.lstrip]. destruct (Chars.is_space c).
  - cbn [String.length].
    replace (S (String.length s) - String.length (Str.lstrip s))%nat
      with (S (String.length s - String.length (Str.lstrip s))) by lia.
    cbn [drop]. split; [exact IH1 | lia].
  - rewrite Nat.sub_diag. split; [reflexivity | lia].
Qed.

Lemma collapse_nil : collapse_spaces "" = "".
Proof. reflexivity. Qed.

Lemma collapse_cons c s :
  collapse_spaces (String c s)
  = if Chars.is_space c
    then String " " (collapse_spaces (Str.lstrip s))
    else String c (collapse_spaces s).
Proof.
  unfold collapse_spaces.
  destruct (Chars.is_space c) eqn:Hc.
  - destruct (lstrip_drop s) as [Hd Hl].
    rewrite (sub_cons_match false spaces_pattern " "
               (fun p p' s => eq_trans (match_at_spaces p s) (eq_sym (match_at_spaces p' s)))
               c s (Str.lstrip s) (String.length s - String.length (Str.lstrip s))).
    + reflexivity.
    + rewrite match_at_spaces, Hc. reflexivity.
    + cbn [String.length]. lia.
    + exact Hd.
  - apply sub_cons_no_match.
    + intros p p' s'. rewrite !match_at_spaces. reflexivity.
    + rewrite match_at_spaces, Hc. reflexivity.
Qed.

Lemma gt_cont_eq p s :
  gt_cont p s = match s with
                | EmptyString => None
                | String c s' => if is_gt c then Some s' else None
                end.
Proof.
  unfold gt_cont. destruct s as [|c s]; [reflexivity | ].
  cbn. unfold is_gt. rewrite Ascii.eqb_sym. reflexivity.
Qed.

Lemma not_gt_mem c :
  Re.charset_mem false (Re.CNoneOf [">"%char]) c = negb (is_gt c).
Proof. cbn. unfold is_gt. rewrite orb_false_r. reflexivity. Qed.

Lemma rep_not_gt_zero p s :
  Re.rep_match false (Re.CNoneOf [">"%char]) true gt_cont 0 p s = after_gt s.
Proof.
  revert p. induction s as [|c s IH]; intros p.
  - reflexivity.
  - cbn [Re.rep_match after_gt]. rewrite not_gt_mem, gt_cont_eq.
    destruct (is_gt c); cbn [negb Re.orelse].
    + reflexivity.
    + cbn [Nat.pred]. rewrite IH. destruct (after_gt s); reflexivity.
Qed.

Lemma match_at_tag p s : Re.match_at false tag_pattern p s = tag_rest s.
Proof.
  unfold Re.match_at, tag_pattern, Re.seq, Re.plus. cbn [fold_right Re.lit].
  cbn [Re.rmatch].
  destruct s as [|c s]; [reflexivity | ].
  cbn [tag_rest Re.charset_mem]. unfold is_lt.
  destruct (Ascii.eqb c "<"); [ | reflexivity].
  fold gt_cont.
  destruct s as [|d s]; [reflexivity | ].
  cbn [Re.rep_match body_rest]. rewrite not_gt_mem.
  destruct (is_gt d); cbn [negb Re.orelse]; [reflexivity | ].
  cbn [Nat.pred]. rewrite rep_not_gt_zero. destruct (after_gt s); reflexivity.
Qed.

Lemma after_gt_drop s r :
  after_gt s = Some r ->
  (String.length r < String.length s)%nat
  /\ drop (String.length s - String.length r) s = r.
Proof.
  revert r. induction s as [|c s IH]; intros r; [discriminate | ].
  cbn [after_gt]. destruct (is_gt c).
  - intros [= <-]. cbn [String.length]. split; [lia | ].
    replace (S (String.length s) - String.length s)%nat with 1%nat by lia.
    reflexivity.
  - intros H. destruct (IH r H) as [Hl Hd]. cbn [String.length]. split; [lia | ].
    replace (S (String.length s) - String.length r)%nat
      with (S (String.length s - String.length r)) by lia.
    exact Hd.
Qed.

Lemma strip_tags_nil : strip_tags "" = "".
Proof. reflexivity. Qed.

Lemma match_at_tag_prev p p' s :
  Re.match_at false tag_pattern p s = Re.match_at false tag_pattern p' s.
Proof. rewrite !match_at_tag. reflexivity. Qed.

Lemma tag_rest_shorter s r :
  tag_rest s = Some r -> (String.length r < String.length s)%nat.
Proof.
  destruct s as [|c [|d s]]; cbn; try discriminate.
  - destruct (is_lt c); discriminate.
  - destruct (is_lt c); [ | discriminate].
    destruct (is_gt d); [discriminate | ].
    intros H. apply after_gt_drop in H as [H _]. lia.
Qed.

Lemma strip_tags_cons c s :
  strip_tags (String c s)
  = match tag_rest (String c s) with
    | Some rest => strip_tags rest
    | None => String c (strip_tags s)
    end.
Proof.
  unfold strip_tags.
  destruct (tag_rest (String c s)) as [rest|] eqn:E.
  - pose proof (tag_rest_shorter _ _ E) as Hlen.
    rewrite (sub_cons_match false tag_pattern "" match_at_tag_prev c s rest
               (String.length s - String.length rest)).
    + reflexivity.
    + rewrite match_at_tag. exact E.
    + cbn [String.length] in *. lia.
    + destruct s as [|d s]; cbn in E; [destruct (is_lt c); discriminate | ].
      destruct (is_lt c); [ | discriminate].
      destruct (is_gt d); [discriminate | ].
      apply after_gt_drop in E as [Hl Hd]. cbn [String.length].
      replace (S (String.length s) - String.length rest)%nat
        with (S (String.length s - String.length rest)) by lia.
      exact Hd.
  - apply sub_cons_no_match; [exact match_at_tag_prev | ].
    rewrite match_at_tag. exact E.
Qed.

Lemma string_length_ind (P : string -> Prop) :
  (forall s, (forall t, (String.length t < String.length s)%nat -> P t) -> P s) ->
  forall s, P s.
Proof.
  intros H s.
  assert (Hn : forall n t, (String.length t < n)%nat -> P t).
  { induction n as [|n IH]; intros t Ht; [lia | ].
    apply H. intros u Hu. apply IH. lia. }
  apply (Hn (S (String.length s))). lia.
Qed.

Lemma after_gt_none_body s : after_gt s = None -> body_rest s = None.
Proof.
  destruct s as [|d s]; [reflexivity | ].
  cbn. destruct (is_gt d); [discriminate | tauto].
Qed.

Lemma body_rest_none s :
  body_rest s = None ->
  s = "" \/ (exists d s', s = String d s' /\ is_gt d = true) \/ after_gt s = None.
Proof.
  destruct s as [|d s]; [left; reflexivity | ].
  cbn. destruct (is_gt d) eqn:E; [right; left; eauto | right; right; assumption].
Qed.

Lemma strip_tags_no_gt s : after_gt s = None -> strip_tags s = s.
Proof.
  induction s as [|c s IH]; [reflexivity | ].
  cbn [after_gt]. destruct (is_gt c) eqn:Hc; [discriminate | intros H].
  rewrite strip_tags_cons. cbn [tag_rest].
  rewrite (after_gt_none_body _ H).
  destruct (is_lt c); rewrite (IH H); reflexivity.
Qed.

Lemma gt_not_lt c : is_gt c = true -> is_lt c = false.
Proof. unfold is_gt, is_lt. intros H. apply Ascii.eqb_eq in H. subst c. reflexivity. Qed.

Lemma gt_not_space c : is_gt c = true -> Chars.is_space c = false.
Proof. unfold is_gt. intros H. apply Ascii.eqb_eq in H. subst c. reflexivity. Qed.

Lemma tag_free_strip_tags s : tag_free (strip_tags s).
Proof.
  induction s as [s IH] using string_length_ind.
  destruct s as [|c s]; [exact I | ].
  rewrite strip_tags_cons.
  destruct (tag_rest (String c s)) as [rest|] eqn:E.
  - apply IH. apply (tag_rest_shorter _ _ E).
  - cbn [tag_free]. split; [ | apply IH; cbn; lia].
    cbn [tag_rest] in *. destruct (is_lt c); [ | reflexivity].
    destruct (body_rest_none _ E) as [-> | [(d & s' & -> & Hd) | Hn]].
    + reflexivity.
    + rewrite strip_tags_cons. cbn [tag_rest]. rewrite (gt_not_lt _ Hd).
      cbn [body_rest]. rewrite Hd. reflexivity.
    + rewrite (strip_tags_no_gt _ Hn). exact E.
Qed.

Lemma strip_tags_tag_free s : tag_free s -> strip_tags s = s.
Proof.
  induction s as [|c s IH]; [reflexivity | ].
  intros [H1 H2]. rewrite strip_tags_cons, H1, (IH H2). reflexivity.
Qed.

Lemma search_tag_free s : tag_free s -> Re.search false tag_pattern s = false.
Proof.
  unfold Re.search. generalize (@None ascii) as p.
  induction s as [|c s IH]; intros p H.
  - cbn [Re.search_from]. rewrite match_at_tag. reflexivity.
  - destruct H as [H1 H2]. cbn [Re.search_from]. rewrite match_at_tag, H1.
    apply IH. exact H2.
Qed.

(** *** Whitespace *)
Lemma lstrip_fixed s :
  Str.lstrip s = s <-> s = "" \/ exists c r, s = String c r /\ Chars.is_space c = false.
Proof.
  destruct s as [|c s]; [split; [left; reflexivity | reflexivity] | ].
  cbn [Str.lstrip]. destruct (Chars.is_space c) eqn:Hc.
  - split.
    + intros H. exfalso.
      destruct (lstrip_drop s) as [_ Hl]. rewrite H in Hl. cbn in Hl. lia.
    + intros [H | (c' & r & [= -> ->] & H)]; [discriminate | congruence].
  - split; [intros _; right; eauto | reflexivity].
Qed.

Lemma lstrip_lstrip s : Str.lstrip (Str.lstrip s) = Str.lstrip s.
Proof.
  destruct (lstrip_head s) as [-> | (c & r & -> & Hc)]; [reflexivity | ].
  cbn. rewrite Hc. reflexivity.
Qed.

Lemma collapse_lstrip_fixed s :
  Str.lstrip s = s -> Str.lstrip (collapse_spaces s) = collapse_spaces s.
Proof.
  intros H. apply lstrip_fixed in H as [-> | (c & r & -> & Hc)]; [reflexivity | ].
  rewrite collapse_cons, Hc. cbn. rewrite Hc. reflexivity.
Qed.

Lemma single_spaced_collapse s : single_spaced (collapse_spaces s).
Proof.
  induction s as [s IH] using string_length_ind.
  destruct s as [|c s]; [exact I | ].
  rewrite collapse_cons.
  destruct (lstrip_drop s) as [_ Hl].
  destruct (Chars.is_space c) eqn:Hc; cbn [single_spaced].
  - split; [ | apply IH; cbn; lia].
    intros _. split; [reflexivity | ].
    apply collapse_lstrip_fixed, lstrip_lstrip.
  - split; [rewrite Hc; discriminate | apply IH; cbn; lia].
Qed.

Lemma collapse_single_spaced s : single_spaced s -> collapse_spaces s = s.
Proof.
  induction s as [|c s IH]; [reflexivity | ].
  intros [H1 H2]. rewrite collapse_cons.
  destruct (Chars.is_space c) eqn:Hc.
  - destruct (H1 eq_refl) as [-> Hl]. rewrite Hl, (IH H2). reflexivity.
  - rewrite (IH H2). reflexivity.
Qed.

Lemma single_spaced_lstrip s : single_spaced s -> single_spaced (Str.lstrip s).
Proof.
  induction s as [|c s IH]; [tauto | ].
  intros H. cbn [Str.lstrip]. destruct (Chars.is_space c); [ | exact H].
  apply IH. apply H.
Qed.

Lemma rstrip_cons c s :
  Str.rstrip (String c s)
  = match Str.rstrip s with
    | EmptyString => if Chars.is_space c then "" else String c ""
    | r => String c r
    end.
Proof. reflexivity. Qed.

Lemma rstrip_keeps_head s c r :
  Str.rstrip s = String c r -> exists r0, s = String c r0.
Proof.
  destruct s as [|d s]; [discriminate | ].
  rewrite rstrip_cons. destruct (Str.rstrip s).
  - destruct (Chars.is_space d); [discriminate | intros [= -> _]; eauto].
  - intros [= -> _]. eauto.
Qed.

Lemma rstrip_lstrip_fixed s :
  Str.lstrip s = s -> Str.lstrip (Str.rstrip s) = Str.rstrip s.
Proof.
  intros H. destruct (Str.rstrip s) as [|c r] eqn:E; [reflexivity | ].
  destruct (rstrip_keeps_head _ _ _ E) as (r0 & ->).
  apply lstrip_fixed in H as [H | (c' & r' & [= <- <-] & Hc)]; [discriminate | ].
  cbn. rewrite Hc. reflexivity.
Qed.

Lemma single_spaced_rstrip s : single_spaced s -> single_spaced (Str.rstrip s).
Proof.
  induction s as [|c s IH]; [tauto | ].
  intros [H1 H2]. rewrite rstrip_cons.
  destruct (Str.rstrip s) as [|d r] eqn:E.
  - destruct (Chars.is_space c) eqn:Hc; [exact I | ].
    cbn [single_spaced]. split; [rewrite Hc; discriminate | exact I].
  - rewrite <- E. cbn [single_spaced]. split.
    + intros Hc. destruct (H1 Hc) as [-> Hl]. split; [reflexivity | ].
      apply rstrip_lstrip_fixed. exact Hl.
    + rewrite E. apply IH. exact H2.
Qed.

(** *** Tag freedom through the later steps *)
Lemma tag_free_lstrip s : tag_free s -> tag_free (Str.lstrip s).
Proof.
  induction s as [|c s IH]; [tauto | ].
  intros H. cbn [Str.lstrip]. destruct (Chars.is_space c); [ | exact H].
  apply IH. apply H.
Qed.

Lemma after_gt_lstrip s : after_gt s = None -> after_gt (Str.lstrip s) = None.
Proof.
  induction s as [|c s IH]; [reflexivity | ].
  cbn [after_gt Str.lstrip]. destruct (is_gt c) eqn:Hc; [discriminate | intros H].
  destruct (Chars.is_space c); [apply IH; exact H | ].
  cbn [after_gt]. rewrite Hc. exact H.
Qed.

Lemma after_gt_rstrip s : after_gt s = None -> after_gt (Str.rstrip s) = None.
Proof.
  induction s as [|c s IH]; [reflexivity | ].
  cbn [after_gt]. destruct (is_gt c) eqn:Hc; [discriminate | intros H].
  rewrite rstrip_cons. specialize (IH H).
  destruct (Str.rstrip s) as [|d r].
  - destruct (Chars.is_space c); [reflexivity | ]. cbn. rewrite Hc. reflexivity.
  - cbn [after_gt]. rewrite Hc. exact IH.
Qed.

Lemma after_gt_collapse s : after_gt s = None -> after_gt (collapse_spaces s) = None.
Proof.
  induction s as [s IH] using string_length_ind.
  destruct s as [|c s]; [reflexivity | ].
  cbn [after_gt]. destruct (is_gt c) eqn:Hc; [discriminate | intros H].
  rewrite collapse_cons. destruct (lstrip_drop s) as [_ Hl].
  destruct (Chars.is_space c).
  - cbn [after_gt]. replace (is_gt " ") with false by reflexivity.
    apply IH; [cbn; lia | apply after_gt_lstrip; exact H].
  - cbn [after_gt]. rewrite Hc. apply IH; [cbn; lia | exact H].
Qed.

Lemma tag_free_cons_intro c s s' :
  tag_rest (String c s) = None ->
  (forall d r, s = String d r -> is_gt d = true -> exists r', s' = String d r') ->
  (s = "" -> s' = "") ->
  (after_gt s = None -> after_gt s' = None) ->
  tag_rest (String c s') = None.
Proof.
  intros H Hgt Hnil Hno. cbn [tag_rest] in *.
  destruct (is_lt c); [ | reflexivity].
  destruct (body_rest_none _ H) as [-> | [(d & r & -> & Hd) | Hn]].
  - rewrite (Hnil eq_refl). reflexivity.
  - destruct (Hgt d r eq_refl Hd) as (r' & ->). cbn. rewrite Hd. reflexivity.
  - apply after_gt_none_body. apply Hno. exact Hn.
Qed.

Lemma tag_free_collapse s : tag_free s -> tag_free (collapse_spaces s).
Proof.
  induction s as [s IH] using string_length_ind.
  destruct s as [|c s]; [tauto | ].
  intros [H1 H2]. rewrite collapse_cons. destruct (lstrip_drop s) as [_ Hl].
  destruct (Chars.is_space c) eqn:Hc; cbn [tag_free].
  - split; [reflexivity | ].
    apply IH; [cbn; lia | apply tag_free_lstrip; exact H2].
  - split; [ | apply IH; [cbn; lia | exact H2]].
    apply (tag_free_cons_intro c s); [exact H1 | | | apply after_gt_collapse].
    + intros d r -> Hd. rewrite collapse_cons, (gt_not_space _ Hd). eauto.
    + intros ->. reflexivity.
Qed.

Lemma tag_free_rstrip s : tag_free s -> tag_free (Str.rstrip s).
Proof.
  induction s as [|c s IH]; [tauto | ].
  intros [H1 H2]. rewrite rstrip_cons.
  destruct (Str.rstrip s) as [|d r] eqn:E.
  - destruct (Chars.is_space c); [exact I | ].
    cbn. destruct (is_lt c); tauto.
  - rewrite <- E. cbn [tag_free]. split; [ | rewrite E; apply IH; exact H2].
    apply (tag_free_cons_intro c s); [exact H1 | | | apply after_gt_rstrip].
    + intros e r0 -> He.
      destruct (rstrip_head e r0 (gt_not_space _ He)) as (r' & Hr). eauto.
    + intros ->. reflexivity.
Qed.

(** *** Lengths *)
Lemma strip_tags_length s : (String.length (strip_tags s) <= String.length s)%nat.
Proof.
  induction s as [s IH] using string_length_ind.
  destruct s as [|c s]; [reflexivity | ].
  rewrite strip_tags_cons.
  destruct (tag_rest (String c s)) as [rest|] eqn:E.
  - pose proof (tag_rest_shorter _ _ E). specialize (IH rest). lia.
  - cbn [String.length]. specialize (IH s). cbn in IH. lia.
Qed.

Lemma collapse_length s : (String.length (collapse_spaces s) <= String.length s)%nat.
Proof.
  induction s as [s IH] using string_length_ind.
  destruct s as [|c s]; [reflexivity | ].
  rewrite collapse_cons. destruct (lstrip_drop s) as [_ Hl].
  destruct (Chars.is_space c); cbn [String.length].
  - specialize (IH (Str.lstrip s)). cbn in IH. lia.
  - specialize (IH s). cbn in IH. lia.
Qed.

Lemma rstrip_length s : (String.length (Str.rstrip s) <= String.length s)%nat.
Proof.
  induction s as [|c s IH]; [reflexivity | ].
  rewrite rstrip_cons. destruct (Str.rstrip s).
  - destruct (Chars.is_space c); cbn; lia.
  - cbn [String.length] in *. lia.
Qed.

Lemma strip_length s : (String.length (Str.strip s) <= String.length s)%nat.
Proof.
  unfold Str.strip. pose proof (rstrip_length (Str.lstrip s)).
  destruct (lstrip_drop s) as [_ Hl]. lia.
Qed.

(** X8. [sanitize_query] returns a normal form: sanitizing its result again, or
    applying any one of its three steps to it again, changes nothing; no
    markup tag is left in it; its whitespace is single spaces between other
    characters, none at either end; and it is never longer than the input. *)
Theorem sanitize_query_normal_form q :
  let t := QueryValidator.sanitize_query q in
  QueryValidator.sanitize_query t = t
  /\ Str.strip t = t
  /\ collapse_spaces t = t
  /\ strip_tags t = t
  /\ Re.search false tag_pattern t = false
  /\ single_spaced t
  /\ (String.length t <= String.length q)%nat.
Proof.
  intros t. subst t. rewrite !sanitize_query_steps.
  set (u := collapse_spaces (strip_tags q)).
  assert (Htf : tag_free (Str.strip u)).
  { unfold Str.strip. apply tag_free_rstrip, tag_free_lstrip.
    apply tag_free_collapse, tag_free_strip_tags. }
  assert (Hss : single_spaced (Str.strip u)).
  { unfold Str.strip. apply single_spaced_rstrip, single_spaced_lstrip.
    apply single_spaced_collapse. }
  assert (H1 : strip_tags (Str.strip u) = Str.strip u)
    by (apply strip_tags_tag_free; exact Htf).
  assert (H2 : collapse_spaces (Str.strip u) = Str.strip u)
    by (apply collapse_single_spaced; exact Hss).
  split; [rewrite H1, H2; apply strip_strip | ].
  split; [apply strip_strip | ].
  split; [exact H2 | ].
  split; [exact H1 | ].
  split; [apply search_tag_free; exact Htf | ].
  split; [exact Hss | ].
  pose proof (strip_length u). pose proof (collapse_length (strip_tags q)).
  pose proof (strip_tags_length q). unfold u in *. lia.
Qed.

End SanitizeFacts.

(** ** [validate_session_id] *)

Section SessionIdFacts.

Import SessionIds SessionValidator.

Lemma id_char_not_newline c : id_char c = true -> Ascii.eqb c "010"%char = false.
Proof.
  intros H. destruct (Ascii.eqb c "010"%char) eqn:E; [ | reflexivity].
  apply Ascii.eqb_eq in E. subst c. vm_compute in H. discriminate H.
Qed.

Lemma rep_ids min p s :
  Re.rep_match false session_id_chars true end_cont min p s
  = if (min <=? ids_count s)%nat && at_end (ids_rest s)
    then Some (ids_rest s) else None.
Proof.
  revert min p. induction s as [|c s IH]; intros min p.
  - cbn [Re.rep_match ids_count ids_rest Re.orelse].
    destruct min; reflexivity.
  - cbn [Re.rep_match ids_count ids_rest]. fold (id_char c).
    destruct (id_char c) eqn:Hc.
    + rewrite IH.
      assert (Hle : (Nat.pred min <=? ids_count s)%nat = (min <=? S (ids_count s))%nat).
      { destruct min; [reflexivity | ]. reflexivity. }
      rewrite Hle.
      destruct ((min <=? S (ids_count s))%nat && at_end (ids_rest s)) eqn:E;
        cbn [Re.orelse]; [reflexivity | ].
      destruct min; [ | reflexivity].
      unfold end_cont. cbn [at_end].
      destruct s as [|d s]; [ | reflexivity].
      rewrite (id_char_not_newline _ Hc). reflexivity.
    + cbn [Re.orelse]. destruct min; reflexivity.
Qed.

Lemma matches_id_pattern_eq s :
  matches_id_pattern s = (1 <=? ids_count s)%nat && at_end (ids_rest s).
Proof.
  unfold matches_id_pattern, Re.plus. cbn [Re.rmatch]. fold end_cont.
  rewrite rep_ids. destruct (_ && _); reflexivity.
Qed.

Lemma ids_split s :
  exists body, s = body ++ ids_rest s /\ every id_char body = true
               /\ String.length body = ids_count s.
Proof.
  induction s as [|c s (body & Hs & Hb & Hl)].
  - exists "". repeat split.
  - cbn [ids_rest ids_count]. destruct (id_char c) eqn:Hc.
    + exists (String c body).
      change (String c s = String c (body ++ ids_rest s)
              /\ id_char c && every id_char body = true
              /\ S (String.length body) = S (ids_count s)).
      rewrite Hc, Hb, Hl, <- Hs. repeat split.
    + exists "". repeat split.
Qed.

Lemma ids_of_app body r :
  every id_char body = true ->
  (r = "" \/ exists c r', r = String c r' /\ id_char c = false) ->
  ids_count (body ++ r) = String.length body /\ ids_rest (body ++ r) = r.
Proof.
  intros Hb Hr. induction body as [|c body IH].
  - change ("" ++ r) with r. cbn [String.length].
    destruct Hr as [-> | (c & r' & -> & Hc)]; [split; reflexivity | ].
    cbn [ids_count ids_rest]. rewrite Hc. split; reflexivity.
  - cbn [every] in Hb. apply andb_true_iff in Hb as [Hc Hb].
    destruct (IH Hb) as [H1 H2].
    change (String c body ++ r) with (String c (body ++ r)).
    cbn [String.length ids_count ids_rest].
    rewrite Hc, H1, H2. split; reflexivity.
Qed.

Lemma string_app_nil_r s : s ++ "" = s.
Proof.
  induction s as [|c s IH]; [reflexivity | ].
  change (String c (s ++ "") = String c s). rewrite IH. reflexivity.
Qed.

Lemma at_end_iff r : at_end r = true <-> r = "" \/ r = nl.
Proof.
  destruct r as [|c [|d r]]; cbn.
  - tauto.
  - rewrite Ascii.eqb_eq. unfold nl. split.
    + intros ->. right. reflexivity.
    + intros [H | H]; [discriminate | congruence].
  - split; [discriminate | intros [H | H]; discriminate].
Qed.

(** X9. [validate_session_id] accepts exactly the identifiers of at most 255
    characters made of one or more of [a-zA-Z0-9_-], optionally followed by one
    line feed ([$] matches before a final newline). *)
Theorem validate_session_id_accepts s :
  validate_session_id (Some s) = (true, None)
  <-> Str.len s <= 255
      /\ exists body, body <> "" /\ every id_char body = true
                      /\ (s = body \/ s = body ++ nl).
Proof.
  unfold validate_session_id.
  destruct s as [|c0 s0]; cbn [Str.truthy negb].
  { split; [discriminate | ].
    intros (_ & body & Hb & _ & [H | H]); destruct body; try discriminate; congruence. }
  set (s := String c0 s0).
  destruct (Str.len s >? 255) eqn:Hlen.
  { split; [discriminate | ]. intros (H & _). apply Z.gtb_lt in Hlen. lia. }
  rewrite Z.gtb_ltb in Hlen. apply Z.ltb_ge in Hlen.
  rewrite matches_id_pattern_eq.
  destruct (ids_split s) as (body & Hs & Hb & Hl).
  destruct ((1 <=? ids_count s)%nat && at_end (ids_rest s)) eqn:E; cbn [negb].
  - split; [intros _ | reflexivity].
    apply andb_true_iff in E as [E1 E2]. apply Nat.leb_le in E1.
    split; [exact Hlen | ]. exists body.
    split; [destruct body; [cbn [String.length] in Hl; exfalso; lia | discriminate] | ].
    split; [exact Hb | ].
    apply at_end_iff in E2 as [E2 | E2]; rewrite E2 in Hs.
    + left. rewrite Hs. apply string_app_nil_r.
    + right. exact Hs.
  - split; [discriminate | ].
    intros (_ & body' & Hne & Hb' & Hs').
    assert (Hr : ids_count s = String.length body'
                 /\ at_end (ids_rest s) = true).
    { destruct Hs' as [-> | ->].
      - destruct (ids_of_app body' "" Hb' (or_introl eq_refl)) as [H1 H2].
        rewrite string_app_nil_r in H1, H2.
        rewrite H1, H2. split; reflexivity.
      - destruct (ids_of_app body' nl Hb') as [H1 H2].
        { right. exists "010"%char, "". split; reflexivity. }
        rewrite H1, H2. split; reflexivity. }
    destruct Hr as [Hr1 Hr2]. rewrite Hr1, Hr2 in E.
    destruct body'; [congruence | discriminate E].
Qed.

End SessionIdFacts.

(** * Further properties of the engine *)

Section EngineRouted.

Variable World : Type.
Variable llm_invoke : string -> World -> llm_outcome * World.
Variable numexpr_evaluate : string -> eval_outcome.

Import WorkflowNodes.

(** The state the router sees. *)
Lemma routed_state q sid h :
  let s0 := ChatbotDAG.initial_state q sid h in
  let s2 := decision_node (input_node s0) in
  user_query s2 = Pipeline.entry_query q
  /\ query_type s2 = Pipeline.classify (Pipeline.entry_query q)
  /\ response s2 = ""
  /\ calculation_result s2 = ""
  /\ chat_history s2 = or_empty h
  /\ error s2 = error (input_node s0).
Proof.
  intros s0 s2. subst s2.
  destruct (decision_node_others (input_node s0)) as (Hu & Hr & Hc & Hh & _).
  destruct (input_node_others s0) as (_ & Hr0 & Hc0 & Hh0 & _).
  rewrite Hu, Hr, Hc, Hh, Hr0, Hc0, Hh0, decision_node_error,
    decision_node_query_type, !input_node_user_query.
  repeat split.
Qed.

(** The entry stage reports no error exactly for a non-empty query that
    passes validation. *)
Lemma entry_error_blank q sid h :
  error (input_node (ChatbotDAG.initial_state q sid h)) = ""
  <-> q <> "" /\ fst (QueryValidator.validate_query q) = true.
Proof.
  unfold input_node. cbn [user_query ChatbotDAG.initial_state].
  destruct (Str.truthy q) eqn:Hq; cbn [negb].
  - apply truthy_true_iff in Hq.
    destruct (QueryValidator.validate_query q) as [[|] e] eqn:Hv; cbn [negb fst].
    + cbn [error set_user_query]. split; [intros _; split; [exact Hq | reflexivity] | reflexivity].
    + apply validate_query_invalid in Hv as (msg & -> & Hmsg).
      cbn [error set_error default]. split; [intros H; contradiction | intros [_ H]; discriminate H].
  - apply truthy_false_iff in Hq. cbn [error set_error].
    split; [discriminate | intros [H _]; contradiction].
Qed.

(** [process_query] in closed form: the result is read off the state the
    routed stage returns. *)
Lemma process_query_routed_eq q sid h w :
  let s2 := decision_node (input_node (ChatbotDAG.initial_state q sid h)) in
  ChatbotDAG.process_query World llm_invoke numexpr_evaluate q sid h w
  = let '(s3, w') :=
      if QueryValidator.is_calculation_query (Pipeline.entry_query q)
      then (tool_node numexpr_evaluate s2, w)
      else llm_node World llm_invoke s2 w in
    ({| r_success := true;
        r_response := response (output_node (memory_node s3));
        r_query_type := query_type s3;
        r_chat_history := chat_history (memory_node s3);
        r_calculation_result := calculation_result s3;
        r_error := error s3 |}, w').
Proof.
  intros s2.
  destruct (process_query_eq World llm_invoke numexpr_evaluate q sid h w)
    as (name & s3 & w' & Hb & ->).
  fold s2 in Hb. unfold Pipeline.branch in Hb.
  destruct (routed_state q sid h) as (_ & Hq & _). fold s2 in Hq.
  rewrite Hq in Hb. unfold Pipeline.classify in Hb.
  destruct (QueryValidator.is_calculation_query (Pipeline.entry_query q));
    cbn [String.eqb Ascii.eqb Bool.eqb] in Hb.
  - injection Hb as _ <- <-. reflexivity.
  - injection Hb as _ Hb. rewrite Hb. reflexivity.
Qed.

Lemma output_node_reply s :
  response (output_node s)
  = if Str.truthy (response s) then response s
    else "I'm sorry, I couldn't generate a response.".
Proof. unfold output_node. destruct (Str.truthy (response s)); reflexivity. Qed.

Lemma memory_node_response s : response (memory_node s) = response s.
Proof. destruct (memory_node_fields s) as (_ & _ & H & _). exact H. Qed.

Lemma format_chat_history_window (h h' : list message) :
  last_n 10 h = last_n 10 h' -> _format_chat_history h = _format_chat_history h'.
Proof.
  intros H. unfold _format_chat_history.
  destruct h as [|m h], h' as [|m' h'].
  - reflexivity.
  - apply (f_equal (@length _)) in H. rewrite !last_n_length in H.
    cbn [length] in H. lia.
  - apply (f_equal (@length _)) in H. rewrite !last_n_length in H.
    cbn [length] in H. lia.
  - rewrite H. reflexivity.
Qed.

End EngineRouted.

Section EngineMore.

Variable World : Type.
Variable llm_invoke : string -> World -> llm_outcome * World.
Variable numexpr_evaluate : string -> eval_outcome.

Import WorkflowNodes.

(** X10. A query classified as text is answered by one call of the provider,
    with the prompt built from the query the entry stage handed on and the
    history received; the calculator has no part in the result. *)
Theorem text_query_asks_provider_once q sid h w :
  QueryValidator.is_calculation_query (Pipeline.entry_query q) = false ->
  let prompt :=
    LangChainFactory.text_prompt_format (Pipeline.entry_query q)
      (_format_chat_history (or_empty h)) in
  let r := ChatbotDAG.process_query World llm_invoke numexpr_evaluate q sid h w in
  snd r = snd (llm_invoke prompt w)
  /\ r_query_type (fst r) = "text"
  /\ r_calculation_result (fst r) = ""
  /\ match fst (llm_invoke prompt w) with
     | LLMContent content =>
         r_response (fst r)
         = if Str.truthy content then content
           else "I'm sorry, I couldn't generate a response."
     | LLMRaise e =>
         r_response (fst r)
         = "I apologize, but I encountered an error processing your request. Please try again."
         /\ r_error (fst r) = "LLM error: " ++ e
     end
  /\ forall numexpr_evaluate',
       ChatbotDAG.process_query World llm_invoke numexpr_evaluate' q sid h w = r.
Proof.
  intros Hc prompt r.
  assert (Hindep : forall ne',
             ChatbotDAG.process_query World llm_invoke ne' q sid h w = r).
  { intros ne'. subst r. rewrite !process_query_routed_eq. rewrite Hc. reflexivity. }
  destruct (routed_state q sid h) as (Hu & Hq & Hr & Hcr & Hh & He).
  cbv zeta in Hu, Hq, Hr, Hcr, Hh, He.
  unfold Pipeline.classify in Hq. rewrite Hc in Hq.
  split; [ | split; [ | split; [ | split; [ | exact Hindep]]]]; clear Hindep;
    subst r; rewrite process_query_routed_eq, Hc;
    unfold llm_node; rewrite Hu, Hh; fold prompt;
    destruct (llm_invoke prompt w) as [[content | e] w'];
    cbn [fst snd r_query_type r_calculation_result r_response r_error
         query_type calculation_result error set_response set_error];
    try assumption; try reflexivity;
    rewrite output_node_reply, memory_node_response;
    cbn [response set_response set_error Str.truthy].
  - reflexivity.
  - split; reflexivity.
Qed.

(** X11. A query classified as a calculation never reaches the provider: the
    world is returned as it was received, and the result is the same under
    any provider and in any world. *)
Theorem calculation_never_asks_provider q sid h w :
  QueryValidator.is_calculation_query (Pipeline.entry_query q) = true ->
  let r := ChatbotDAG.process_query World llm_invoke numexpr_evaluate q sid h w in
  snd r = w
  /\ r_query_type (fst r) = "calculation"
  /\ forall (World' : Type) (llm_invoke' : string -> World' -> llm_outcome * World')
            (w' : World'),
       fst (ChatbotDAG.process_query World' llm_invoke' numexpr_evaluate q sid h w')
       = fst r.
Proof.
  intros Hc r. subst r.
  rewrite process_query_routed_eq, Hc. cbn [fst snd].
  split; [reflexivity | split].
  - destruct (routed_state q sid h) as (_ & Hq & _). cbv zeta in Hq.
    unfold Pipeline.classify in Hq. rewrite Hc in Hq.
    cbn [r_query_type]. unfold tool_node.
    destruct (numexpr_evaluate _); cbn [query_type set_response set_calculation_result set_error];
      exact Hq.
  - intros World' llm' w'. rewrite process_query_routed_eq, Hc. reflexivity.
Qed.

(** X12. The reply depends on the history received through its last ten
    entries only, and not at all on the session identifier: two calls that
    differ in these return the same reply, type, calculation result and error,
    record the same exchange and leave the same world. *)
Theorem reply_ignores_older_history q sid sid' (h h' : list message) w :
  last_n 10 h = last_n 10 h' ->
  let r := ChatbotDAG.process_query World llm_invoke numexpr_evaluate q sid (Some h) w in
  let r' := ChatbotDAG.process_query World llm_invoke numexpr_evaluate q sid' (Some h') w in
  snd r = snd r'
  /\ r_response (fst r) = r_response (fst r')
  /\ r_query_type (fst r) = r_query_type (fst r')
  /\ r_calculation_result (fst r) = r_calculation_result (fst r')
  /\ r_error (fst r) = r_error (fst r')
  /\ Pipeline.exchange (fst r) = Pipeline.exchange (fst r').
Proof.
  intros Hw r r'. subst r r'.
  rewrite !process_query_routed_eq.
  destruct (routed_state q sid (Some h)) as (Hu & Hq & Hr & Hcr & Hh & He).
  destruct (routed_state q sid' (Some h')) as (Hu' & Hq' & Hr' & Hcr' & Hh' & He').
  cbv zeta in *. cbn [or_empty] in Hh, Hh'.
  assert (Hee : error (decision_node (input_node (ChatbotDAG.initial_state q sid (Some h))))
                = error (decision_node (input_node (ChatbotDAG.initial_state q sid' (Some h'))))).
  { rewrite He, He'. unfold input_node. cbn [user_query ChatbotDAG.initial_state].
    destruct (negb (Str.truthy q)); [reflexivity | ].
    destruct (QueryValidator.validate_query q) as [[|] e]; reflexivity. }
  set (s2 := decision_node (input_node (ChatbotDAG.initial_state q sid (Some h)))) in *.
  set (s2' := decision_node (input_node (ChatbotDAG.initial_state q sid' (Some h')))) in *.
  unfold Pipeline.exchange.
  destruct (QueryValidator.is_calculation_query (Pipeline.entry_query q)).
  - cbn [fst snd r_response r_query_type r_calculation_result r_error r_chat_history].
    rewrite !output_node_reply, !memory_node_response, !memory_node_appends.
    rewrite !last_n_app by (cbn; lia).
    unfold tool_node. rewrite Hu, Hu'.
    destruct (numexpr_evaluate _);
      cbn [response query_type calculation_result error user_query
           set_response set_calculation_result set_error];
      rewrite ?Hu, ?Hu', ?Hq, ?Hq', ?Hcr, ?Hcr', ?Hee; repeat split.
  - unfold llm_node. rewrite Hu, Hu', Hh, Hh'.
    rewrite (format_chat_history_window h h' Hw).
    destruct (llm_invoke _ w) as [[content | e] w1];
      cbn [fst snd r_response r_query_type r_calculation_result r_error r_chat_history];
      rewrite !output_node_reply, !memory_node_response, !memory_node_appends;
      rewrite !last_n_app by (cbn; lia);
      cbn [response query_type calculation_result error user_query
           set_response set_calculation_result set_error];
      rewrite ?Hu, ?Hu', ?Hq, ?Hq', ?Hcr, ?Hcr', ?Hee; repeat split.
Qed.

(** X13. The exchange recorded is the user entry for the query the entry stage
    handed on, with the type returned, then an assistant entry; the reply
    returned is the content of that entry, except that an empty content is
    returned as the fallback text while the entry keeps it empty. *)
Theorem recorded_reply q sid h w :
  let r := fst (ChatbotDAG.process_query World llm_invoke numexpr_evaluate q sid h w) in
  exists a,
    Pipeline.exchange r
    = [Message "user" (Pipeline.entry_query q) (Some (r_query_type r));
       Message "assistant" a None]
    /\ r_response r
       = if Str.truthy a then a else "I'm sorry, I couldn't generate a response.".
Proof.
  intros r. subst r. rewrite process_query_routed_eq.
  destruct (routed_state q sid h) as (Hu & _).
  cbv zeta in Hu.
  set (s2 := decision_node (input_node (ChatbotDAG.initial_state q sid h))) in *.
  destruct (if QueryValidator.is_calculation_query (Pipeline.entry_query q)
            then (tool_node numexpr_evaluate s2, w)
            else llm_node World llm_invoke s2 w) as [s3 w'] eqn:Hb.
  assert (H3 : user_query s3 = Pipeline.entry_query q).
  { destruct (QueryValidator.is_calculation_query (Pipeline.entry_query q)).
    - injection Hb as <- _. unfold tool_node.
      destruct (numexpr_evaluate _);
        cbn [user_query set_response set_calculation_result set_error]; exact Hu.
    - unfold llm_node in Hb.
      destruct (llm_invoke _ w) as [[content | e] w1]; injection Hb as <- _;
        cbn [user_query set_response set_error]; exact Hu. }
  exists (response s3).
  cbn [fst r_response r_query_type]. unfold Pipeline.exchange. cbn [r_chat_history].
  rewrite memory_node_appends, last_n_app by (cbn; lia).
  rewrite output_node_reply, memory_node_response, H3. split; reflexivity.
Qed.

(** X14. The result carries an empty error exactly when the query is non-empty
    and passes validation and the routed stage does not raise; [success] is
    true either way. *)
Theorem error_blank_iff q sid h w :
  let r := fst (ChatbotDAG.process_query World llm_invoke numexpr_evaluate q sid h w) in
  r_success r = true
  /\ (r_error r = ""
      <-> q <> "" /\ fst (QueryValidator.validate_query q) = true
          /\ if QueryValidator.is_calculation_query (Pipeline.entry_query q)
             then exists result,
                    numexpr_evaluate (_extract_math_expression (Pipeline.entry_query q))
                    = EvalOk result
             else exists content,
                    fst (llm_invoke
                           (LangChainFactory.text_prompt_format (Pipeline.entry_query q)
                              (_format_chat_history (or_empty h))) w)
                    = LLMContent content).
Proof.
  intros r. subst r. rewrite process_query_routed_eq.
  destruct (routed_state q sid h) as (Hu & _ & _ & _ & Hh & He).
  cbv zeta in Hu, Hh, He.
  pose proof (entry_error_blank q sid h) as Hentry. rewrite <- He in Hentry.
  set (s2 := decision_node (input_node (ChatbotDAG.initial_state q sid h))) in *.
  destruct (QueryValidator.is_calculation_query (Pipeline.entry_query q)).
  - cbn [fst r_success r_error]. split; [reflexivity | ].
    unfold tool_node. rewrite Hu.
    destruct (numexpr_evaluate _) as [result | e];
      cbn [error set_response set_calculation_result set_error].
    + rewrite Hentry. split.
      * intros [H1 H2]. repeat split; try assumption. exists result. reflexivity.
      * intros (H1 & H2 & _). split; assumption.
    + split; [intros H; discriminate H | intros (_ & _ & result & H); discriminate H].
  - unfold llm_node. rewrite Hu, Hh.
    destruct (llm_invoke _ w) as [[content | e] w1];
      cbn [fst r_success r_error error set_response set_error].
    + split; [reflexivity | ]. rewrite Hentry. split.
      * intros [H1 H2]. repeat split; try assumption. exists content. reflexivity.
      * intros (H1 & H2 & _). split; assumption.
    + split; [reflexivity | ].
      split; [intros H; discriminate H | intros (_ & _ & content & H); discriminate H].
Qed.

End EngineMore.

(** * Further properties of the service *)

Section ServiceShape.

Import CacheService.

Variable World : Type.
Variable llm_invoke : string -> World -> llm_outcome * World.
Variable numexpr_evaluate : string -> eval_outcome.
Variable now : World -> Z.
Variable uuid4 : World -> string * World.
Variable db_history : string -> Z -> World -> (string + list message) * World.
Variable db_save_conversation :
  string -> string -> string -> string -> string -> World -> World.

Local Abbreviation process_chat_message :=
  (ChatbotService.process_chat_message World llm_invoke numexpr_evaluate
     now uuid4 db_history db_save_conversation).
Local Abbreviation _get_conversation_history :=
  (ChatbotService._get_conversation_history World now db_history).
Local Abbreviation process_query :=
  (ChatbotDAG.process_query World llm_invoke numexpr_evaluate).

Implicit Types (c : gmap string session_data) (w : World).

Lemma sanitize_query_idem q :
  QueryValidator.sanitize_query (QueryValidator.sanitize_query q)
  = QueryValidator.sanitize_query q.
Proof.
  rewrite !sanitize_query_steps.
  set (u := Sanitize.collapse_spaces (Sanitize.strip_tags q)).
  rewrite (strip_tags_tag_free (Str.strip u)).
  - rewrite (collapse_single_spaced (Str.strip u)); [apply strip_strip | ].
    unfold Str.strip. apply single_spaced_rstrip, single_spaced_lstrip.
    apply single_spaced_collapse.
  - unfold Str.strip. apply tag_free_rstrip, tag_free_lstrip.
    apply tag_free_collapse, tag_free_strip_tags.
Qed.

(** The entry stage hands a sanitized query on as it is. *)
Lemma entry_query_sanitized q :
  Pipeline.entry_query (QueryValidator.sanitize_query q) = QueryValidator.sanitize_query q.
Proof.
  unfold Pipeline.entry_query.
  destruct (negb (Str.truthy _)); [reflexivity | ].
  destruct (fst (QueryValidator.validate_query _)); [apply sanitize_query_idem | reflexivity].
Qed.

Lemma validate_and_sanitize_inr q clean :
  validate_and_sanitize_query q = inr clean ->
  fst (QueryValidator.validate_query q) = true
  /\ clean = QueryValidator.sanitize_query q.
Proof.
  unfold validate_and_sanitize_query.
  destruct (QueryValidator.validate_query q) as [[|] e]; intros [= <-].
  split; reflexivity.
Qed.

Lemma process_query_success q sid h w :
  r_success (fst (process_query q sid h w)) = true.
Proof.
  destruct (process_query_eq World llm_invoke numexpr_evaluate q sid h w)
    as (name & s3 & w' & _ & ->).
  reflexivity.
Qed.

Lemma process_query_response q sid h w :
  r_response (fst (process_query q sid h w)) <> "".
Proof.
  destruct (process_query_eq World llm_invoke numexpr_evaluate q sid h w)
    as (name & s3 & w' & _ & ->).
  apply output_node_response.
Qed.

(** The state the result is read off. *)
Lemma process_query_state q sid h w :
  exists s3,
    fst (process_query q sid h w)
    = {| r_success := true;
         r_response := response (WorkflowNodes.output_node (WorkflowNodes.memory_node s3));
         r_query_type := query_type s3;
         r_chat_history := chat_history (WorkflowNodes.memory_node s3);
         r_calculation_result := calculation_result s3;
         r_error := error s3 |}
    /\ user_query s3 = Pipeline.entry_query q.
Proof.
  destruct (process_query_eq World llm_invoke numexpr_evaluate q sid h w)
    as (name & s3 & w' & Hb & ->).
  exists s3. split; [reflexivity | ].
  apply branch_others in Hb as (-> & _).
  destruct (decision_node_others
              (WorkflowNodes.input_node (ChatbotDAG.initial_state q sid h))) as (-> & _).
  apply input_node_user_query.
Qed.

(** What [_get_conversation_history] does to the cache. *)
Lemma conversation_history_cache sid c w res c1 w1 :
  _get_conversation_history sid c w = (res, c1, w1) ->
  match res with
  | inl _ => c1 = snd (get_session_history (now w) sid c)
  | inr h =>
      c1 = snd (get_session_history (now w) sid c)
      \/ c1 = save_session_history (now w1) sid h
                (snd (get_session_history (now w) sid c))
  end.
Proof.
  unfold ChatbotService._get_conversation_history.
  destruct (get_session_history (now w) sid c) as [[|m cached] c0]; cbn [snd].
  - destruct (db_history sid 20 w) as [[e | [|m h]] w0]; intros [= <- <- <-].
    + reflexivity.
    + left. reflexivity.
    + right. reflexivity.
  - intros [= <- <- <-]. left. reflexivity.
Qed.

Lemma conversation_history_others sid c w res c1 w1 s' :
  _get_conversation_history sid c w = (res, c1, w1) ->
  s' <> sid -> c1 !! s' = c !! s'.
Proof.
  intros H Hne. apply conversation_history_cache in H.
  destruct res as [e | h].
  - subst c1. apply get_snd_lookup. exact Hne.
  - destruct H as [-> | ->].
    + apply get_snd_lookup. exact Hne.
    + unfold save_session_history. rewrite lookup_insert_ne by congruence.
      apply get_snd_lookup. exact Hne.
Qed.

(** The session a request runs under. *)
Lemma chosen_session_nonempty sid w sid1 w0 :
  (if negb (Str.truthy (ChatbotService.or_blank sid))
   then ChatbotService._generate_session_id World uuid4 w
   else (ChatbotService.or_blank sid, w)) = (sid1, w0) ->
  sid1 <> "".
Proof.
  destruct (Str.truthy (ChatbotService.or_blank sid)) eqn:E; cbn [negb].
  - intros [= <- _]. apply truthy_true_iff. exact E.
  - unfold ChatbotService._generate_session_id.
    destruct (uuid4 w) as [u w']. intros [= <- _]. discriminate.
Qed.

(** The shape of a successful request. *)
Lemma chat_success_shape q sid c w r c' w' :
  process_chat_message q sid c w = (r, c', w') ->
  c_success r = true ->
  exists sid1 w0 h c1 w1 res w2,
    fst (QueryValidator.validate_query q) = true
    /\ (if negb (Str.truthy (ChatbotService.or_blank sid))
        then ChatbotService._generate_session_id World uuid4 w
        else (ChatbotService.or_blank sid, w)) = (sid1, w0)
    /\ _get_conversation_history sid1 c w0 = (inr h, c1, w1)
    /\ process_query (QueryValidator.sanitize_query q) sid1 (Some h) w1 = (res, w2)
    /\ r = mkChatResult true sid1 (r_response res) (r_query_type res)
             (Some (r_calculation_result res)) ""
    /\ w' = db_save_conversation sid1 (QueryValidator.sanitize_query q)
              (r_response res) (r_query_type res) (r_calculation_result res) w2
    /\ c' = save_session_history (now w') sid1 (r_chat_history res) c1.
Proof.
  unfold ChatbotService.process_chat_message.
  destruct (validate_and_sanitize_query q) as [e | clean] eqn:Hv.
  { intros [= <- _ _] H. discriminate H. }
  apply validate_and_sanitize_inr in Hv as [Hv ->].
  destruct (if negb (Str.truthy (ChatbotService.or_blank sid))
            then ChatbotService._generate_session_id World uuid4 w
            else (ChatbotService.or_blank sid, w)) as [sid1 w0] eqn:Hsid.
  destruct (_get_conversation_history sid1 c w0) as [[[e | h] c1] w1] eqn:Hg.
  { intros [= <- _ _] H. discriminate H. }
  pose proof (process_query_success (QueryValidator.sanitize_query q) sid1 (Some h) w1) as Hs.
  destruct (process_query (QueryValidator.sanitize_query q) sid1 (Some h) w1)
    as [res w2] eqn:Hp.
  cbn [fst] in Hs. rewrite Hs. cbn [negb].
  intros [= <- <- <-] _.
  exists sid1, w0, h, c1, w1, res, w2. repeat split; assumption.
Qed.

(** The shape of a failed request. *)
Lemma chat_failure_shape q sid c w r c' w' :
  process_chat_message q sid c w = (r, c', w') ->
  c_success r = false ->
  (exists e, validate_and_sanitize_query q = inl e
             /\ r = mkChatResult false (ChatbotService.or_blank sid)
                      ("Invalid query: " ++ e) "" None e
             /\ c' = c /\ w' = w)
  \/ (exists sid1 w0 e,
        fst (QueryValidator.validate_query q) = true
        /\ (if negb (Str.truthy (ChatbotService.or_blank sid))
            then ChatbotService._generate_session_id World uuid4 w
            else (ChatbotService.or_blank sid, w)) = (sid1, w0)
        /\ _get_conversation_history sid1 c w0 = (inl e, c', w')
        /\ r = mkChatResult false sid1
                 "An unexpected error occurred. Please try again." "" None e).
Proof.
  unfold ChatbotService.process_chat_message.
  destruct (validate_and_sanitize_query q) as [e | clean] eqn:Hv.
  { intros [= <- <- <-] _. left. exists e. repeat split. }
  apply validate_and_sanitize_inr in Hv as [Hv ->].
  destruct (if negb (Str.truthy (ChatbotService.or_blank sid))
            then ChatbotService._generate_session_id World uuid4 w
            else (ChatbotService.or_blank sid, w)) as [sid1 w0] eqn:Hsid.
  destruct (_get_conversation_history sid1 c w0) as [[[e | h] c1] w1] eqn:Hg.
  { intros [= <- <- <-] _. right. exists sid1, w0, e. repeat split; assumption. }
  pose proof (process_query_success (QueryValidator.sanitize_query q) sid1 (Some h) w1) as Hs.
  destruct (process_query (QueryValidator.sanitize_query q) sid1 (Some h) w1)
    as [res w2] eqn:Hp.
  cbn [fst] in Hs. rewrite Hs. cbn [negb].
  intros [= <- _ _] H. discriminate H.
Qed.

(** A successful request leaves a non-empty history of at most 20 entries in
    the cache, under the identifier returned, stamped with the current time. *)
Lemma chat_success_entry q sid c w r c' w' :
  process_chat_message q sid c w = (r, c', w') ->
  c_success r = true ->
  exists h, c' !! c_session_id r = Some (SessionData h (now w'))
            /\ h <> [] /\ (length h <= 20)%nat.
Proof.
  intros H Hs.
  destruct (chat_success_shape _ _ _ _ _ _ _ H Hs)
    as (sid1 & w0 & h & c1 & w1 & res & w2 & Hv & Hsid & Hg & Hp & -> & Hw & ->).
  cbn [c_session_id].
  destruct (process_query_state (QueryValidator.sanitize_query q) sid1 (Some h) w1)
    as (s3 & Hst & _).
  rewrite Hp in Hst. cbn [fst] in Hst. subst res. cbn [r_chat_history].
  exists (chat_history (WorkflowNodes.memory_node s3)).
  split; [apply lookup_insert_eq | ].
  split; [ | apply memory_node_bound].
  rewrite memory_node_appends. intros E.
  apply (f_equal (@length _)) in E. rewrite length_app in E. cbn [length] in E. lia.
Qed.

Lemma slice_to_all {A} (limit : Z) (l : list A) :
  Z.of_nat (length l) <= limit -> slice_to limit l = l.
Proof.
  intros H. unfold slice_to.
  destruct (limit <? 0) eqn:E; [apply Z.ltb_lt in E; lia | ].
  apply firstn_all2. lia.
Qed.

End ServiceShape.

Section GeneratedIds.

Import SessionIds SessionValidator.

Lemma every_app p a b : every p (a ++ b) = every p a && every p b.
Proof.
  induction a as [|x a IH]; [reflexivity | ].
  change (String x a ++ b) with (String x (a ++ b)).
  cbn [every]. rewrite IH. apply andb_assoc.
Qed.

Lemma length_app_string a b :
  String.length (a ++ b) = (String.length a + String.length b)%nat.
Proof.
  induction a as [|x a IH]; [reflexivity | ].
  change (String x a ++ b) with (String x (a ++ b)).
  cbn [String.length]. rewrite IH. reflexivity.
Qed.

(** An identifier made of identifier characters only is accepted. *)
Lemma validate_session_id_ids s :
  s <> "" -> every id_char s = true -> Str.len s <= 255 ->
  validate_session_id (Some s) = (true, None).
Proof.
  intros Hne Hev Hlen. unfold validate_session_id.
  apply truthy_true_iff in Hne. rewrite Hne. cbn [negb].
  destruct (Str.len s >? 255) eqn:E; [apply Z.gtb_lt in E; lia | ].
  rewrite matches_id_pattern_eq.
  destruct (ids_of_app s "" Hev (or_introl eq_refl)) as [H1 H2].
  rewrite string_app_nil_r in H1, H2. rewrite H1, H2.
  destruct s; [discriminate Hne | reflexivity].
Qed.

End GeneratedIds.

Section ServiceMore.

Import CacheService.

Variable World : Type.
Variable llm_invoke : string -> World -> llm_outcome * World.
Variable numexpr_evaluate : string -> eval_outcome.
Variable now : World -> Z.
Variable uuid4 : World -> string * World.
Variable db_history : string -> Z -> World -> (string + list message) * World.
Variable db_save_conversation :
  string -> string -> string -> string -> string -> World -> World.
Variable db_delete : string -> World -> (string + Z) * World.
Variable db_message_count : World -> (string + Z) * World.
Variable db_recent_sessions : Z -> World -> (string + list string) * World.

Local Abbreviation process_chat_message :=
  (ChatbotService.process_chat_message World llm_invoke numexpr_evaluate
     now uuid4 db_history db_save_conversation).
Local Abbreviation _get_conversation_history :=
  (ChatbotService._get_conversation_history World now db_history).
Local Abbreviation process_query :=
  (ChatbotDAG.process_query World llm_invoke numexpr_evaluate).

Implicit Types (c : gmap string session_data) (w : World).

(** X15. A successful request: the error is empty (whatever the routed stage
    reported), the reply and the session identifier are not, and the cache
    holds, under the identifier returned and stamped with the current time, a
    history of at most 20 entries that ends with the exchange: the user entry
    with the sanitized query and the type returned, then the assistant entry
    whose content is the reply (or is empty, when the reply is the fallback
    text). *)
Theorem chat_success_is_cached q sid c w r c' w' :
  process_chat_message q sid c w = (r, c', w') ->
  c_success r = true ->
  c_error r = "" /\ c_response r <> "" /\ c_session_id r <> ""
  /\ exists h a,
       c' !! c_session_id r = Some (SessionData h (now w'))
       /\ (length h <= 20)%nat
       /\ last_n 2 h
          = [Message "user" (QueryValidator.sanitize_query q) (Some (c_query_type r));
             Message "assistant" a None]
       /\ c_response r
          = if Str.truthy a then a else "I'm sorry, I couldn't generate a response.".
Proof.
  intros H Hs.
  destruct (chat_success_shape _ _ _ _ _ _ _ _ _ _ _ _ _ _ H Hs)
    as (sid1 & w0 & h & c1 & w1 & res & w2 & Hv & Hsid & Hg & Hp & -> & Hw & ->).
  cbn [c_error c_response c_session_id c_query_type].
  assert (Hres : res = fst (process_query (QueryValidator.sanitize_query q) sid1 (Some h) w1))
    by (rewrite Hp; reflexivity).
  split; [reflexivity | ].
  split; [rewrite Hres; apply process_query_response | ].
  split; [exact (chosen_session_nonempty _ _ _ _ _ _ Hsid) | ].
  destruct (process_query_state World llm_invoke numexpr_evaluate
              (QueryValidator.sanitize_query q) sid1 (Some h) w1) as (s3 & Hst & Hu).
  rewrite <- Hres in Hst. rewrite entry_query_sanitized in Hu.
  clear Hres Hp Hw. subst res.
  cbn [r_chat_history r_query_type r_response].
  exists (chat_history (WorkflowNodes.memory_node s3)), (response s3).
  split; [apply lookup_insert_eq | ].
  split; [apply memory_node_bound | ].
  split.
  - rewrite memory_node_appends, last_n_app by (cbn; lia). rewrite Hu. reflexivity.
  - rewrite output_node_reply, memory_node_response. reflexivity.
Qed.

(** X16. A request touches the cache entry of its own session only: every
    other session's entry is after the request what it was before. *)
Theorem chat_other_sessions_untouched q sid c w s' :
  s' <> c_session_id (fst (fst (process_chat_message q sid c w))) ->
  snd (fst (process_chat_message q sid c w)) !! s' = c !! s'.
Proof.
  destruct (process_chat_message q sid c w) as [[r c'] w'] eqn:H.
  cbn [fst snd]. intros Hne.
  destruct (c_success r) eqn:Hs.
  - destruct (chat_success_shape _ _ _ _ _ _ _ _ _ _ _ _ _ _ H Hs)
      as (sid1 & w0 & h & c1 & w1 & res & w2 & Hv & Hsid & Hg & Hp & -> & Hw & ->).
    cbn [c_session_id] in Hne. unfold save_session_history.
    rewrite lookup_insert_ne by congruence.
    apply (conversation_history_others _ _ _ _ _ _ _ _ _ _ Hg Hne).
  - destruct (chat_failure_shape _ _ _ _ _ _ _ _ _ _ _ _ _ _ H Hs)
      as [(e & Hv & -> & -> & ->) | (sid1 & w0 & e & Hv & Hsid & Hg & ->)].
    + reflexivity.
    + cbn [c_session_id] in Hne.
      apply (conversation_history_others _ _ _ _ _ _ _ _ _ _ Hg Hne).
Qed.

(** X17. Read-through. When the cache has nothing live for a session and the
    store returns a non-empty history, [_get_conversation_history] returns it
    and caches it, so that the next read within 60 minutes returns the same
    history from the cache, leaving cache and world as they are (the store is
    not read again). *)
Theorem conversation_history_read_through sid c w (h : list message) w' w'' :
  fst (get_session_history (now w) sid c) = [] ->
  db_history sid 20 w = (inr h, w') ->
  h <> [] ->
  now w'' - now w' <= timedelta_minutes 60 ->
  exists c',
    _get_conversation_history sid c w = (inr h, c', w')
    /\ _get_conversation_history sid c' w'' = (inr h, c', w'').
Proof.
  intros Hmiss Hdb Hh Hage.
  exists (save_session_history (now w') sid h (snd (get_session_history (now w) sid c))).
  unfold ChatbotService._get_conversation_history at 1.
  destruct (get_session_history (now w) sid c) as [cached c0].
  cbn [fst snd] in *. subst cached. rewrite Hdb.
  destruct h as [|m h]; [contradiction | ].
  split; [reflexivity | ].
  unfold ChatbotService._get_conversation_history.
  rewrite (get_live (now w'') sid _ (SessionData (m :: h) (now w'))).
  - reflexivity.
  - apply lookup_insert_eq.
  - apply not_expired_iff. cbn [timestamp]. exact Hage.
Qed.

(** X18. After a successful request, the session's history is served from the
    cache for the next 60 minutes: [get_session_history] with a limit of 20 or
    more returns exactly the cached history, marked as from the cache, and the
    next request of the session starts from it; neither reads the store nor
    changes the cache. *)
Theorem chat_then_history q sid c w r c' w' limit w'' :
  process_chat_message q sid c w = (r, c', w') ->
  c_success r = true ->
  now w'' - now w' <= timedelta_minutes 60 ->
  20 <= limit ->
  exists h,
    c' !! c_session_id r = Some (SessionData h (now w'))
    /\ ChatbotService.get_session_history World now db_history
         (c_session_id r) limit c' w''
       = (inr (ChatbotService.mkHistoryResult true (c_session_id r) h "cache"), c', w'')
    /\ _get_conversation_history (c_session_id r) c' w'' = (inr h, c', w'').
Proof.
  intros H Hs Hage Hlimit.
  destruct (chat_success_entry _ _ _ _ _ _ _ _ _ _ _ _ _ _ H Hs) as (h & Hc & Hne & Hlen).
  exists h. split; [exact Hc | ].
  assert (Hget : get_session_history (now w'') (c_session_id r) c' = (h, c')).
  { apply (get_live _ _ _ _ Hc). apply not_expired_iff. exact Hage. }
  unfold ChatbotService.get_session_history, ChatbotService._get_conversation_history.
  rewrite Hget. destruct h as [|m h]; [contradiction | ].
  rewrite slice_to_all by lia. split; reflexivity.
Qed.

(** X19. [clear_session] removes the session's cache entry before it asks the
    store, so the entry is gone whether the store raises or not; it reports the
    cache as cleared exactly when an entry was there; and the next
    [get_session_history] of the session reads the store. *)
Theorem clear_session_forgets sid c w :
  let '(res, c', _) := ChatbotService.clear_session World db_delete sid c w in
  c' = delete sid c
  /\ session_exists (now w) sid c' = false
  /\ (forall ok, res = inr ok ->
        ChatbotService.k_success ok = true
        /\ (ChatbotService.k_cache_cleared ok = true <-> is_Some (c !! sid))
        /\ fst (db_delete sid w) = inr (ChatbotService.k_messages_deleted ok))
  /\ forall limit w2,
       ChatbotService.get_session_history World now db_history sid limit c' w2
       = match db_history sid limit w2 with
         | (inl e, w3) => (inl e, c', w3)
         | (inr h, w3) =>
             (inr (ChatbotService.mkHistoryResult true sid h "database"),
              match h with
              | [] => c'
              | _ :: _ => save_session_history (now w3) sid h c'
              end, w3)
         end.
Proof.
  unfold ChatbotService.clear_session.
  pose proof (clear_session_snd sid c) as Hsnd.
  pose proof (clear_session_fst sid c) as Hfst.
  destruct (CacheService.clear_session sid c) as [cleared c1].
  cbn [fst snd] in Hsnd, Hfst. subst c1.
  assert (Hrest : session_exists (now w) sid (delete sid c) = false
                  /\ forall limit w2,
                       ChatbotService.get_session_history World now db_history sid limit
                         (delete sid c) w2
                       = match db_history sid limit w2 with
                         | (inl e, w3) => (inl e, delete sid c, w3)
                         | (inr h, w3) =>
                             (inr (ChatbotService.mkHistoryResult true sid h "database"),
                              match h with
                              | [] => delete sid c
                              | _ :: _ => save_session_history (now w3) sid h (delete sid c)
                              end, w3)
                         end).
  { split.
    - unfold session_exists. rewrite lookup_delete_eq. reflexivity.
    - intros limit w2. unfold ChatbotService.get_session_history.
      rewrite get_absent by apply lookup_delete_eq.
      destruct (db_history sid limit w2) as [[e | h] w3]; reflexivity. }
  destruct Hrest as [Hex Hget].
  destruct (db_delete sid w) as [[e | n] w1].
  - split; [reflexivity | split; [exact Hex | split; [ | exact Hget]]].
    intros ok [=].
  - split; [reflexivity | split; [exact Hex | split; [ | exact Hget]]].
    intros ok [= <-].
    cbn [ChatbotService.k_success ChatbotService.k_cache_cleared
         ChatbotService.k_messages_deleted fst].
    split; [reflexivity | split; [exact Hfst | reflexivity]].
Qed.

(** X20. A valid query sent without a session identifier (none, or an empty
    one) runs under a generated identifier, [session-] followed by the UUID;
    when the UUID consists of identifier characters and is at most 247
    characters long (a UUID in its usual form is 36 of [0-9a-f-]), the
    identifier returned passes [validate_session_id]. *)
Theorem generated_session_id_valid q sid c w :
  fst (QueryValidator.validate_query q) = true ->
  ChatbotService.or_blank sid = "" ->
  SessionIds.every SessionIds.id_char (fst (uuid4 w)) = true ->
  (String.length (fst (uuid4 w)) <= 247)%nat ->
  let r := fst (fst (process_chat_message q sid c w)) in
  c_session_id r = "session-" ++ fst (uuid4 w)
  /\ SessionValidator.validate_session_id (Some (c_session_id r)) = (true, None).
Proof.
  intros Hv Hsid Hev Hlen r.
  assert (Hr : c_session_id r = "session-" ++ fst (uuid4 w)).
  { subst r. unfold ChatbotService.process_chat_message, validate_and_sanitize_query.
    destruct (QueryValidator.validate_query q) as [[|] e]; [ | discriminate Hv].
    rewrite Hsid. cbn [Str.truthy negb].
    unfold ChatbotService._generate_session_id.
    destruct (uuid4 w) as [u w0]. cbn [fst].
    destruct (ChatbotService._get_conversation_history World now db_history _ c w0)
      as [[[e' | h] c1] w1]; [reflexivity | ].
    destruct (ChatbotDAG.process_query World llm_invoke numexpr_evaluate _ _ (Some h) w1)
      as [res w2].
    destruct (negb (r_success res)); reflexivity. }
  split; [exact Hr | ]. rewrite Hr.
  apply validate_session_id_ids.
  - discriminate.
  - rewrite every_app, Hev. reflexivity.
  - unfold Str.len. rewrite length_app_string. cbn [String.length]. lia.
Qed.

End ServiceMore.

(** * The further properties at concrete inputs *)

(** A read exactly 60 minutes after the write still returns the history. *)
Lemma cache_round_trip_witness :
  CacheService.timedelta_minutes 60 - 0 <= CacheService.timedelta_minutes 60
  /\ fst (CacheService.get_session_history (CacheService.timedelta_minutes 60) "s1"
            (CacheService.save_session_history 0 "s1" [Message "user" "hi" None] ∅))
     = [Message "user" "hi" None].
Proof.
  assert (H : CacheService.timedelta_minutes 60 - 0 <= CacheService.timedelta_minutes 60)
    by (vm_compute; discriminate).
  split; [exact H | ].
  destruct (cache_round_trip ∅ "s1" [Message "user" "hi" None] 0 _ H) as [E _].
  rewrite E. reflexivity.
Defined.

Lemma cache_save_overwrites_witness :
  100 - 50 <= CacheService.timedelta_minutes 60
  /\ fst (CacheService.get_session_history 100 "s1"
            (CacheService.save_session_history 50 "s1" [Message "user" "b" None]
               (CacheService.save_session_history 0 "s1" [Message "user" "a" None] ∅)))
     = [Message "user" "b" None].
Proof.
  assert (H : 100 - 50 <= CacheService.timedelta_minutes 60)
    by (vm_compute; discriminate).
  split; [exact H | ].
  destruct (cache_save_overwrites ∅ "s1" [Message "user" "a" None]
              [Message "user" "b" None] 0 50 100 H) as (_ & _ & E).
  exact E.
Defined.

Lemma cache_sessions_isolated_witness :
  "s1" <> "s2"
  /\ CacheService.save_session_history 0 "s1" [Message "user" "a" None] ∅ !! "s2"
     = (∅ : gmap string CacheService.session_data) !! "s2".
Proof.
  assert (H : "s1" <> "s2") by discriminate.
  split; [exact H | ].
  destruct (cache_sessions_isolated ∅ "s1" "s2" [Message "user" "a" None] 0 0 0 H)
    as ((E & _) & _).
  exact E.
Defined.

(** A greeting is answered by the provider: the clock of the demo world
    advances by the one call. *)
Lemma text_query_asks_provider_once_witness :
  QueryValidator.is_calculation_query (Pipeline.entry_query "Hello there") = false
  /\ snd (Demo.process_query "Hello there" "s1" None 0) = 1.
Proof.
  assert (H : QueryValidator.is_calculation_query (Pipeline.entry_query "Hello there")
              = false) by (vm_compute; reflexivity).
  split; [exact H | ].
  pose proof (text_query_asks_provider_once Demo.World Demo.llm_invoke
                Demo.numexpr_evaluate "Hello there" "s1" None 0 H) as P.
  cbv zeta in P. destruct P as (Hw & _).
  unfold Demo.process_query. rewrite Hw. vm_compute. reflexivity.
Defined.

(** A sum is answered without the provider: the world is as it was. *)
Lemma calculation_never_asks_provider_witness :
  QueryValidator.is_calculation_query (Pipeline.entry_query "5 + 3") = true
  /\ snd (Demo.process_query "5 + 3" "s1" None 7) = 7.
Proof.
  assert (H : QueryValidator.is_calculation_query (Pipeline.entry_query "5 + 3") = true)
    by (vm_compute; reflexivity).
  split; [exact H | ].
  pose proof (calculation_never_asks_provider Demo.World Demo.llm_invoke
                Demo.numexpr_evaluate "5 + 3" "s1" None 7 H) as P.
  cbv zeta in P. destruct P as (Hw & _).
  exact Hw.
Defined.

(** An eleventh entry, the oldest, does not change the reply. *)
Lemma reply_ignores_older_history_witness :
  let ten := repeat (Message "user" "again" (Some "text")) 10 in
  let eleven := Message "user" "please fail" (Some "text") :: ten in
  last_n 10 eleven = last_n 10 ten
  /\ r_response (fst (Demo.process_query "Hello" "s1" (Some eleven) 0))
     = r_response (fst (Demo.process_query "Hello" "s2" (Some ten) 0)).
Proof.
  intros ten eleven.
  assert (H : last_n 10 eleven = last_n 10 ten) by reflexivity.
  split; [exact H | ].
  pose proof (reply_ignores_older_history Demo.World Demo.llm_invoke
                Demo.numexpr_evaluate "Hello" "s1" "s2" eleven ten 0 H) as P.
  cbv zeta in P. destruct P as (_ & Hr & _).
  exact Hr.
Defined.

Lemma chat_success_is_cached_witness :
  c_success (fst (fst (Demo.process_chat_message "Hello" None ∅ 0))) = true
  /\ c_error (fst (fst (Demo.process_chat_message "Hello" None ∅ 0))) = "".
Proof.
  assert (Hs : c_success (fst (fst (Demo.process_chat_message "Hello" None ∅ 0))) = true)
    by (vm_compute; reflexivity).
  split; [exact Hs | ].
  apply (chat_success_is_cached Demo.World Demo.llm_invoke Demo.numexpr_evaluate
           Demo.now Demo.uuid4 Demo.db_history Demo.db_save_conversation
           "Hello" None ∅ 0
           (fst (fst (Demo.process_chat_message "Hello" None ∅ 0)))
           (snd (fst (Demo.process_chat_message "Hello" None ∅ 0)))
           (snd (Demo.process_chat_message "Hello" None ∅ 0))).
  - unfold Demo.process_chat_message.
    destruct (ChatbotService.process_chat_message _ _ _ _ _ _ _ _ _ _ _) as [[r c'] w'].
    reflexivity.
  - exact Hs.
Defined.

Lemma chat_other_sessions_untouched_witness :
  "s2" <> c_session_id (fst (fst (Demo.process_chat_message "Hello" (Some "s1") ∅ 0)))
  /\ snd (fst (Demo.process_chat_message "Hello" (Some "s1") ∅ 0)) !! "s2" = None.
Proof.
  assert (H : "s2" <> c_session_id
                        (fst (fst (Demo.process_chat_message "Hello" (Some "s1") ∅ 0))))
    by (vm_compute; discriminate).
  split; [exact H | ].
  unfold Demo.process_chat_message in *.
  rewrite (chat_other_sessions_untouched Demo.World Demo.llm_invoke Demo.numexpr_evaluate
             Demo.now Demo.uuid4 Demo.db_history Demo.db_save_conversation
             "Hello" (Some "s1") ∅ 0 "s2" H).
  reflexivity.
Defined.

(** A store that holds one entry for every session. *)
Lemma conversation_history_read_through_witness :
  let db_history := fun (_ : string) (_ : Z) (w : Z) =>
                      (inr [Message "user" "hi" (Some "text")] : string + list message,
                       w + 1) in
  exists c',
    ChatbotService._get_conversation_history Z Demo.now db_history "s1" ∅ 0
    = (inr [Message "user" "hi" (Some "text")], c', 1)
    /\ ChatbotService._get_conversation_history Z Demo.now db_history "s1" c' 5
       = (inr [Message "user" "hi" (Some "text")], c', 5).
Proof.
  intros db_history.
  apply (conversation_history_read_through Z Demo.now db_history "s1" ∅ 0
           [Message "user" "hi" (Some "text")] 1 5).
  - reflexivity.
  - reflexivity.
  - discriminate.
  - vm_compute. discriminate.
Defined.

Lemma chat_then_history_witness :
  c_success (fst (fst (Demo.process_chat_message "Hello" (Some "s1") ∅ 0))) = true
  /\ exists h,
       ChatbotService._get_conversation_history Demo.World Demo.now Demo.db_history "s1"
         (snd (fst (Demo.process_chat_message "Hello" (Some "s1") ∅ 0)))
         (snd (Demo.process_chat_message "Hello" (Some "s1") ∅ 0))
       = (inr h, snd (fst (Demo.process_chat_message "Hello" (Some "s1") ∅ 0)),
          snd (Demo.process_chat_message "Hello" (Some "s1") ∅ 0)).
Proof.
  assert (Hs : c_success (fst (fst (Demo.process_chat_message "Hello" (Some "s1") ∅ 0)))
               = true) by (vm_compute; reflexivity).
  split; [exact Hs | ].
  assert (Hid : c_session_id (fst (fst (Demo.process_chat_message "Hello" (Some "s1") ∅ 0)))
                = "s1") by (vm_compute; reflexivity).
  destruct (chat_then_history Demo.World Demo.llm_invoke Demo.numexpr_evaluate
              Demo.now Demo.uuid4 Demo.db_history Demo.db_save_conversation
              "Hello" (Some "s1") ∅ 0
              (fst (fst (Demo.process_chat_message "Hello" (Some "s1") ∅ 0)))
              (snd (fst (Demo.process_chat_message "Hello" (Some "s1") ∅ 0)))
              (snd (Demo.process_chat_message "Hello" (Some "s1") ∅ 0))
              20
              (snd (Demo.process_chat_message "Hello" (Some "s1") ∅ 0)))
    as (h & _ & _ & Hg).
  - unfold Demo.process_chat_message.
    destruct (ChatbotService.process_chat_message _ _ _ _ _ _ _ _ _ _ _) as [[r c'] w'].
    reflexivity.
  - exact Hs.
  - unfold CacheService.timedelta_minutes. lia.
  - lia.
  - exists h. rewrite Hid in Hg. exact Hg.
Defined.

(** The demo world's identifier source returns the clock in decimal. *)
Lemma generated_session_id_valid_witness :
  fst (QueryValidator.validate_query "Hello") = true
  /\ c_session_id (fst (fst (Demo.process_chat_message "Hello" None ∅ 0))) = "session-0"
  /\ SessionValidator.validate_session_id (Some "session-0") = (true, None).
Proof.
  assert (Hv : fst (QueryValidator.validate_query "Hello") = true)
    by (vm_compute; reflexivity).
  split; [exact Hv | ].
  pose proof (generated_session_id_valid Demo.World Demo.llm_invoke Demo.numexpr_evaluate
                Demo.now Demo.uuid4 Demo.db_history Demo.db_save_conversation
                "Hello" None ∅ 0 Hv eq_refl) as P.
  assert (He : SessionIds.every SessionIds.id_char (fst (Demo.uuid4 0)) = true)
    by (vm_compute; reflexivity).
  assert (Hl : (String.length (fst (Demo.uuid4 0%Z)) <= 247)%nat)
    by (vm_compute; lia).
  specialize (P He Hl). cbv zeta in P. destruct P as [P1 P2].
  assert (Hu : "session-" ++ fst (Demo.uuid4 0) = "session-0") by (vm_compute; reflexivity).
  rewrite Hu in P1. unfold Demo.process_chat_message.
  split; [exact P1 | ]. rewrite P1 in P2. exact P2.
Defined.

(** * C7: the history bound, through the service *)

Section SessionFacts.

Import CacheService ServiceSession.

Variable World : Type.
Variable llm_invoke : string -> World -> llm_outcome * World.
Variable numexpr_evaluate : string -> eval_outcome.
Variable now : World -> Z.
Variable uuid4 : World -> string * World.
Variable db_history : string -> Z -> World -> (string + list message) * World.
Variable db_save_conversation :
  string -> string -> string -> string -> string -> World -> World.

Local Abbreviation process_chat_message :=
  (ChatbotService.process_chat_message World llm_invoke numexpr_evaluate
     now uuid4 db_history db_save_conversation).
Local Abbreviation chat_session :=
  (ServiceSession.chat_session World llm_invoke numexpr_evaluate
     now uuid4 db_history db_save_conversation).
Local Abbreviation timely :=
  (ServiceSession.timely World llm_invoke numexpr_evaluate
     now uuid4 db_history db_save_conversation).
Local Abbreviation exchange_of := (ServiceSession.exchange_of World).

Implicit Types (c : gmap string session_data) (w : World).

Lemma concat_pairs_length (exs : list (list message)) :
  Forall (fun ex => length ex = 2%nat) exs ->
  length (concat exs) = (2 * length exs)%nat.
Proof.
  induction 1 as [|ex exs Hex _ IH]; [reflexivity | ].
  cbn [concat length]. rewrite length_app, IH, Hex. lia.
Qed.

Lemma last_n_concat_pairs (exs : list (list message)) :
  Forall (fun ex => length ex = 2%nat) exs ->
  (10 <= length exs)%nat ->
  last_n 20 (concat exs) = concat (last_n 10 exs).
Proof.
  intros Hall Hn.
  assert (Hten : length (concat (last_n 10 exs)) = 20%nat).
  { rewrite concat_pairs_length.
    - rewrite last_n_length. lia.
    - unfold last_n. apply Forall_drop. exact Hall. }
  rewrite <- (firstn_skipn (length exs - 10) exs) at 1.
  rewrite concat_app. fold (last_n 10 exs).
  rewrite last_n_app by lia.
  apply last_n_all. lia.
Qed.

Lemma exchanges_pairs (requests : list (request World)) exs :
  Forall2 exchange_of requests exs ->
  Forall (fun ex => length ex = 2%nat) exs /\ length exs = length requests.
Proof.
  induction 1 as [|rq ex rqs exs (a & ->) _ [IH1 IH2]].
  - split; [constructor | reflexivity].
  - split; [constructor; [reflexivity | exact IH1] | cbn [length]; lia].
Qed.

(** A request of a session with a given identifier runs under it. *)
Lemma chosen_session_given sid w :
  sid <> "" ->
  (if negb (Str.truthy (ChatbotService.or_blank (Some sid)))
   then ChatbotService._generate_session_id World uuid4 w
   else (ChatbotService.or_blank (Some sid), w)) = (sid, w).
Proof.
  intros H. apply truthy_true_iff in H.
  change (ChatbotService.or_blank (Some sid)) with sid. rewrite H. reflexivity.
Qed.

(** One successful request: the cache afterwards holds, stamped with the
    time, the last 20 entries of the history the request loaded followed by
    its exchange. *)
Lemma chat_step q sid c w r c1 w1 :
  sid <> "" ->
  process_chat_message q (Some sid) c w = (r, c1, w1) ->
  c_success r = true ->
  exists h c0 w0 ex,
    ChatbotService._get_conversation_history World now db_history sid c w
    = (inr h, c0, w0)
    /\ exchange_of (id, q) ex
    /\ c1 = save_session_history (now w1) sid (last_n 20 (h ++ ex)%list) c0.
Proof.
  intros Hsid H Hs.
  destruct (chat_success_shape _ _ _ _ _ _ _ _ _ _ _ _ _ _ H Hs)
    as (sid1 & w0 & h & c0 & w0' & res & w2 & Hv & Hch & Hg & Hp & _ & _ & ->).
  rewrite (chosen_session_given sid w Hsid) in Hch.
  injection Hch as <- <-.
  exists h, c0, w0'.
  pose proof (process_query_history World llm_invoke numexpr_evaluate
                (QueryValidator.sanitize_query q) sid (Some h) w0') as [Hh (a & Hx)].
  rewrite Hp in Hh, Hx. cbn [fst or_empty] in Hh, Hx.
  rewrite entry_query_sanitized in Hx.
  exists (Pipeline.exchange res).
  split; [exact Hg | split].
  - exists a. exact Hx.
  - rewrite Hh. reflexivity.
Qed.

(** A session whose cache entry is live: every request continues from the
    history the request before it left. *)
Lemma chat_session_live (requests : list (request World)) :
  forall sid c w (h : list message) T,
    sid <> "" ->
    c !! sid = Some (SessionData h T) ->
    h <> [] ->
    (length h <= 20)%nat ->
    timely requests sid c w (Some T) ->
    Forall (fun r => c_success r = true) (fst (fst (chat_session requests sid c w))) ->
    exists exs,
      Forall2 exchange_of requests exs
      /\ snd (fst (chat_session requests sid c w)) !! sid
         = Some (SessionData (last_n 20 (h ++ concat exs)%list)
                   match requests with
                   | [] => T
                   | _ :: _ => now (snd (chat_session requests sid c w))
                   end).
Proof.
  induction requests as [|[pass q] requests IH]; intros sid c w h T Hsid Hc Hne Hlen Ht Hs.
  - exists []. split; [constructor | ].
    cbn [ServiceSession.chat_session fst snd concat]. rewrite app_nil_r.
    rewrite last_n_all by exact Hlen. exact Hc.
  - cbn [ServiceSession.chat_session ServiceSession.timely] in *.
    destruct Ht as [Hage Ht].
    destruct (process_chat_message q (Some sid) c (pass w)) as [[r c1] w1] eqn:E1.
    destruct (chat_session requests sid c1 w1) as [[rs c2] w2] eqn:E2.
    cbn [fst snd] in *.
    apply Forall_cons in Hs as [Hr Hrs].
    destruct (chat_step _ _ _ _ _ _ _ Hsid E1 Hr) as (h' & c0 & w0 & ex & Hg & Hex & ->).
    assert (Hget : get_session_history (now (pass w)) sid c = (h, c)).
    { apply (get_live _ _ _ _ Hc). apply not_expired_iff. exact Hage. }
    unfold ChatbotService._get_conversation_history in Hg. rewrite Hget in Hg.
    destruct h as [|m h]; [contradiction | ].
    injection Hg as <- <- <-.
    set (h1 := last_n 20 ((m :: h) ++ ex)%list) in *.
    assert (Hex2 : length ex = 2%nat) by (destruct Hex as (a & ->); reflexivity).
    assert (Hlen1 : length h1 = Nat.min 20 (length (m :: h) + 2)).
    { unfold h1. rewrite last_n_length, length_app, Hex2. reflexivity. }
    specialize (IH sid (save_session_history (now w1) sid h1 c) w1 h1 (now w1) Hsid).
    rewrite E2 in IH. cbn [fst snd] in IH.
    destruct IH as (exs & HF & Hl).
    + apply lookup_insert_eq.
    + intros E. rewrite E in Hlen1. cbn [length] in Hlen1. lia.
    + lia.
    + exact Ht.
    + exact Hrs.
    + exists (ex :: exs). split.
      * constructor; [ | exact HF].
        destruct Hex as (a & ->). exists a. reflexivity.
      * rewrite Hl. cbn [concat]. unfold h1.
        rewrite last_n_absorb, app_assoc.
        destruct requests as [|rq requests]; [ | reflexivity].
        cbn [ServiceSession.chat_session] in E2. injection E2 as _ _ <-. reflexivity.
Qed.


End SessionFacts.


